(** * design_scheme_extractor.py: the synthesis pipeline, embedded and verified

    The resolvers, the schema assembler, the website-type detector, the
    class-pattern detector, the plugin dispatcher and the artifact derivers
    of [design_scheme_extractor.py] as Rocq functions.
    Python [str] values are [string]s (one [ascii] per character, compared
    by code point), [None]-able values are [option]s, Python sets of strings
    are [gset string], dictionaries with open key sets are [gmap string _],
    and dictionaries with a fixed key set are records.  A call that may raise
    is an [option] (or a dedicated outcome type) whose failure case is the
    [except] branch of the source. *)

From Stdlib Require Import ZArith NArith Strings.Ascii Numbers.HexadecimalString.
From Stdlib Require Numbers.DecimalString Numbers.DecimalN.
From stdpp Require Import gmap strings list sorting.

#[local] Set Default Proof Using "Type".

(** ** Python string primitives *)

Module Py.

Definition is_digit (c : ascii) : bool :=
  let n := N_of_ascii c in ((48 <=? n) && (n <=? 57))%N.

(** The characters of code below 256 that [str.lower] changes: A to Z and
    the Latin-1 capitals (192 to 222 without the multiplication sign, 215);
    each stands 32 below its lowercase. *)
Definition is_upper (c : ascii) : bool :=
  let n := N_of_ascii c in
  (((65 <=? n) && (n <=? 90)) || ((192 <=? n) && (n <=? 222) && negb (n =? 215)))%N.

Definition lower_char (c : ascii) : ascii :=
  if is_upper c then ascii_of_N (N_of_ascii c + 32) else c.

(** [s.lower()] *)
Fixpoint lower (s : string) : string :=
  match s with
  | EmptyString => EmptyString
  | String c s' => String (lower_char c) (lower s')
  end.

(** [needle in s] *)
Fixpoint contains (needle s : string) : bool :=
  String.prefix needle s ||
  match s with
  | EmptyString => false
  | String _ s' => contains needle s'
  end.

(** [s.endswith(suffix)] *)
Fixpoint endswith (s suffix : string) : bool :=
  String.eqb s suffix ||
  match s with
  | EmptyString => false
  | String _ s' => endswith s' suffix
  end.

(** [s[i:j]] for [0 <= i <= j] *)
Definition slice (s : string) (i j : nat) : string := String.substring i (j - i) s.

(** Truthiness of a value that is a [str] or [None]. *)
Definition truthy (v : option string) : bool :=
  match v with
  | Some s => negb (String.eqb s "")
  | None => false
  end.

(** [a or b] on such values. *)
Definition or_else (a b : option string) : option string :=
  if truthy a then a else b.

(** The leading run of decimal digits of [s] and what follows it. *)
Fixpoint span_digits (s : string) : string * string :=
  match s with
  | String c s' =>
      if is_digit c then let '(d, r) := span_digits s' in (String c d, r)
      else (EmptyString, s)
  | EmptyString => (EmptyString, EmptyString)
  end.

(** [re.findall(r'\d+', s)]: the maximal runs of digits, left to right.
    [cur] is the run being read. *)
Fixpoint findall_digits_from (cur s : string) : list string :=
  match s with
  | EmptyString => if String.eqb cur "" then [] else [cur]
  | String c s' =>
      if is_digit c then findall_digits_from (cur +:+ String c "") s'
      else (if String.eqb cur "" then [] else [cur]) ++ findall_digits_from "" s'
  end.

Definition findall_digits (s : string) : list string := findall_digits_from "" s.

(** [m = re.match(r'(\d+)', s)] and [m.group(1)]. *)
Definition match_leading_digits (s : string) : option string :=
  let d := fst (span_digits s) in
  if String.eqb d "" then None else Some d.

(** [s.strip(chars)], [chars] given as a predicate. *)
Fixpoint lstrip (p : ascii -> bool) (s : string) : string :=
  match s with
  | String c s' => if p c then lstrip p s' else s
  | EmptyString => EmptyString
  end.

Fixpoint rstrip (p : ascii -> bool) (s : string) : string :=
  match s with
  | String c s' =>
      let r := rstrip p s' in
      if p c && String.eqb r "" then EmptyString else String c r
  | EmptyString => EmptyString
  end.

Definition strip (p : ascii -> bool) (s : string) : string := rstrip p (lstrip p s).

(** The two quote characters (codes 34 and 39) that [extract_typography]
    strips from both ends of a font family. *)
Definition is_quote (c : ascii) : bool :=
  let n := N_of_ascii c in ((n =? 34) || (n =? 39))%N.

(** [str.isspace] on one character of code below 256: the set of
    [strip()]. *)
Definition is_space (c : ascii) : bool :=
  let n := N_of_ascii c in
  (((9 <=? n) && (n <=? 13)) || ((28 <=? n) && (n <=? 32)) || (n =? 133) || (n =? 160))%N.

(** The same characters separate the words of [s.split()]. *)
Definition is_whitespace (c : ascii) : bool := is_space c.

(** [s.split()]: the maximal runs of characters that are not whitespace,
    left to right.  [cur] is the run being read. *)
Fixpoint split_from (cur s : string) : list string :=
  match s with
  | EmptyString => if String.eqb cur "" then [] else [cur]
  | String c s' =>
      if is_whitespace c
      then (if String.eqb cur "" then [] else [cur]) ++ split_from "" s'
      else split_from (cur +:+ String c "") s'
  end.

Definition split (s : string) : list string := split_from "" s.

(** [s.split(',')[0]] *)
Fixpoint before_comma (s : string) : string :=
  match s with
  | String c s' => if Ascii.eqb c "," then EmptyString else String c (before_comma s')
  | EmptyString => EmptyString
  end.

(** [s.replace('px', '')] *)
Fixpoint remove_px (s : string) : string :=
  match s with
  | String "p" (String "x" s') => remove_px s'
  | String c s' => String c (remove_px s')
  | EmptyString => EmptyString
  end.

(** [d.get(k, dflt)] *)
Definition dict_get {V} (d : gmap string V) (k : string) (dflt : V) : V :=
  default dflt (d !! k).

Definition digit_value (c : ascii) : Z := Z.of_N (N_of_ascii c) - 48.

Fixpoint decimal_value_from (acc : Z) (s : string) : Z :=
  match s with
  | EmptyString => acc
  | String c s' => decimal_value_from (10 * acc + digit_value c) s'
  end.

(** [int(s)] for a string of digits.  CPython refuses, with [ValueError],
    a literal of more than [sys.get_int_max_str_digits()] digits when that
    limit is in force (4300 by default since 3.11); [limit] is that setting,
    [None] where the interpreter has no limit or has it switched off. *)
Definition int (limit : option N) (s : string) : option Z :=
  match limit with
  | Some m =>
      if (m <? N.of_nat (String.length s))%N then None
      else Some (decimal_value_from 0 s)
  | None => Some (decimal_value_from 0 s)
  end.

(** [format(n, 'x')] for [n >= 0]. *)
Definition hex_of_N (n : N) : string := NilZero.string_of_uint (N.to_hex_uint n).

(** [f'{n:02x}']: lowercase hexadecimal, sign-aware zero padding to width 2. *)
Definition format_02x (n : Z) : string :=
  let digits := hex_of_N (Z.abs_N n) in
  if (n <? 0)%Z then "-" +:+ digits
  else if String.length digits <? 2 then "0" +:+ digits
  else digits.

Definition is_hex_char (c : ascii) : bool :=
  let n := N_of_ascii c in
  (((48 <=? n) && (n <=? 57)) || ((97 <=? n) && (n <=? 102)) || ((65 <=? n) && (n <=? 70)))%N.

Definition is_lower_hex_char (c : ascii) : bool :=
  let n := N_of_ascii c in
  (((48 <=? n) && (n <=? 57)) || ((97 <=? n) && (n <=? 102)))%N.

Fixpoint all_chars (p : ascii -> bool) (s : string) : bool :=
  match s with
  | EmptyString => true
  | String c s' => p c && all_chars p s'
  end.

(** [[0-9a-fA-F]{n}] at the start of [s]: what follows the [n] digits. *)
Fixpoint match_hex_run (n : nat) (s : string) : option string :=
  match n with
  | 0 => Some s
  | S n' =>
      match s with
      | String c s' => if is_hex_char c then match_hex_run n' s' else None
      | EmptyString => None
      end
  end.

(** [re.match(r'^#[0-9a-fA-F]{6}$', s)]: without [re.MULTILINE], [$] also
    matches just before a newline that ends the string. *)
Definition match_hex6 (s : string) : bool :=
  match s with
  | String c rest =>
      Ascii.eqb c "#" &&
      match match_hex_run 6 rest with
      | Some tail => String.eqb tail "" || String.eqb tail (String "010" "")
      | None => false
      end
  | EmptyString => false
  end.

(** The pattern [^#[0-9a-f]{6}$] of the specification, read strictly
    (seven characters, no trailing newline). *)
Definition is_hex6_lower (s : string) : bool :=
  match s with
  | String c rest =>
      Ascii.eqb c "#" && all_chars is_lower_hex_char rest && (String.length rest =? 6)
  | EmptyString => false
  end.

(** [sep.join(l)] *)
Fixpoint join (sep : string) (l : list string) : string :=
  match l with
  | [] => EmptyString
  | x :: rest =>
      match rest with
      | [] => x
      | _ :: _ => x +:+ sep +:+ join sep rest
      end
  end.

(** [str(n)] for an [int]. *)
Definition str_of_int (n : Z) : string :=
  DecimalString.NilZero.string_of_int (Z.to_int n).

(** Python's [<=] on [str]: lexicographic on code points. *)
Definition str_le (a b : string) : Prop := String.leb a b = true.
Definition str_lt (a b : string) : Prop := String.ltb a b = true.

#[export] Instance str_le_dec : RelDecision str_le.
Proof. intros a b. unfold str_le. apply _. Defined.

#[export] Instance str_lt_dec : RelDecision str_lt.
Proof. intros a b. unfold str_lt. apply _. Defined.

(** [sorted(l)] for a list of strings. *)
Definition sorted (l : list string) : list string := merge_sort str_le l.

End Py.

(** ** Color Resolver *)

Section Extractor.

(** The interpreter's limit on [int(str)] conversions (see [Py.int]). *)
Variable int_max_str_digits : option N.

Definition clamp255 (n : Z) : Z := Z.max 0 (Z.min n 255).

Definition hex_of_rgb (r g b : Z) : string :=
  "#" +:+ Py.format_02x r +:+ Py.format_02x g +:+ Py.format_02x b.

(** [rgb_to_hex] (lines 79-95).  The argument is a string or [None]. *)
Definition rgb_to_hex (rgb_str : option string) : option string :=
  match rgb_str with
  | None => None
  | Some s =>
      if negb (Py.truthy (Some s)) || negb (Py.contains "rgb" (Py.lower s)) then None
      else
        let numbers := Py.findall_digits s in
        if 3 <=? length numbers then
          match Py.int int_max_str_digits <$> take 3 numbers with
          | [Some r; Some g; Some b] =>
              Some (hex_of_rgb (clamp255 r) (clamp255 g) (clamp255 b))
          | _ => None (* ValueError *)
          end
        else None
  end.

(** What the collaborators hand to [extract_color_palette]: the ColorThief
    palette ([[]] when it failed), the values added to [colors_from_css_rules]
    and to [computed_colors_raw] in the order of the [add] calls, and the two
    computed styles of [document.body] ([None] when the script raised). *)
Record RawStyleSignals := {
  dominant_colors_rgb : list (Z * Z * Z);
  css_rule_values : list string;
  computed_values : list string;
  body_styles : option (option string * option string)
}.

Definition hex_dominant_colors (sig : RawStyleSignals) : list string :=
  (fun '(r, g, b) => hex_of_rgb r g b) <$> dominant_colors_rgb sig.

Definition colors_from_css_rules (sig : RawStyleSignals) : gset string :=
  list_to_set (css_rule_values sig).

Definition computed_colors_raw (sig : RawStyleSignals) : gset string :=
  list_to_set (computed_values sig).

Definition hex_computed_colors (sig : RawStyleSignals) : gset (option string) :=
  set_map (fun c => rgb_to_hex (Some c)) (computed_colors_raw sig).

Definition hex_css_rule_colors (sig : RawStyleSignals) : gset (option string) :=
  set_map (fun c => rgb_to_hex (Some c)) (colors_from_css_rules sig).

Definition all_hex_colors (sig : RawStyleSignals) : gset (option string) :=
  list_to_set (Some <$> hex_dominant_colors sig)
    ∪ hex_computed_colors sig ∪ hex_css_rule_colors sig.

Definition keep_valid (c : option string) : option string :=
  match c with
  | Some s => if Py.match_hex6 s then Some s else None
  | None => None
  end.

Definition valid_hex_colors (sig : RawStyleSignals) : gset string :=
  set_omap keep_valid (all_hex_colors sig).

(** [list(valid_hex_colors)] enumerates a Python set: every element once, in
    an order fixed by the interpreter's string hashing, not by the program. *)
Definition set_listing (X : gset string) (l : list string) : Prop :=
  NoDup l ∧ ∀ x, x ∈ l ↔ x ∈ X.

Definition background_color_hex (sig : RawStyleSignals) : string :=
  match body_styles sig with
  | Some (bg, _) => default "#ffffff" (Py.or_else (rgb_to_hex bg) (Some "#ffffff"))
  | None => "#ffffff"
  end.

Definition text_color_hex (sig : RawStyleSignals) : string :=
  match body_styles sig with
  | Some (_, fg) => default "#000000" (Py.or_else (rgb_to_hex fg) (Some "#000000"))
  | None => "#000000"
  end.

(** [c.lower() not in [x.lower() for x in excluded]] *)
Definition not_in_lower (c : string) (excluded : list string) : bool :=
  negb (existsb (String.eqb (Py.lower c)) (Py.lower <$> excluded)).

(** [c[1:3] == c[3:5] == c[5:7]] *)
Definition is_grayscale (c : string) : bool :=
  String.eqb (Py.slice c 1 3) (Py.slice c 3 5) && String.eqb (Py.slice c 3 5) (Py.slice c 5 7).

Definition non_gray_colors (bg fg : string) (sorted_colors : list string) : list string :=
  List.filter (fun c => not_in_lower c [bg; fg] && negb (is_grayscale c)) sorted_colors.

Record Roles := {
  role_primary : string;
  role_secondary : string;
  role_accent : string
}.

(** Lines 209-236: the primary/secondary/accent decision, given the listing
    [sorted_colors] of the valid colors.  The patterns are the tests on
    [len(non_gray_colors)] and [len(sorted_colors)]; an index expression
    [l[i] if len(l) > i else d] is [default d (l !! i)]. *)
Definition assign_roles (bg fg : string) (sorted_colors : list string) : Roles :=
  match non_gray_colors bg fg sorted_colors with
  | c0 :: c1 :: c2 :: _ =>
      {| role_primary := c0; role_secondary := c1; role_accent := c2 |}
  | _ =>
      match sorted_colors with
      | s0 :: _ :: _ :: _ =>
          let potential_primaries :=
            List.filter (fun c => not_in_lower c [bg; fg]) sorted_colors in
          let primary_color := default s0 (potential_primaries !! 0) in
          let potential_secondaries :=
            List.filter (fun c => not_in_lower c [bg; fg; primary_color]) sorted_colors in
          let secondary_color :=
            default (default primary_color (sorted_colors !! 1)) (potential_secondaries !! 0) in
          let potential_accents :=
            List.filter (fun c => not_in_lower c [bg; fg; primary_color; secondary_color])
                        sorted_colors in
          let accent_color :=
            default (default secondary_color (sorted_colors !! 2)) (potential_accents !! 0) in
          {| role_primary := primary_color; role_secondary := secondary_color;
             role_accent := accent_color |}
      | [c0; c1] => {| role_primary := c0; role_secondary := c1; role_accent := c0 |}
      | [c0] =>
          {| role_primary := c0;
             role_secondary :=
               if negb (String.eqb (Py.lower c0) (Py.lower fg)) then fg else bg;
             role_accent := c0 |}
      | [] =>
          {| role_primary := "#0000ff"; role_secondary := "#d3d3d3";
             role_accent := "#ffa500" |}
      end
  end.

(** The dictionary returned by [extract_color_palette]. *)
Record ColorInfo := {
  primary_color : string;
  secondary_color : string;
  accent_color : string;
  background_color : string;
  text_color : string;
  palette : list string
}.

(** [extract_color_palette] from line 186 on, for the enumeration
    [sorted_colors] that [list(valid_hex_colors)] produced. *)
Definition extract_color_palette (sig : RawStyleSignals) (sorted_colors : list string)
  : ColorInfo :=
  let bg := background_color_hex sig in
  let fg := text_color_hex sig in
  let roles := assign_roles bg fg sorted_colors in
  {| primary_color := role_primary roles;
     secondary_color := role_secondary roles;
     accent_color := role_accent roles;
     background_color := bg;
     text_color := fg;
     palette := take 15 (Py.sorted sorted_colors) |}.

(** The possible results of one call: one per enumeration of the set. *)
Definition extract_color_palette_returns (sig : RawStyleSignals) (out : ColorInfo) : Prop :=
  ∃ sorted_colors,
    set_listing (valid_hex_colors sig) sorted_colors ∧
    out = extract_color_palette sig sorted_colors.


(** One more value added to [colors_from_css_rules], to [computed_colors_raw]. *)
Definition add_css_value (s : string) (sig : RawStyleSignals) : RawStyleSignals :=
  {| dominant_colors_rgb := dominant_colors_rgb sig;
     css_rule_values := s :: css_rule_values sig;
     computed_values := computed_values sig;
     body_styles := body_styles sig |}.

Definition add_computed_value (s : string) (sig : RawStyleSignals) : RawStyleSignals :=
  {| dominant_colors_rgb := dominant_colors_rgb sig;
     css_rule_values := css_rule_values sig;
     computed_values := s :: computed_values sig;
     body_styles := body_styles sig |}.

(** ** Typography Resolver *)

Record BodyTypography := {
  font_family : string;
  font_size : string;
  font_weight : string;
  line_height : string
}.

Record HeadingTypography := {
  heading_font_family : string;
  heading_font_size : string;
  heading_font_weight : string
}.

(** The [headings] and [body] entries of the dictionary built by
    [extract_typography]; [font_imports] and [custom_fonts_detected] are
    computed after them and are read by none of the functions below. *)
Record Typography := {
  headings : gmap string HeadingTypography;
  body : BodyTypography
}.

(** The four computed styles of the body element, each read through
    [get_style] ([None] when the script raised or returned null). *)
Record BodyStyles := {
  body_fontFamily : option string;
  body_fontSize : option string;
  body_fontWeight : option string;
  body_lineHeight : option string
}.

(** What the driver answers inside the [try] of one heading tag. *)
Inductive HeadingProbe :=
| HeadingProbeRaised
| NoHeadingElements
| NoVisibleHeading
| FirstVisibleHeading (fontFamily fontSize fontWeight : option string).

Record TypographySignals := {
  body_element : option BodyStyles; (* [None]: [find_element] raised *)
  heading_probe : string -> HeadingProbe
}.

(** [x if x else dflt] *)
Definition or_default (v : option string) (dflt : string) : string :=
  if Py.truthy v then default dflt v else dflt.

Definition default_body : BodyTypography :=
  {| font_family := "sans-serif"; font_size := "16px";
     font_weight := "400"; line_height := "normal" |}.

(** Lines 272-291. *)
Definition extract_body (b : option BodyStyles) : BodyTypography :=
  match b with
  | Some st =>
      {| font_family :=
           if Py.truthy (body_fontFamily st)
           then Py.strip Py.is_quote (default "" (body_fontFamily st))
           else "sans-serif";
         font_size := or_default (body_fontSize st) "16px";
         font_weight := or_default (body_fontWeight st) "400";
         line_height := or_default (body_lineHeight st) "normal" |}
  | None => default_body
  end.

Definition heading_tags : list string := ["h1"; "h2"; "h3"; "h4"; "h5"; "h6"].

(** One iteration of the loop of lines 296-323. *)
Definition heading_step (probe : string -> HeadingProbe)
    (hs : gmap string HeadingTypography) (tag : string) : gmap string HeadingTypography :=
  match probe tag with
  | FirstVisibleHeading ff fs fw =>
      if Py.truthy ff && Py.truthy fs && Py.truthy fw then
        <[tag := {| heading_font_family := Py.strip Py.is_quote (default "" ff);
                    heading_font_size := default "" fs;
                    heading_font_weight := default "" fw |}]> hs
      else hs
  | _ => hs
  end.

Definition extract_typography (sig : TypographySignals) : Typography :=
  {| headings := foldl (heading_step (heading_probe sig)) ∅ heading_tags;
     body := extract_body (body_element sig) |}.

(** ** Layout Analyzer: spacing magnitudes *)

Inductive StyleRead :=
| ReadRaised
| ReadValue (v : option string).

(** One sampled element: the answer of [is_displayed] ([None] when it
    raised) and of the eight margin/padding reads, in the order of
    [styles_to_check]. *)
Record SampledElement := {
  displayed : option bool;
  spacing_reads : list StyleRead
}.

Section Spacing.

(** [float(s) > 0], [None] when [float] raises [ValueError]. *)
Variable float_gt_zero : string -> option bool.

(** The inner loop of lines 435-439; leaving it by an exception keeps what
    was appended so far. *)
Fixpoint sample_props (reads : list StyleRead) (samples : list string) : list string :=
  match reads with
  | [] => samples
  | ReadRaised :: _ => samples
  | ReadValue v :: rest =>
      match v with
      | Some value =>
          if Py.truthy v && Py.endswith value "px" then
            match float_gt_zero (Py.remove_px value) with
            | Some true => sample_props rest (samples ++ [value])
            | Some false => sample_props rest samples
            | None => samples
            end
          else sample_props rest samples
      | None => sample_props rest samples
      end
  end.

Definition sample_element (samples : list string) (el : SampledElement) : list string :=
  match displayed el with
  | Some true => sample_props (spacing_reads el) samples
  | _ => samples
  end.

Definition spacing_samples (elements_to_sample : list SampledElement) : list string :=
  foldl sample_element [] (take 100 elements_to_sample).

(** [collections.Counter]: counts in order of first occurrence. *)
Fixpoint counter_add (x : string) (c : list (string * nat)) : list (string * nat) :=
  match c with
  | [] => [(x, 1)]
  | (y, n) :: c' => if String.eqb x y then (y, S n) :: c' else (y, n) :: counter_add x c'
  end.

Definition Counter (l : list string) : list (string * nat) :=
  foldl (fun c x => counter_add x c) [] l.

(** Insertion before the first entry that does not have a larger count:
    the stable descending order of [most_common]. *)
Fixpoint insert_by_count (x : string * nat) (l : list (string * nat)) : list (string * nat) :=
  match l with
  | [] => [x]
  | y :: l' => if snd x <? snd y then y :: insert_by_count x l' else x :: y :: l'
  end.

Definition most_common (n : nat) (c : list (string * nat)) : list (string * nat) :=
  take n (foldr insert_by_count [] c).

(** Lines 421-450 of [analyze_layout]; [None] when [find_elements] raised. *)
Definition analyze_layout_spacing (elements_to_sample : option (list SampledElement))
  : list string :=
  match elements_to_sample with
  | Some els =>
      let samples := spacing_samples els in
      if bool_decide (samples = []) then []
      else fst <$> most_common 5 (Counter samples)
  | None => []
  end.

End Spacing.

Record Layout := {
  page_width : option Z;
  page_height : option Z;
  container_width : option Z;
  has_grid_system : bool;
  common_spacing_units : list string
}.

(** ** Components and images *)

Record Sidebar := {
  sidebar_present : bool;
  sidebar_width : option Z
}.

Record Components := {
  buttons : gmap string (option string);
  cards : gmap string (option string);
  form_inputs : gmap string (option string);
  navigation : gmap string (option string);
  detected_css_patterns : list string;
  sidebar : option Sidebar
}.

Record Images := {
  has_svg_icons : bool;
  has_icon_font : bool;
  icon_classes_found : list string;
  image_style : gmap string (option string);
  logo_detected : bool;
  logo_url : option string
}.

(** ** Component Detector and Image Analyzer: the sampled styles *)

(** [rgb_to_hex(v) if v else None] *)
Definition hex_if_read (v : option string) : option string :=
  if Py.truthy v then rgb_to_hex v else None.

(** [v if v != text else None] *)
Definition unless (text : string) (v : option string) : option string :=
  if bool_decide (v = Some text) then None else v.

(** What [get_style] gave for the first visible button: the property's
    value, or [None] when the read failed or gave null. *)
Record ButtonReads := {
  button_bg : option string;
  button_color : option string;
  button_padding : option string;
  button_border : option string;
  button_radius : option string;
  button_font_size : option string;
  button_font_weight : option string;
  button_text_transform : option string
}.

(** [components["buttons"]] (lines 484-511); [None] when there is no visible
    button or the lookup raised: the entry stays the empty dictionary. *)
Definition buttons_descriptor (sample : option ButtonReads) : gmap string (option string) :=
  match sample with
  | Some b =>
      list_to_map
        [("background_color", hex_if_read (button_bg b));
         ("text_color", hex_if_read (button_color b));
         ("padding", button_padding b);
         ("border", button_border b);
         ("border_radius", button_radius b);
         ("font_size", button_font_size b);
         ("font_weight", button_font_weight b);
         ("text_transform", button_text_transform b)]
  | None => ∅
  end.

Record CardReads := {
  card_bg : option string;
  card_shadow : option string;
  card_radius : option string;
  card_padding : option string;
  card_border : option string
}.

(** [components["cards"]] (lines 514-535). *)
Definition cards_descriptor (sample : option CardReads) : gmap string (option string) :=
  match sample with
  | Some c =>
      list_to_map
        [("background_color", hex_if_read (card_bg c));
         ("box_shadow", unless "none" (card_shadow c));
         ("border_radius", card_radius c);
         ("padding", card_padding c);
         ("border", card_border c)]
  | None => ∅
  end.

Record ImageReads := {
  img_border_radius : option string;
  img_shadow : option string;
  img_border : option string;
  img_filter : option string
}.

(** [image_info["image_style"]] (lines 703-722). *)
Definition image_style_descriptor (sample : option ImageReads) : gmap string (option string) :=
  match sample with
  | Some i =>
      list_to_map
        [("border_radius", unless "0px" (img_border_radius i));
         ("box_shadow", unless "none" (img_shadow i));
         ("border", unless "0px none rgb(0, 0, 0)" (img_border i));
         ("filter", unless "none" (img_filter i))]
  | None => ∅
  end.

(** ** Schema Assembler and Style-Keyword Deriver *)

Record Cms := {
  cms_type : string;
  cms_theme : option string
}.

Record Metadata := {
  source_url : string;
  extraction_date : string;
  schema_version : string;
  cms : option Cms
}.

Record DesignSchema := {
  metadata : Metadata;
  colors : ColorInfo;
  typography : Typography;
  layout : Layout;
  components : Components;
  images : Images;
  style_keywords : list string
}.

(** [r and r != '0px' and r != '0%'] *)
Definition significant_radius (r : option string) : bool :=
  Py.truthy r && negb (bool_decide (r = Some "0px")) && negb (bool_decide (r = Some "0%")).

Definition has_rounding (c : Components) (i : Images) : bool :=
  let button_radius := Py.dict_get (buttons c) "border_radius" (Some "0px") in
  let card_radius := Py.dict_get (cards c) "border_radius" (Some "0px") in
  let image_radius := Py.dict_get (image_style i) "border_radius" (Some "0px") in
  existsb significant_radius [button_radius; card_radius; image_radius].

Definition has_shadow (c : Components) (i : Images) : bool :=
  let card_shadow := Py.dict_get (cards c) "box_shadow" None in
  let image_shadow := Py.dict_get (image_style i) "box_shadow" None in
  let nav_shadow := Py.dict_get (navigation c) "box_shadow" None in
  Py.truthy card_shadow || Py.truthy image_shadow || Py.truthy nav_shadow.

(** The loop over h1, h2, h3 (lines 849-852, 1403-1406): the entry of the
    first tag that is a key of [headings]. *)
Fixpoint first_heading (hs : gmap string HeadingTypography) (tags : list string)
  : option HeadingTypography :=
  match tags with
  | [] => None
  | h_tag :: rest =>
      match hs !! h_tag with
      | Some h => Some h
      | None => first_heading hs rest
      end
  end.

Definition major_heading (t : Typography) : option HeadingTypography :=
  if bool_decide (headings t = ∅) then None
  else first_heading (headings t) ["h1"; "h2"; "h3"].

Definition heading_font (t : Typography) : string :=
  let found := (fun h => Py.lower (heading_font_family h)) <$> major_heading t in
  if Py.truthy found then default "" found else Py.lower (font_family (body t)).

Definition serif_indicators : list string :=
  ["serif"; "georgia"; "times"; "palatino"; "bookman"; "charter"].

Definition is_serif (t : Typography) : bool :=
  existsb (fun indicator => Py.contains indicator (heading_font t)) serif_indicators.

(** Truthiness of [layout.get("container_width")], a number or [None]. *)
Definition number_truthy (n : option Z) : bool :=
  match n with
  | Some w => negb (w =? 0)%Z
  | None => false
  end.

(** Lines 810-874: the keyword set, one [add] after the other. *)
Definition derive_keywords (c : ColorInfo) (t : Typography) (l : Layout)
    (cs : Components) (i : Images) : gset string :=
  let keywords : gset string := ∅ in
  let keywords :=
    if negb (bool_decide (palette c = [])) then
      if 6 <? length (palette c) then {["high-contrast"]} ∪ keywords
      else if length (palette c) <=? 4 then {["limited-palette"]} ∪ keywords
      else keywords
    else keywords in
  let keywords :=
    if has_rounding cs i then {["rounded-corners"]} ∪ keywords
    else {["sharp-corners"]} ∪ keywords in
  let keywords :=
    if has_shadow cs i then {["uses-shadows"]} ∪ keywords
    else {["flat-design"]} ∪ keywords in
  let keywords :=
    if is_serif t then {["serif-typography"]} ∪ keywords
    else {["sans-serif-typography"]} ∪ keywords in
  let keywords :=
    if has_grid_system l then {["grid-layout"]} ∪ keywords else keywords in
  let keywords :=
    if number_truthy (container_width l) then {["contained-width"]} ∪ keywords
    else {["full-width-layout"]} ∪ keywords in
  let keywords :=
    if has_svg_icons i then {["svg-icons"]} ∪ keywords
    else if has_icon_font i then {["icon-font"]} ∪ keywords
    else keywords in
  keywords.

(** [generate_design_schema]; [now] is [datetime.datetime.now().isoformat()]. *)
Definition generate_design_schema (url now : string) (c : ColorInfo) (t : Typography)
    (l : Layout) (cs : Components) (i : Images) : DesignSchema :=
  {| metadata := {| source_url := url; extraction_date := now;
                    schema_version := "1.0"; cms := None |};
     colors := c; typography := t; layout := l; components := cs; images := i;
     style_keywords := Py.sorted (elements (derive_keywords c t l cs i)) |}.

(** ** Code-snippet values *)

(** Lines 1409-1416. *)
Definition spacing_unit_val (l : Layout) : string :=
  match common_spacing_units l with
  | first :: _ => default "8" (Py.match_leading_digits first)
  | [] => "8"
  end.

(** [button_radius or card_radius] (lines 1419-1422). *)
Definition radius_to_use (cs : Components) : option string :=
  let button_radius := Py.dict_get (buttons cs) "border_radius" None in
  let card_radius := Py.dict_get (cards cs) "border_radius" None in
  Py.or_else button_radius card_radius.

(** Lines 1418-1427. *)
Definition border_radius_val (cs : Components) : string :=
  if Py.truthy (radius_to_use cs)
  then default "4" (Py.match_leading_digits (default "" (radius_to_use cs)))
  else "4".

(** [s.split(',')[0].strip()], then the quote characters stripped. *)
Definition first_font (font_raw : string) : string :=
  Py.strip Py.is_quote (Py.strip Py.is_space (Py.before_comma font_raw)).

Definition heading_font_raw (t : Typography) : string :=
  default (font_family (body t)) (heading_font_family <$> major_heading t).

(** The values substituted into the three templates (lines 1383-1427). *)
Record SnippetValues := {
  sv_primary : string;
  sv_secondary : string;
  sv_accent : string;
  sv_background : string;
  sv_text_color : string;
  sv_body_font_raw : string;
  sv_body_font : string;
  sv_body_size : string;
  sv_heading_font_raw : string;
  sv_heading_font : string;
  sv_spacing_unit_val : string;
  sv_spacing_unit : string;
  sv_border_radius_val : string;
  sv_border_radius : string
}.

Definition snippet_values (s : DesignSchema) : SnippetValues :=
  {| sv_primary := primary_color (colors s);
     sv_secondary := secondary_color (colors s);
     sv_accent := accent_color (colors s);
     sv_background := background_color (colors s);
     sv_text_color := text_color (colors s);
     sv_body_font_raw := font_family (body (typography s));
     sv_body_font := first_font (font_family (body (typography s)));
     sv_body_size := font_size (body (typography s));
     sv_heading_font_raw := heading_font_raw (typography s);
     sv_heading_font := first_font (heading_font_raw (typography s));
     sv_spacing_unit_val := spacing_unit_val (layout s);
     sv_spacing_unit := spacing_unit_val (layout s) +:+ "px";
     sv_border_radius_val := border_radius_val (components s);
     sv_border_radius := border_radius_val (components s) +:+ "px" |}.


(** ** Website type *)

(** [re.search(p, html, re.IGNORECASE)] for a pattern [p] that is an
    alternation of literals, none of them with a letter in upper case: one
    of the literals occurs in the lowered text. *)
Definition search_any (literals : list string) (html : string) : bool :=
  existsb (fun lit => Py.contains lit (Py.lower html)) literals.

(** The double quote, code 34. *)
Definition double_quote : ascii := "034".

Definition class_attribute : string := "class=" +:+ String double_quote "".

Fixpoint strip_prefix (p s : string) : option string :=
  match p, s with
  | EmptyString, _ => Some s
  | String a p', String b s' => if Ascii.eqb a b then strip_prefix p' s' else None
  | String _ _, EmptyString => None
  end.

Fixpoint run_not_quote (s : string) : string :=
  match s with
  | String c s' =>
      if Ascii.eqb c double_quote then EmptyString else String c (run_not_quote s')
  | EmptyString => EmptyString
  end.

(** The alternative [class=Q[^Q]*(?:a|b|...)] of a pattern, [Q] the double
    quote, on the lowered text: after some occurrence of [class=Q], the run
    of characters other than [Q] contains one of the literals. *)
Fixpoint search_class_with (literals : list string) (lowered : string) : bool :=
  match strip_prefix class_attribute lowered with
  | Some rest => existsb (fun lit => Py.contains lit (run_not_quote rest)) literals
  | None => false
  end ||
  match lowered with
  | String _ s' => search_class_with literals s'
  | EmptyString => false
  end.

Definition wordpress_signatures : list string :=
  ["wp-content"; "wordpress"; "wp-includes"].

(** [cms_patterns], in the order of the dictionary literal. *)
Definition cms_patterns : list (string * (string -> bool)) :=
  [("wordpress", search_any wordpress_signatures);
   ("shopify", search_any ["cdn.shopify.com"; "myshopify.com"]);
   ("wix", search_any ["wix.com"; "wixstatic.com"; "wixsite.com"]);
   ("squarespace", search_any ["squarespace.com"; "static1.squarespace.com"]);
   ("webflow", search_any ["webflow.io"; "webflow.com"]);
   ("joomla", search_any ["joomla"; "com_content"]);
   ("drupal", search_any ["drupal.js"; "sites/default/files"]);
   ("tailwind", fun html =>
      search_any ["tailwindcss"; "tailwind.css"] html ||
      search_class_with ["flex"; "grid"; "p-"; "m-"; "text-"; "bg-"] (Py.lower html));
   ("bootstrap", fun html =>
      search_any ["bootstrap.min.css"; "bootstrap.bundle.min.js"] html ||
      search_class_with ["container"; "row"; "col-"] (Py.lower html));
   ("react", search_any ["react-root"; "data-reactid"]);
   ("vue", search_any ["data-v-"]);
   ("angular", search_any ["ng-version"]);
   ("material", search_any ["material-design"; "mdl-"; "mui-"])].

Definition ecommerce_patterns : list string :=
  ["cart"; "checkout"; "product"; "shop"; "store"; "price"; "add to cart"; "woocommerce"].

Definition blog_patterns : list string :=
  ["blog"; "article"; "post"; "author"; "comment"; "category"; "archive"].

(** [determine_website_type].  [netloc] is [urlparse(url).netloc], [None]
    when that call raises. *)
Definition determine_website_type (html_content : string) (netloc : option string)
  : string :=
  match List.find (fun kp => snd kp html_content) cms_patterns with
  | Some (type_key, _) => type_key
  | None =>
      if search_any ecommerce_patterns html_content then "ecommerce"
      else if search_any blog_patterns html_content then "blog"
      else
        match netloc with
        | Some domain =>
            if negb (String.eqb domain "") then
              if Py.contains ".gov" domain then "government"
              else if Py.contains ".edu" domain then "education"
              else if Py.contains ".org" domain then "organization"
              else "general"
            else "general"
        | None => "general"
        end
  end.

(** ** Component Detector: class patterns *)

Fixpoint span_not_quote (s : string) : string * string :=
  match s with
  | String c s' =>
      if Py.is_quote c then (EmptyString, s)
      else let '(run, rest) := span_not_quote s' in (String c run, rest)
  | EmptyString => (EmptyString, EmptyString)
  end.

(** A match of [class=[Qq]([^Qq]+)[Qq]] at the start of [s], [Q] and [q]
    the two quote characters: group 1 and the length of the match.  The
    group is the whole run up to the next quote, which has to exist. *)
Definition match_class_attribute (s : string) : option (string * nat) :=
  match strip_prefix "class=" s with
  | Some (String q r) =>
      if Py.is_quote q then
        let '(run, rest) := span_not_quote r in
        match run, rest with
        | String _ _, String _ _ => Some (run, 8 + String.length run)
        | _, _ => None
        end
      else None
  | _ => None
  end.

(** [class_pattern.findall(html_content)]: the groups of the matches from
    left to right, the search going on behind each match.  [skip] counts
    the characters of the last match that are still to be passed. *)
Fixpoint findall_class (skip : nat) (html : string) : list string :=
  match html with
  | EmptyString => []
  | String _ html' =>
      match skip with
      | S k => findall_class k html'
      | 0 =>
          match match_class_attribute html with
          | Some (group, len) => group :: findall_class (len - 1) html'
          | None => findall_class 0 html'
          end
      end
  end.

Definition utility_indicators : list string :=
  ["text-"; "bg-"; "p-"; "m-"; "flex"; "grid"; "border"; "rounded"; "w-"; "h-";
   "font-"; "shadow"; "item"; "container"; "row"; "col-"; "nav-"; "btn-"; "card-";
   "form-"].

(** Lines 594-600. *)
Definition all_classes (html_content : string) : list string :=
  findall_class 0 html_content ≫=
    (fun m => Py.strip Py.is_whitespace <$> Py.split m).

(** The three tests of lines 614-617 on an entry of the counter. *)
Definition relevant_class (entry : string * nat) : bool :=
  (5 <? snd entry) &&
  existsb (fun indicator => Py.contains indicator (fst entry)) utility_indicators &&
  (2 <? String.length (fst entry)).

(** Lines 590-623 of [detect_component_patterns]: the value of
    [detected_css_patterns]. *)
Definition detect_css_patterns (html_content : string) : list string :=
  let classes := all_classes html_content in
  if bool_decide (classes = []) then []
  else take 15 (fst <$> List.filter relevant_class (most_common 50 (Counter classes))).

(** ** Enhancement plugins *)

(** What the driver answers to the sidebar lookup of [WordPressPlugin]. *)
Inductive SidebarProbe :=
| SidebarProbeRaised
| NoVisibleSidebar
| VisibleSidebar (width : option Z).

Record Driver := {
  sidebar_probe : SidebarProbe
}.

(** How a call of [enhance_schema] ends.  The schema is one shared
    dictionary: when the call raises, [design_schema] in the caller still
    names that dictionary, with whatever the plugin wrote before raising. *)
Inductive PluginOutcome :=
| Enhanced (s : DesignSchema)
| PluginRaised (s : DesignSchema).

Record Plugin := {
  plugin_name : string;
  applicable_types : list string;
  enhance_schema : DesignSchema -> string -> option Driver -> PluginOutcome
}.

(** [DesignSchemeExtractorPlugin.applies_to] *)
Definition applies_to (p : Plugin) (detected_type : string) : bool :=
  bool_decide (detected_type ∈ applicable_types p).

Fixpoint run_not_slash (s : string) : string :=
  match s with
  | String c s' => if Ascii.eqb c "/" then EmptyString else String c (run_not_slash s')
  | EmptyString => EmptyString
  end.

(** Group 1 of [re.search(r'wp-content/themes/([^/]+)', html, re.IGNORECASE)]. *)
Fixpoint search_theme (html : string) : option string :=
  let here :=
    if String.prefix "wp-content/themes/" (Py.lower html)
    then run_not_slash (String.substring 18 (String.length html - 18) html)
    else EmptyString in
  if negb (String.eqb here "") then Some here
  else match html with
       | String _ html' => search_theme html'
       | EmptyString => None
       end.

Definition set_cms (s : DesignSchema) (c : Cms) : DesignSchema :=
  {| metadata := {| source_url := source_url (metadata s);
                    extraction_date := extraction_date (metadata s);
                    schema_version := schema_version (metadata s);
                    cms := Some c |};
     colors := colors s; typography := typography s; layout := layout s;
     components := components s; images := images s;
     style_keywords := style_keywords s |}.

Definition set_sidebar (s : DesignSchema) (sb : Sidebar) : DesignSchema :=
  {| metadata := metadata s; colors := colors s; typography := typography s;
     layout := layout s;
     components := {| buttons := buttons (components s); cards := cards (components s);
                      form_inputs := form_inputs (components s);
                      navigation := navigation (components s);
                      detected_css_patterns := detected_css_patterns (components s);
                      sidebar := Some sb |};
     images := images s; style_keywords := style_keywords s |}.

(** [WordPressPlugin.enhance_schema] *)
Definition wordpress_enhance (s : DesignSchema) (html_content : string)
    (driver : option Driver) : PluginOutcome :=
  let s := set_cms s {| cms_type := "wordpress"; cms_theme := search_theme html_content |} in
  match driver with
  | Some d =>
      match sidebar_probe d with
      | VisibleSidebar w =>
          Enhanced (set_sidebar s {| sidebar_present := true; sidebar_width := w |})
      | _ => Enhanced s
      end
  | None => Enhanced s
  end.

Definition WordPressPlugin : Plugin :=
  {| plugin_name := "wordpress_enhancer";
     applicable_types := ["wordpress"];
     enhance_schema := wordpress_enhance |}.

Definition _PLUGINS : list Plugin := [WordPressPlugin].

(** The state of the loop of [enhance_with_plugins].  [invoked] is not a
    variable of the source: it records, by registry index, every plugin
    whose [enhance_schema] was called. *)
Record EnhanceState := {
  design_schema : DesignSchema;
  applied_plugins : list string;
  invoked : list nat
}.

Definition enhance_step (website_type html_content : string) (driver : option Driver)
    (st : EnhanceState) (ip : nat * Plugin) : EnhanceState :=
  let '(i, plugin) := ip in
  if applies_to plugin website_type then
    match enhance_schema plugin (design_schema st) html_content driver with
    | Enhanced s =>
        {| design_schema := s;
           applied_plugins := applied_plugins st ++ [plugin_name plugin];
           invoked := invoked st ++ [i] |}
    | PluginRaised s =>
        {| design_schema := s;
           applied_plugins := applied_plugins st;
           invoked := invoked st ++ [i] |}
    end
  else st.

Definition enhance_loop (plugins : list Plugin) (schema : DesignSchema)
    (website_type html_content : string) (driver : option Driver) : EnhanceState :=
  foldl (enhance_step website_type html_content driver)
        {| design_schema := schema; applied_plugins := []; invoked := [] |}
        (imap (fun i p => (i, p)) plugins).

(** [enhance_with_plugins], for the registry [plugins]. *)
Definition enhance_with_plugins (plugins : list Plugin) (schema : DesignSchema)
    (website_type html_content : string) (driver : option Driver) : DesignSchema :=
  design_schema (enhance_loop plugins schema website_type html_content driver).

(** ** AI view: the descriptions *)

(** Lines 1279-1288: the sentence on the overall style. *)
Definition style_description (style_keywords : list string) : string :=
  if 1 <? length style_keywords then
    "The website features a " +:+ Py.join ", " (removelast style_keywords) +:+ " and "
      +:+ List.last style_keywords "" +:+ " design style."
  else if length style_keywords =? 1 then
    "The website features a " +:+ List.nth 0 style_keywords "" +:+ " design style."
  else "The website's overall design style is neutral or couldn't be easily categorized.".

(** Lines 1291-1302: the sentence on the colors and its prompt element. *)
Definition color_description (c : ColorInfo) : option (string * string) :=
  let primary := primary_color c in
  let secondary := secondary_color c in
  let accent := accent_color c in
  let bg := background_color c in
  let text_c := text_color c in
  if negb (String.eqb primary "") && negb (String.eqb secondary "") &&
     negb (String.eqb accent "") && negb (String.eqb bg "") && negb (String.eqb text_c "")
  then Some ("Key colors are Primary: " +:+ primary +:+ ", Secondary: " +:+ secondary
               +:+ ", Accent: " +:+ accent +:+ ", Background: " +:+ bg
               +:+ ", Text: " +:+ text_c +:+ ".",
             "Color Palette: Primary(" +:+ primary +:+ "), Secondary(" +:+ secondary
               +:+ "), Accent(" +:+ accent +:+ "), Background(" +:+ bg
               +:+ "), Text(" +:+ text_c +:+ ")")
  else
    match palette c with
    | _ :: _ =>
        Some ("The main color palette includes: " +:+ Py.join ", " (take 5 (palette c))
                +:+ "...",
              "Color Palette: " +:+ Py.join ", " (take 5 (palette c)))
    | [] => None
    end.

(** Lines 1306-1321. *)
Definition typography_description (t : Typography) : string * string :=
  let body_font := font_family (body t) in
  let heading_font := heading_font_raw t in
  if String.eqb (Py.lower heading_font) (Py.lower body_font) then
    ("Typography primarily uses the '" +:+ body_font +:+ "' font family.",
     "Typography: Use '" +:+ body_font +:+ "' font.")
  else
    ("Typography uses '" +:+ heading_font +:+ "' for headings and '" +:+ body_font
       +:+ "' for body text.",
     "Typography: Headings '" +:+ heading_font +:+ "', Body '" +:+ body_font +:+ "'.").

(** Lines 1326-1331: [layout_desc_parts].  The container width is a
    [clientWidth], an integer. *)
Definition layout_desc_parts (l : Layout) : list string :=
  (if has_grid_system l then ["grid-based layout"] else []) ++
  (if number_truthy (container_width l)
   then ["contained width (around " +:+ Py.str_of_int (default 0%Z (container_width l))
           +:+ "px)"]
   else ["full-width layout"]) ++
  match common_spacing_units l with
  | first :: _ => ["common spacing unit around " +:+ first]
  | [] => []
  end.

(** Lines 1339-1351: [comp_desc_parts]. *)
Definition comp_desc_parts (cs : Components) (i : Images) : list string :=
  (if bool_decide (buttons cs = ∅) then []
   else
     let btn_radius := Py.dict_get (buttons cs) "border_radius" (Some "0px") in
     [(if Py.truthy btn_radius && negb (bool_decide (btn_radius = Some "0px"))
       then "rounded" else "sharp-edged") +:+ " buttons"]) ++
  (if bool_decide (cards cs = ∅) then []
   else
     let card_shadow := Py.dict_get (cards cs) "box_shadow" None in
     [(if Py.truthy card_shadow then "shadowed" else "flat") +:+ " cards/panels"]) ++
  (if has_svg_icons i then ["uses SVG icons"]
   else if has_icon_font i then ["uses icon fonts"] else []).

(** The [try] block of lines 1277-1356 on a schema: the five descriptions
    and the prompt elements. *)
Definition describe_schema (s : DesignSchema) : gmap string string * list string :=
  let kw := style_keywords s in
  let color := color_description (colors s) in
  let typo := typography_description (typography s) in
  let parts := comp_desc_parts (components s) (images s) in
  (list_to_map
     [("overall_style", match kw with [] => "" | _ :: _ => style_description kw end);
      ("color_scheme", default "" (fst <$> color));
      ("typography", fst typo);
      ("layout_spacing",
       "Layout is generally " +:+ Py.join ", " (layout_desc_parts (layout s)) +:+ ".");
      ("component_styles",
       match parts with
       | [] => "Specific component styles were not prominently detected."
       | _ :: _ => "Key component styles include: " +:+ Py.join ", " parts +:+ "."
       end)],
   match kw with [] => [] | _ :: _ => ["Design Style: " +:+ Py.join ", " kw] end ++
   match color with Some (_, p) => [p] | None => [] end ++
   [snd typo] ++
   match common_spacing_units (layout s) with
   | first :: _ => ["Spacing: Base unit ~" +:+ first +:+ "."]
   | [] => []
   end).

(** ** Artifact derivers *)

Record AiConsumption := {
  natural_language_descriptions : gmap string string;
  suggested_prompt_elements : list string;
  full_palette_hex : list string
}.

(** The dictionary returned by [optimize_for_ai_consumption]: a schema and,
    when the copy succeeded, its [ai_consumption] entry. *)
Record AiSchema := {
  ai_schema : DesignSchema;
  ai_consumption : option AiConsumption
}.

Record CodeSnippets := {
  css_variables : string;
  tailwind_config : string;
  styled_components_theme : string
}.

Section Derivers.

(** [json.loads(json.dumps(s))]; [None] when it raises. *)
Variable json_deep_copy : DesignSchema -> option DesignSchema.

(** The contents of [descriptions] and [prompt_elements] when the [try]
    block of lines 1277-1360 is left, by its end or by an exception. *)
Variable describe : DesignSchema -> gmap string string * list string.

(** The three templates of lines 1430-1540; [None] when rendering raises. *)
Variable render_snippets : SnippetValues -> option CodeSnippets.

(** The [try] body of [generate_documentation]; [None] when it raises. *)
Variable documentation_body : DesignSchema -> option string.

Definition optimize_for_ai_consumption (s : DesignSchema) : AiSchema :=
  match json_deep_copy s with
  | None => {| ai_schema := s; ai_consumption := None |}
  | Some copy =>
      let '(descriptions, prompt_elements) := describe copy in
      {| ai_schema := copy;
         ai_consumption :=
           Some {| natural_language_descriptions := descriptions;
                   suggested_prompt_elements := prompt_elements;
                   full_palette_hex := palette (colors copy) |} |}
  end.

Definition generate_design_code_snippets (s : DesignSchema) : option CodeSnippets :=
  render_snippets (snippet_values s).

Definition generate_documentation (s : DesignSchema) : string :=
  default "" (documentation_body s).

(** The [results] dictionary of [extract_design_scheme_extended]. *)
Record Results := {
  res_design_schema : option DesignSchema;
  res_ai_optimized_schema : option AiSchema;
  res_documentation : option string;
  res_code_snippets : option CodeSnippets
}.

(** Steps 7 to 9 of [extract_design_scheme_extended]. *)
Definition derive_artifacts (optimize_ai generate_code generate_docs : bool)
    (s : DesignSchema) : Results :=
  let results :=
    {| res_design_schema := Some s; res_ai_optimized_schema := None;
       res_documentation := None; res_code_snippets := None |} in
  let results :=
    if optimize_ai then
      {| res_design_schema := res_design_schema results;
         res_ai_optimized_schema := Some (optimize_for_ai_consumption s);
         res_documentation := res_documentation results;
         res_code_snippets := res_code_snippets results |}
    else results in
  let results :=
    if generate_code then
      {| res_design_schema := res_design_schema results;
         res_ai_optimized_schema := res_ai_optimized_schema results;
         res_documentation := res_documentation results;
         res_code_snippets := generate_design_code_snippets s |}
    else results in
  let results :=
    if generate_docs then
      {| res_design_schema := res_design_schema results;
         res_ai_optimized_schema := res_ai_optimized_schema results;
         res_documentation := Some (generate_documentation s);
         res_code_snippets := res_code_snippets results |}
    else results in
  results.

End Derivers.


(** ** The Palette of the specification *)



(** ** Sample inputs *)

Definition no_signals : RawStyleSignals :=
  {| dominant_colors_rgb := []; css_rule_values := []; computed_values := [];
     body_styles := None |}.

(** A screenshot whose dominant colors are pure red, green and blue. *)
Definition rgb_signals : RawStyleSignals :=
  {| dominant_colors_rgb := [(255, 0, 0); (0, 255, 0); (0, 0, 255)]%Z;
     css_rule_values := ["#123456"; "red"];
     computed_values := ["rgb(255, 0, 0)"];
     body_styles := Some (Some "rgb(255, 255, 255)", Some "rgb(33, 37, 41)") |}.


Definition default_colors : ColorInfo :=
  {| primary_color := "#0000ff"; secondary_color := "#d3d3d3";
     accent_color := "#ffa500"; background_color := "#ffffff";
     text_color := "#000000"; palette := [] |}.

Definition plain_typography : Typography :=
  {| headings := ∅; body := default_body |}.

Definition plain_layout : Layout :=
  {| page_width := Some 1920%Z; page_height := Some 1080%Z; container_width := None;
     has_grid_system := false; common_spacing_units := [] |}.

Definition no_components : Components :=
  {| buttons := ∅; cards := ∅; form_inputs := ∅; navigation := ∅;
     detected_css_patterns := []; sidebar := None |}.

Definition no_images : Images :=
  {| has_svg_icons := false; has_icon_font := false; icon_classes_found := [];
     image_style := ∅; logo_detected := false; logo_url := None |}.

Definition plain_schema : DesignSchema :=
  generate_design_schema "https://example.com/" "2024-01-01T00:00:00"
    default_colors plain_typography plain_layout no_components no_images.

(** A plugin for WordPress pages that writes a sidebar entry into the
    schema and then raises. *)
Definition failing_plugin : Plugin :=
  {| plugin_name := "failing_enhancer";
     applicable_types := ["wordpress"];
     enhance_schema := fun s _ _ =>
       PluginRaised (set_sidebar s {| sidebar_present := false; sidebar_width := None |}) |}.

Definition quoted_font_signals : TypographySignals :=
  {| body_element :=
       Some {| body_fontFamily := Some "'Georgia'"; body_fontSize := None;
               body_fontWeight := Some "700"; body_lineHeight := Some "" |};
     heading_probe := fun tag =>
       if String.eqb tag "h1"
       then FirstVisibleHeading (Some "'Playfair Display'") (Some "32px") (Some "700")
       else if String.eqb tag "h2"
       then FirstVisibleHeading (Some "Arial") None (Some "600")
       else NoHeadingElements |}.

(** [float(s) > 0] on the unsigned decimal literals, as the browser writes
    a length: digits with at most one point and at least one digit.  The
    conversion rounds to the nearest double, so the value is positive
    exactly when the literal exceeds 2^-1075, half of the least positive
    double.  The other literals that [float] knows (signs, blanks,
    exponents, inf, nan, underscores) do not occur among the sample
    readings and are answered here as a [ValueError]. *)
Fixpoint decimal_shape (points digits : nat) (s : string) : option (nat * nat) :=
  match s with
  | EmptyString => Some (points, digits)
  | String c s' =>
      if Py.is_digit c then decimal_shape points (S digits) s'
      else if Ascii.eqb c "." then decimal_shape (S points) digits s'
      else None
  end.

(** The digits of a decimal literal, without its point. *)
Fixpoint decimal_digits (s : string) : string :=
  match s with
  | EmptyString => EmptyString
  | String c s' => if Ascii.eqb c "." then decimal_digits s' else String c (decimal_digits s')
  end.

(** The number of digits behind the point. *)
Fixpoint fraction_digits (s : string) : nat :=
  match s with
  | EmptyString => 0
  | String c s' => if Ascii.eqb c "." then String.length s' else fraction_digits s'
  end.

Definition decimal_gt_zero (s : string) : option bool :=
  match decimal_shape 0 0 s with
  | Some (points, digits) =>
      if (points <=? 1) && (1 <=? digits)
      then Some (10 ^ Z.of_nat (fraction_digits s)
                   <? Py.decimal_value_from 0 (decimal_digits s) * 2 ^ 1075)%Z
      else None
  | None => None
  end.

(** Three visible elements and one hidden one, with eight readings each at
    most; the third element's reads stop at a stale-element exception. *)
Definition sampled_elements : list SampledElement :=
  [ {| displayed := Some true;
       spacing_reads := [ReadValue (Some ".5px"); ReadValue (Some "0px");
                         ReadValue (Some "16px"); ReadValue (Some "auto");
                         ReadValue None; ReadValue (Some ".5px")] |};
    {| displayed := Some false;
       spacing_reads := [ReadValue (Some "40px")] |};
    {| displayed := Some true;
       spacing_reads := [ReadValue (Some "24px"); ReadRaised; ReadValue (Some "24px")] |};
    {| displayed := None;
       spacing_reads := [ReadValue (Some "40px")] |} ].

(** The layout whose spacing units are those of [sampled_elements]. *)
Definition half_pixel_layout : Layout :=
  {| page_width := Some 1920%Z; page_height := Some 1080%Z; container_width := None;
     has_grid_system := false;
     common_spacing_units := analyze_layout_spacing decimal_gt_zero (Some sampled_elements) |}.

Definition half_pixel_schema : DesignSchema :=
  generate_design_schema "https://example.com/" "2024-01-01T00:00:00"
    default_colors plain_typography half_pixel_layout no_components no_images.

(** ** Vocabulary of the statements *)

(** The characters that [f'{n:02x}'] can produce. *)
Definition is_lower_hex_or_minus (c : ascii) : bool :=
  Py.is_lower_hex_char c || Ascii.eqb c "-".

(** Exactly two lowercase hexadecimal digits. *)
Definition two_lower_hex (s : string) : bool :=
  Py.all_chars Py.is_lower_hex_char s && (String.length s =? 2).

(** Where a role color can come from: the color listing, the background,
    the text color, or the three fixed defaults. *)
Definition role_source (bg fg : string) (l : list string) (r : string) : Prop :=
  r ∈ l \/ r = bg \/ r = fg \/ r ∈ ["#0000ff"; "#d3d3d3"; "#ffa500"].

(** The two palette-size rules, as a function of the palette. *)
Definition palette_keywords (c : ColorInfo) : list string :=
  if negb (bool_decide (palette c = [])) then
    if 6 <? length (palette c) then ["high-contrast"]
    else if length (palette c) <=? 4 then ["limited-palette"]
    else []
  else [].

(** The icon rule. *)
Definition icon_keywords (i : Images) : list string :=
  if has_svg_icons i then ["svg-icons"]
  else if has_icon_font i then ["icon-font"]
  else [].

(** Exactly one of [a] and [b] occurs in [kw]. *)
Definition exactly_one_of (a b : string) (kw : list string) : Prop :=
  (a ∈ kw /\ b ∉ kw) \/ (b ∈ kw /\ a ∉ kw).

(** The first, the last character of [s] satisfies [p]. *)
Definition starts_with (p : ascii -> bool) (s : string) : bool :=
  match s with
  | String c _ => p c
  | EmptyString => false
  end.

Fixpoint ends_with (p : ascii -> bool) (s : string) : bool :=
  match s with
  | EmptyString => false
  | String c EmptyString => p c
  | String _ s' => ends_with p s'
  end.

(** [res] is [raw] without the quote characters that surround it. *)
Definition quotes_stripped (raw res : string) : Prop :=
  (exists l r, raw = l +:+ res +:+ r /\
               Py.all_chars Py.is_quote l = true /\ Py.all_chars Py.is_quote r = true) /\
  starts_with Py.is_quote res = false /\
  ends_with Py.is_quote res = false.

(** The entry that one heading tag contributes, if any. *)
Definition heading_entry (probe : string -> HeadingProbe) (tag : string)
  : option HeadingTypography :=
  match probe tag with
  | FirstVisibleHeading ff fs fw =>
      if Py.truthy ff && Py.truthy fs && Py.truthy fw then
        Some {| heading_font_family := Py.strip Py.is_quote (default "" ff);
                heading_font_size := default "" fs;
                heading_font_weight := default "" fw |}
      else None
  | _ => None
  end.

(** What makes a value missing for [x if x else default]. *)
Definition missing (v : option string) : Prop := v = None \/ v = Some "".

(** [d] is the non-empty maximal run of decimal digits at the start of [s]. *)
Definition is_leading_integer_of (s d : string) : Prop :=
  d <> "" /\ Py.all_chars Py.is_digit d = true /\
  exists r, s = d +:+ r /\ starts_with Py.is_digit r = false.

(** The schema that a call of [enhance_schema] leaves in [design_schema],
    whether the call returned or raised. *)
Definition schema_left (o : PluginOutcome) : DesignSchema :=
  match o with
  | Enhanced s => s
  | PluginRaised s => s
  end.

(** One plugin's turn in the loop: a plugin that applies is called on the
    schema that the plugins before it left, and the loop goes on with what
    the call left, whether it failed or not. *)
Definition plugin_turn (website_type html_content : string) (driver : option Driver)
    (s : DesignSchema) (p : Plugin) : DesignSchema :=
  if applies_to p website_type
  then schema_left (enhance_schema p s html_content driver)
  else s.

(** The names of the plugins whose call returned, in the order of the
    calls, each plugin called on the schema that the ones before it left. *)
Fixpoint returned_plugins (website_type html_content : string) (driver : option Driver)
    (s : DesignSchema) (plugins : list Plugin) : list string :=
  match plugins with
  | [] => []
  | p :: rest =>
      if applies_to p website_type then
        match enhance_schema p s html_content driver with
        | Enhanced s' =>
            plugin_name p :: returned_plugins website_type html_content driver s' rest
        | PluginRaised s' => returned_plugins website_type html_content driver s' rest
        end
      else returned_plugins website_type html_content driver s rest
  end.

(** The interpreter setting used below: CPython's default digit limit. *)
Definition cpython_default_limit : option N := Some 4300%N.

(** ** Vocabulary of the further properties *)

(** The decimal numeral of [n], as a browser writes a color component. *)
Definition decimal_of_N (n : N) : string :=
  DecimalString.NilZero.string_of_uint (N.to_uint n).

(** The computed-style serialisations [rgb(r, g, b)] and [rgba(r, g, b, a)]. *)
Definition css_rgb (r g b : N) : string :=
  "rgb(" +:+ decimal_of_N r +:+ ", " +:+ decimal_of_N g +:+ ", " +:+ decimal_of_N b +:+ ")".

Definition css_rgba (r g b : N) (alpha : string) : string :=
  "rgba(" +:+ decimal_of_N r +:+ ", " +:+ decimal_of_N g +:+ ", " +:+ decimal_of_N b
          +:+ ", " +:+ alpha +:+ ")".

Definition hex_digit_value (c : ascii) : option N :=
  let n := N_of_ascii c in
  if ((48 <=? n) && (n <=? 57))%N then Some (n - 48)%N
  else if ((97 <=? n) && (n <=? 102))%N then Some (n - 87)%N
  else None.

Definition hex_pair_value (c1 c2 : ascii) : option N :=
  match hex_digit_value c1, hex_digit_value c2 with
  | Some h, Some l => Some (16 * h + l)%N
  | _, _ => None
  end.

(** The three components that a canonical color [#rrggbb] denotes. *)
Definition hex_components (h : string) : option (N * N * N) :=
  match h with
  | String "#" (String r1 (String r2 (String g1 (String g2
      (String b1 (String b2 EmptyString)))))) =>
      match hex_pair_value r1 r2, hex_pair_value g1 g2, hex_pair_value b1 b2 with
      | Some r, Some g, Some b => Some (r, g, b)
      | _, _, _ => None
      end
  | _ => None
  end.

(** [int(s)] does not hit the interpreter's digit limit. *)
Definition int_accepts (limit : option N) (s : string) : Prop :=
  match limit with
  | Some m => (N.of_nat (String.length s) <= m)%N
  | None => True
  end.

(** How often [x] occurs in [l]. *)
Definition occurrences (x : string) (l : list string) : nat :=
  length (List.filter (String.eqb x) l).

(** [c[k]] for a [Counter]: the count of [k], 0 when [k] is no key. *)
Fixpoint counter_get (k : string) (c : list (string * nat)) : nat :=
  match c with
  | [] => 0
  | (y, n) :: c' => if String.eqb k y then n else counter_get k c'
  end.

(** Every keyword that [generate_design_schema] can add. *)
Definition known_keywords : list string :=
  ["high-contrast"; "limited-palette"; "rounded-corners"; "sharp-corners";
   "uses-shadows"; "flat-design"; "serif-typography"; "sans-serif-typography";
   "grid-layout"; "contained-width"; "full-width-layout"; "svg-icons"; "icon-font"].

(** The keywords in the order in which the rules add them last to first. *)
Definition keyword_list (c : ColorInfo) (t : Typography) (l : Layout)
    (cs : Components) (i : Images) : list string :=
  icon_keywords i ++
  [if number_truthy (container_width l) then "contained-width" else "full-width-layout"] ++
  (if has_grid_system l then ["grid-layout"] else []) ++
  [if is_serif t then "serif-typography" else "sans-serif-typography";
   if has_shadow cs i then "uses-shadows" else "flat-design";
   if has_rounding cs i then "rounded-corners" else "sharp-corners"] ++
  palette_keywords c.

(** The values that [determine_website_type] can return. *)
Definition known_website_types : list string :=
  ["wordpress"; "shopify"; "wix"; "squarespace"; "webflow"; "joomla"; "drupal";
   "tailwind"; "bootstrap"; "react"; "vue"; "angular"; "material";
   "ecommerce"; "blog"; "government"; "education"; "organization"; "general"].

(** A style read that gave a text, other than the empty one and those of
    [none_texts]. *)
Definition reads_other_than (none_texts : list string) (v : option string) : Prop :=
  exists text, v = Some text /\ text <> "" /\ text ∉ none_texts.

(** A font name as it stands in a font stack: not empty, without quote
    characters and commas, and with no whitespace at its ends. *)
Definition plain_font_name (name : string) : Prop :=
  name <> "" /\
  Py.all_chars (fun c => negb (Py.is_quote c) && negb (Ascii.eqb c ",")) name = true /\
  starts_with Py.is_whitespace name = false /\
  ends_with Py.is_whitespace name = false.

(** A length in pixels as the snippets write it: a non-empty run of
    decimal digits followed by px. *)
Definition is_pixel_length (text : string) : Prop :=
  exists digits, text = digits +:+ "px" /\ digits <> "" /\
    Py.all_chars Py.is_digit digits = true.

(** The position at which [x] is first met in [l] (the length of [l] when
    it is not met). *)
Fixpoint first_position (x : string) (l : list string) : nat :=
  match l with
  | [] => 0
  | y :: l' => if String.eqb x y then 0 else S (first_position x l')
  end.

(** [a] comes before [b] in the order of [most_common] over the samples
    [l]: it occurs more often, or as often and is met first. *)
Definition more_common_or_first (l : list string) (a b : string) : Prop :=
  occurrences b l < occurrences a l \/
  (occurrences a l = occurrences b l /\ first_position a l < first_position b l).

(** * Properties *)

(** ** Characters and strings *)

Ltac by_cases_on_char c :=
  destruct c as [[] [] [] [] [] [] [] []]; vm_compute; try reflexivity; try discriminate; auto.

Lemma lower_char_fixes_lower_hex c :
  Py.is_lower_hex_char c = true -> Py.lower_char c = c.
Proof. by_cases_on_char c. Qed.

Lemma hex_and_lower_or_minus c :
  Py.is_hex_char c = true -> is_lower_hex_or_minus c = true ->
  Py.is_lower_hex_char c = true.
Proof. by_cases_on_char c. Qed.

Lemma lower_hex_is_lower_or_minus c :
  Py.is_lower_hex_char c = true -> is_lower_hex_or_minus c = true.
Proof. unfold is_lower_hex_or_minus. intros ->. reflexivity. Qed.

Lemma all_chars_app p a b :
  Py.all_chars p (a +:+ b) = Py.all_chars p a && Py.all_chars p b.
Proof.
  induction a as [|c a IH]; simpl; [reflexivity|].
  rewrite IH. apply andb_assoc.
Qed.

Lemma all_chars_weaken (p q : ascii -> bool) s :
  (forall c, p c = true -> q c = true) ->
  Py.all_chars p s = true -> Py.all_chars q s = true.
Proof.
  intros Hpq. induction s as [|c s IH]; simpl; [reflexivity|].
  intros [Hc Hs]%andb_true_iff. rewrite (Hpq _ Hc), (IH Hs). reflexivity.
Qed.

Lemma string_length_app a b :
  String.length (a +:+ b) = String.length a + String.length b.
Proof. induction a as [|c a IH]; simpl; [reflexivity|]. rewrite IH. reflexivity. Qed.

Lemma lower_fixes_lower_hex s :
  Py.all_chars Py.is_lower_hex_char s = true -> Py.lower s = s.
Proof.
  induction s as [|c s IH]; simpl; [reflexivity|].
  intros [Hc Hs]%andb_true_iff.
  rewrite (lower_char_fixes_lower_hex _ Hc), (IH Hs). reflexivity.
Qed.

Lemma lower_fixes_hex6 s : Py.is_hex6_lower s = true -> Py.lower s = s.
Proof.
  destruct s as [|c rest]; simpl; [discriminate|].
  intros [[Hc Hrest]%andb_true_iff _]%andb_true_iff.
  apply Ascii.eqb_eq in Hc. subst c.
  rewrite (lower_fixes_lower_hex _ Hrest). reflexivity.
Qed.

(** ** Hexadecimal formatting *)

Lemma hex_uint_chars d :
  Py.all_chars Py.is_lower_hex_char (NilEmpty.string_of_uint d) = true.
Proof. induction d; simpl; auto. Qed.

Lemma hex_of_N_chars n : Py.all_chars Py.is_lower_hex_char (Py.hex_of_N n) = true.
Proof.
  unfold Py.hex_of_N, NilZero.string_of_uint.
  destruct (N.to_hex_uint n) eqn:E; try reflexivity;
    rewrite <- E at 1; rewrite E; apply hex_uint_chars.
Qed.

Lemma format_02x_chars n :
  Py.all_chars is_lower_hex_or_minus (Py.format_02x n) = true.
Proof.
  pose proof (all_chars_weaken _ _ _ lower_hex_is_lower_or_minus (hex_of_N_chars (Z.abs_N n))) as H.
  unfold Py.format_02x.
  destruct (n <? 0)%Z; [|destruct (String.length _ <? 2)];
    rewrite ?all_chars_app, H; reflexivity.
Qed.

Lemma format_02x_byte n :
  (0 <= n <= 255)%Z -> two_lower_hex (Py.format_02x n) = true.
Proof.
  intros Hn.
  assert (Hall : forallb (fun k => two_lower_hex (Py.format_02x (Z.of_nat k))) (seq 0 256) = true)
    by (vm_compute; reflexivity).
  rewrite forallb_forall in Hall.
  specialize (Hall (Z.to_nat n)).
  rewrite Z2Nat.id in Hall by lia.
  apply Hall, in_seq. lia.
Qed.

Lemma clamp255_range n : (0 <= clamp255 n <= 255)%Z.
Proof. unfold clamp255. lia. Qed.

Lemma hex_of_rgb_bytes r g b :
  (0 <= r <= 255)%Z -> (0 <= g <= 255)%Z -> (0 <= b <= 255)%Z ->
  Py.is_hex6_lower (hex_of_rgb r g b) = true.
Proof.
  intros Hr Hg Hb.
  apply format_02x_byte in Hr, Hg, Hb.
  unfold two_lower_hex in *.
  apply andb_true_iff in Hr as [Hr1 Hr2], Hg as [Hg1 Hg2], Hb as [Hb1 Hb2].
  apply Nat.eqb_eq in Hr2, Hg2, Hb2.
  unfold hex_of_rgb. simpl.
  rewrite !all_chars_app, !string_length_app, Hr1, Hg1, Hb1, Hr2, Hg2, Hb2.
  reflexivity.
Qed.

Lemma hex_of_rgb_chars r g b :
  exists rest, hex_of_rgb r g b = String "#" rest /\
               Py.all_chars is_lower_hex_or_minus rest = true.
Proof.
  eexists. split; [reflexivity|].
  rewrite !all_chars_app, !format_02x_chars. reflexivity.
Qed.

Lemma match_hex_run_split n s tail :
  Py.match_hex_run n s = Some tail ->
  Py.all_chars is_lower_hex_or_minus s = true ->
  exists pre, s = pre +:+ tail /\ String.length pre = n /\
              Py.all_chars Py.is_lower_hex_char pre = true /\
              Py.all_chars is_lower_hex_or_minus tail = true.
Proof.
  revert s. induction n as [|n IH]; intros s; simpl.
  - intros [= ->] Hs. exists EmptyString. auto.
  - destruct s as [|c s]; [discriminate|].
    destruct (Py.is_hex_char c) eqn:Hc; [|discriminate].
    intros Hrun [Hc' Hs]%andb_true_iff.
    destruct (IH _ Hrun Hs) as (pre & -> & Hlen & Hpre & Htail).
    exists (String c pre). simpl.
    rewrite (hex_and_lower_or_minus _ Hc Hc'), Hpre, Hlen. auto.
Qed.

Lemma string_app_empty_r s : s +:+ "" = s.
Proof.
  induction s as [|c s IH]; [reflexivity|].
  change (String c (s +:+ "") = String c s). rewrite IH. reflexivity.
Qed.

(** A string made of [#], lowercase hexadecimal digits and minus signs that
    passes the validity filter is a canonical color. *)
Lemma match_hex6_canonical rest :
  Py.match_hex6 (String "#" rest) = true ->
  Py.all_chars is_lower_hex_or_minus rest = true ->
  Py.is_hex6_lower (String "#" rest) = true.
Proof.
  intros Hm Hrest. unfold Py.match_hex6 in Hm.
  apply andb_true_iff in Hm as [_ Hm].
  destruct (Py.match_hex_run 6 rest) as [tail|] eqn:Hrun; [|discriminate].
  destruct (match_hex_run_split _ _ _ Hrun Hrest) as (pre & -> & Hlen & Hpre & Hchars).
  apply orb_true_iff in Hm as [Hm|Hm]; apply String.eqb_eq in Hm; subst tail.
  - rewrite string_app_empty_r. unfold Py.is_hex6_lower.
    rewrite Hpre, Hlen. reflexivity.
  - discriminate Hchars.
Qed.

(** ** [rgb_to_hex] *)

Lemma rgb_to_hex_canonical v h :
  rgb_to_hex v = Some h -> Py.is_hex6_lower h = true.
Proof.
  unfold rgb_to_hex. destruct v as [s|]; [|discriminate].
  destruct (negb _ || negb _); [discriminate|].
  destruct (3 <=? length _); [|discriminate].
  destruct (Py.int int_max_str_digits <$> take 3 (Py.findall_digits s))
    as [|[r|] [|[g|] [|[b|] [|? ?]]]]; try discriminate.
  intros [= <-]. apply hex_of_rgb_bytes; apply clamp255_range.
Qed.

Lemma rgb_to_hex_needs_rgb s :
  Py.contains "rgb" (Py.lower s) = false -> rgb_to_hex (Some s) = None.
Proof.
  intros H. unfold rgb_to_hex. rewrite H.
  rewrite orb_true_r. reflexivity.
Qed.

(** ** The set of valid colors *)

Lemma elem_of_valid_hex_colors sig x :
  x ∈ valid_hex_colors sig <->
  Py.match_hex6 x = true /\
  (x ∈ hex_dominant_colors sig \/
   (exists c, c ∈ computed_values sig /\ rgb_to_hex (Some c) = Some x) \/
   (exists c, c ∈ css_rule_values sig /\ rgb_to_hex (Some c) = Some x)).
Proof.
  unfold valid_hex_colors, all_hex_colors, hex_computed_colors, hex_css_rule_colors,
    computed_colors_raw, colors_from_css_rules.
  rewrite elem_of_set_omap. split.
  - intros ([y|] & Hy & Hk); simpl in Hk; [|discriminate].
    destruct (Py.match_hex6 y) eqn:Hm; [|discriminate].
    injection Hk as ->. split; [exact Hm|].
    rewrite !elem_of_union, elem_of_list_to_set, !elem_of_map in Hy.
    destruct Hy as [[Hy|(c & Hc & Hin)]|(c & Hc & Hin)].
    + left. apply list_elem_of_fmap in Hy as (z & [= ->] & Hz). exact Hz.
    + right. left. exists c. rewrite elem_of_list_to_set in Hin. auto.
    + right. right. exists c. rewrite elem_of_list_to_set in Hin. auto.
  - intros (Hm & Hx). exists (Some x). split; [|simpl; rewrite Hm; reflexivity].
    rewrite !elem_of_union, elem_of_list_to_set, !elem_of_map.
    destruct Hx as [Hx|[(c & Hin & Hc)|(c & Hin & Hc)]].
    + left. left. apply list_elem_of_fmap. eauto.
    + left. right. exists c. rewrite elem_of_list_to_set. auto.
    + right. exists c. rewrite elem_of_list_to_set. auto.
Qed.

Lemma valid_hex_colors_canonical sig x :
  x ∈ valid_hex_colors sig -> Py.is_hex6_lower x = true.
Proof.
  rewrite elem_of_valid_hex_colors.
  intros (Hm & [Hx|[(c & _ & Hc)|(c & _ & Hc)]]);
    [|exact (rgb_to_hex_canonical _ _ Hc)..].
  unfold hex_dominant_colors in Hx.
  apply list_elem_of_fmap in Hx as ([[r g] b] & -> & _).
  destruct (hex_of_rgb_chars r g b) as (rest & Heq & Hrest).
  rewrite Heq in *. apply match_hex6_canonical; assumption.
Qed.


Lemma set_listing_of_list (X : gset string) l :
  NoDup l -> list_to_set l = X -> set_listing X l.
Proof.
  intros Hnd <-. split; [exact Hnd|]. intros x. rewrite elem_of_list_to_set. reflexivity.
Qed.

Lemma set_listing_empty l : set_listing ∅ l -> l = [].
Proof.
  intros [_ H]. destruct l as [|x l]; [reflexivity|].
  exfalso. apply (not_elem_of_empty (C:=gset string) x), H. left.
Qed.

(** ** The order of Python strings *)

Lemma string_compare_cons x a y b :
  String.compare (String x a) (String y b) =
  match (N_of_ascii x ?= N_of_ascii y)%N with
  | Eq => String.compare a b
  | o => o
  end.
Proof. reflexivity. Qed.

Lemma string_compare_le_trans a b c :
  String.compare a b <> Gt -> String.compare b c <> Gt -> String.compare a c <> Gt.
Proof.
  revert b c. induction a as [|x a IH]; intros [|y b] [|z c]; try (simpl; congruence).
  rewrite !string_compare_cons.
  destruct (N.compare_spec (N_of_ascii x) (N_of_ascii y)) as [Hxy|Hxy|Hxy];
    destruct (N.compare_spec (N_of_ascii y) (N_of_ascii z)) as [Hyz|Hyz|Hyz];
    destruct (N.compare_spec (N_of_ascii x) (N_of_ascii z)) as [Hxz|Hxz|Hxz];
    try congruence; try lia.
  apply IH.
Qed.

Lemma str_le_compare a b : Py.str_le a b <-> String.compare a b <> Gt.
Proof.
  unfold Py.str_le, String.leb. destruct (String.compare a b); split; congruence.
Qed.

#[local] Instance str_le_trans : Transitive Py.str_le.
Proof.
  intros a b c. rewrite !str_le_compare. apply string_compare_le_trans.
Qed.

#[local] Instance str_le_total : Total Py.str_le.
Proof. intros a b. apply String.leb_total. Qed.

#[local] Instance str_le_antisymm : AntiSymm (=) Py.str_le.
Proof. intros a b. apply String.leb_antisym. Qed.

Lemma str_le_lt a b : Py.str_le a b -> a <> b -> Py.str_lt a b.
Proof.
  unfold Py.str_le, Py.str_lt, String.leb, String.ltb.
  destruct (String.compare a b) eqn:E; try congruence.
  apply String.compare_eq_iff in E. congruence.
Qed.

Lemma StronglySorted_strict l :
  StronglySorted Py.str_le l -> NoDup l -> StronglySorted Py.str_lt l.
Proof.
  induction 1 as [|x l Hl IH Hx]; intros Hnd; [constructor|].
  apply NoDup_cons in Hnd as [Hnotin Hnd].
  constructor; [auto|].
  rewrite Forall_forall in Hx |- *. intros y Hy.
  apply str_le_lt; [auto|]. intros ->. contradiction.
Qed.

(** [sorted] returns the one ascending arrangement of its argument. *)
Lemma sorted_spec l : StronglySorted Py.str_le (Py.sorted l) /\ Py.sorted l ≡ₚ l.
Proof.
  split; [apply StronglySorted_merge_sort; apply _|apply merge_sort_Permutation].
Qed.

(** Hence any sorting algorithm, Python's included, returns [Py.sorted l]. *)
Lemma sorted_characterised l l' :
  StronglySorted Py.str_le l' -> l' ≡ₚ l -> l' = Py.sorted l.
Proof.
  intros Hs Hp. destruct (sorted_spec l) as [Hs' Hp'].
  apply (StronglySorted_unique Py.str_le); [assumption..|].
  rewrite Hp, Hp'. reflexivity.
Qed.



(** ** Role assignment *)

Lemma elem_of_List_filter {A} (f : A -> bool) (l : list A) x :
  x ∈ List.filter f l <-> x ∈ l /\ f x = true.
Proof. rewrite !list_elem_of_In. apply filter_In. Qed.

Lemma head_of_filter_in (f : string -> bool) l d :
  d ∈ l -> default d (List.filter f l !! 0) ∈ l.
Proof.
  intros Hd. destruct (List.filter f l !! 0) as [x|] eqn:E; simpl; [|exact Hd].
  apply list_elem_of_lookup_2 in E. apply elem_of_List_filter in E. tauto.
Qed.

Lemma index_or_default_in (l : list string) i d :
  d ∈ l -> default d (l !! i) ∈ l.
Proof.
  intros Hd. destruct (l !! i) as [x|] eqn:E; simpl; [|exact Hd].
  eapply list_elem_of_lookup_2, E.
Qed.

Ltac solve_role_source :=
  first [ left; solve [repeat constructor]
        | right; left; reflexivity
        | right; right; left; reflexivity
        | right; right; right; solve [repeat constructor] ].

Lemma assign_roles_sources bg fg l :
  role_source bg fg l (role_primary (assign_roles bg fg l)) /\
  role_source bg fg l (role_secondary (assign_roles bg fg l)) /\
  role_source bg fg l (role_accent (assign_roles bg fg l)).
Proof.
  unfold assign_roles, role_source.
  destruct (non_gray_colors bg fg l) as [|c0 [|c1 [|c2 ng]]] eqn:Eng.
  4: { assert (Hin : forall c, c ∈ c0 :: c1 :: c2 :: ng -> c ∈ l).
       { intros c Hc. rewrite <- Eng in Hc. unfold non_gray_colors in Hc.
         apply elem_of_List_filter in Hc. tauto. }
       simpl. repeat split; left; apply Hin; set_solver. }
  all: destruct l as [|s0 [|s1 [|s2 l']]]; simpl role_primary; simpl role_secondary;
    simpl role_accent.
  all: try (destruct (negb (String.eqb (Py.lower s0) (Py.lower fg)))).
  all: try solve [repeat split; solve_role_source].
  all: set (l0 := s0 :: s1 :: s2 :: l').
  all: assert (H0 : s0 ∈ l0) by (left).
  all: pose proof (head_of_filter_in (fun c => not_in_lower c [bg; fg]) l0 s0 H0) as Hp.
  all: set (p := default s0 _) in *.
  all: pose proof (head_of_filter_in (fun c => not_in_lower c [bg; fg; p]) l0 _
                     (index_or_default_in l0 1 p Hp)) as Hs.
  all: set (sc := default (default p _) _) in *.
  all: pose proof (head_of_filter_in (fun c => not_in_lower c [bg; fg; p; sc]) l0 _
                     (index_or_default_in l0 2 sc Hs)) as Ha.
  all: repeat split; left; assumption.
Qed.

Lemma List_filter_sublist {A} (f : A -> bool) (l : list A) :
  List.filter f l `sublist_of` l.
Proof.
  induction l as [|x l IH]; simpl; [constructor|].
  destruct (f x); [apply sublist_skip|apply sublist_cons]; exact IH.
Qed.

(** ** The emitted palette *)

Lemma palette_facts l :
  NoDup l ->
  length (take 15 (Py.sorted l)) <= 15 /\
  NoDup (take 15 (Py.sorted l)) /\
  StronglySorted Py.str_lt (take 15 (Py.sorted l)) /\
  (forall x, x ∈ take 15 (Py.sorted l) -> x ∈ l).
Proof.
  intros Hnd. destruct (sorted_spec l) as [Hs Hp].
  assert (Hnd' : NoDup (Py.sorted l)) by (rewrite Hp; exact Hnd).
  pose proof (StronglySorted_strict _ Hs Hnd') as Hlt.
  rewrite <- (take_drop 15 (Py.sorted l)) in Hnd', Hlt.
  apply NoDup_app in Hnd' as (Hnd' & _ & _).
  apply StronglySorted_app_1_l in Hlt.
  repeat split; [rewrite length_take; lia|assumption..|].
  intros x Hx. apply subseteq_take in Hx. rewrite Hp in Hx. exact Hx.
Qed.

Lemma fmap_lower_canonical l :
  Forall (fun c => Py.is_hex6_lower c = true) l -> Py.lower <$> l = l.
Proof.
  induction 1 as [|x l Hx _ IH]; [reflexivity|].
  rewrite fmap_cons, (lower_fixes_hex6 _ Hx), IH. reflexivity.
Qed.

Lemma or_default_hex_canonical v d :
  Py.is_hex6_lower d = true ->
  Py.is_hex6_lower (default d (Py.or_else (rgb_to_hex v) (Some d))) = true.
Proof.
  intros Hd. unfold Py.or_else.
  destruct (rgb_to_hex v) as [h|] eqn:E; simpl; [|exact Hd].
  destruct (negb _); simpl; [|exact Hd].
  exact (rgb_to_hex_canonical _ _ E).
Qed.

Lemma background_color_hex_canonical sig :
  Py.is_hex6_lower (background_color_hex sig) = true.
Proof.
  unfold background_color_hex. destruct (body_styles sig) as [[bg fg]|]; [|reflexivity].
  apply or_default_hex_canonical. reflexivity.
Qed.

Lemma text_color_hex_canonical sig :
  Py.is_hex6_lower (text_color_hex sig) = true.
Proof.
  unfold text_color_hex. destruct (body_styles sig) as [[bg fg]|]; [|reflexivity].
  apply or_default_hex_canonical. reflexivity.
Qed.

Lemma role_source_canonical sig l r :
  set_listing (valid_hex_colors sig) l ->
  role_source (background_color_hex sig) (text_color_hex sig) l r ->
  Py.is_hex6_lower r = true.
Proof.
  intros [_ Hl] [Hr|[->|[->|Hr]]].
  - apply (valid_hex_colors_canonical sig), Hl, Hr.
  - apply background_color_hex_canonical.
  - apply text_color_hex_canonical.
  - repeat (apply elem_of_cons in Hr as [->|Hr]; [reflexivity|]).
    apply elem_of_nil in Hr. contradiction.
Qed.

(** C5.  Whatever the signals and whatever the enumeration of the color set,
    the five role colors and every palette entry returned by
    [extract_color_palette] match [^#[0-9a-f]{6}$]; the palette has at most
    15 entries, and no two of them are equal after lowercasing. *)
Theorem emitted_colors_canonical sig out :
  extract_color_palette_returns sig out ->
  Forall (fun c => Py.is_hex6_lower c = true)
         [primary_color out; secondary_color out; accent_color out;
          background_color out; text_color out] /\
  Forall (fun c => Py.is_hex6_lower c = true) (palette out) /\
  length (palette out) <= 15 /\
  NoDup (Py.lower <$> palette out).
Proof.
  intros (l & Hl & ->). simpl.
  destruct (assign_roles_sources (background_color_hex sig) (text_color_hex sig) l)
    as (Hp & Hs & Ha).
  destruct (palette_facts l (proj1 Hl)) as (Hlen & Hnd & _ & Hin).
  assert (Hpal : Forall (fun c => Py.is_hex6_lower c = true) (take 15 (Py.sorted l))).
  { apply Forall_forall. intros x Hx.
    apply (valid_hex_colors_canonical sig), Hl, Hin, Hx. }
  split; [|split; [exact Hpal|split; [exact Hlen|]]].
  - repeat constructor; eauto using role_source_canonical,
      background_color_hex_canonical, text_color_hex_canonical.
  - rewrite (fmap_lower_canonical _ Hpal). exact Hnd.
Qed.



(** ** Style keywords *)

Lemma elem_of_style_keywords url now c t l cs i k :
  k ∈ style_keywords (generate_design_schema url now c t l cs i) <->
  k ∈ derive_keywords c t l cs i.
Proof.
  simpl. rewrite (proj2 (sorted_spec _)), elem_of_elements. reflexivity.
Qed.

Lemma style_keywords_sorted url now c t l cs i :
  StronglySorted Py.str_lt (style_keywords (generate_design_schema url now c t l cs i)).
Proof.
  simpl. apply StronglySorted_strict; [apply sorted_spec|].
  rewrite (proj2 (sorted_spec _)). apply NoDup_elements.
Qed.

Lemma elem_of_add_either (b : bool) (x y k : string) (K : gset string) :
  k ∈ (if b then {[x]} ∪ K else {[y]} ∪ K) <-> k = (if b then x else y) \/ k ∈ K.
Proof. destruct b; rewrite elem_of_union, elem_of_singleton; reflexivity. Qed.

Lemma elem_of_add_if (b : bool) (x k : string) (K : gset string) :
  k ∈ (if b then {[x]} ∪ K else K) <-> (b = true /\ k = x) \/ k ∈ K.
Proof.
  destruct b; [rewrite elem_of_union, elem_of_singleton|]; intuition congruence.
Qed.

(** What each rule contributes to the keyword set. *)
Lemma elem_of_derive_keywords c t l cs i k :
  k ∈ derive_keywords c t l cs i <->
  k ∈ icon_keywords i \/
  k = (if number_truthy (container_width l) then "contained-width" else "full-width-layout") \/
  (has_grid_system l = true /\ k = "grid-layout") \/
  k = (if is_serif t then "serif-typography" else "sans-serif-typography") \/
  k = (if has_shadow cs i then "uses-shadows" else "flat-design") \/
  k = (if has_rounding cs i then "rounded-corners" else "sharp-corners") \/
  k ∈ palette_keywords c.
Proof.
  unfold derive_keywords. cbv zeta.
  set (K5 := if number_truthy _ then _ else _).
  assert (H7 : k ∈ (if has_svg_icons i then {["svg-icons"]} ∪ K5
                    else if has_icon_font i then {["icon-font"]} ∪ K5 else K5) <->
               k ∈ icon_keywords i \/ k ∈ K5).
  { unfold icon_keywords. destruct (has_svg_icons i), (has_icon_font i);
      rewrite ?elem_of_union, ?elem_of_singleton, ?list_elem_of_singleton, ?elem_of_nil;
      tauto. }
  rewrite H7. subst K5.
  rewrite elem_of_add_either, elem_of_add_if, !elem_of_add_either.
  assert (H1 : k ∈ (if negb (bool_decide (palette c = []))
                    then if 6 <? length (palette c) then {["high-contrast"]} ∪ (∅ : gset string)
                         else if length (palette c) <=? 4
                              then {["limited-palette"]} ∪ (∅ : gset string) else ∅
                    else (∅ : gset string)) <-> k ∈ palette_keywords c).
  { unfold palette_keywords.
    destruct (negb _), (6 <? length (palette c)), (length (palette c) <=? 4);
      rewrite ?elem_of_union, ?elem_of_singleton, ?list_elem_of_singleton, ?elem_of_nil,
        ?elem_of_empty; tauto. }
  rewrite H1. tauto.
Qed.

Ltac pick_disjunct :=
  first [ reflexivity | split; reflexivity | left; pick_disjunct | right; pick_disjunct ].

(** Decides [k ∈ derive_keywords ...] for a literal [k], one rule at a time. *)
Ltac keyword_membership :=
  rewrite elem_of_derive_keywords; unfold icon_keywords, palette_keywords;
  split;
  [ let H := fresh "H" in
    intros [H|[H|[[_ H]|[H|[H|[H|H]]]]]];
    repeat match type of H with
           | context [if ?b then _ else _] => destruct b eqn:?
           end;
    rewrite ?list_elem_of_singleton, ?elem_of_nil in H;
    first [ discriminate H | contradiction | auto ]
  | let E := fresh "E" in
    intros E; rewrite E; pick_disjunct ].

Lemma keyword_rounded c t l cs i :
  "rounded-corners" ∈ derive_keywords c t l cs i <-> has_rounding cs i = true.
Proof. keyword_membership. Qed.

Lemma keyword_sharp c t l cs i :
  "sharp-corners" ∈ derive_keywords c t l cs i <-> has_rounding cs i = false.
Proof. keyword_membership. Qed.

Lemma keyword_shadows c t l cs i :
  "uses-shadows" ∈ derive_keywords c t l cs i <-> has_shadow cs i = true.
Proof. keyword_membership. Qed.

Lemma keyword_flat c t l cs i :
  "flat-design" ∈ derive_keywords c t l cs i <-> has_shadow cs i = false.
Proof. keyword_membership. Qed.

Lemma keyword_serif c t l cs i :
  "serif-typography" ∈ derive_keywords c t l cs i <-> is_serif t = true.
Proof. keyword_membership. Qed.

Lemma keyword_sans_serif c t l cs i :
  "sans-serif-typography" ∈ derive_keywords c t l cs i <-> is_serif t = false.
Proof. keyword_membership. Qed.

Lemma keyword_contained c t l cs i :
  "contained-width" ∈ derive_keywords c t l cs i <->
  number_truthy (container_width l) = true.
Proof. keyword_membership. Qed.

Lemma keyword_full_width c t l cs i :
  "full-width-layout" ∈ derive_keywords c t l cs i <->
  number_truthy (container_width l) = false.
Proof. keyword_membership. Qed.

Lemma keyword_limited_palette c t l cs i :
  "limited-palette" ∈ derive_keywords c t l cs i <->
  1 <= length (palette c) <= 4.
Proof.
  rewrite elem_of_derive_keywords; unfold icon_keywords, palette_keywords.
  split.
  - intros [H|[H|[[_ H]|[H|[H|[H|H]]]]]];
      repeat match type of H with
             | context [if ?b then _ else _] => destruct b eqn:?
             end;
      rewrite ?list_elem_of_singleton, ?elem_of_nil in H;
      try discriminate H; try contradiction.
    destruct (palette c); [discriminate|].
    apply Nat.leb_le in Heqb1. simpl in *. lia.
  - intros [H1 H4]. do 6 right.
    destruct (palette c) as [|x p] eqn:E; [simpl in H1; lia|].
    simpl negb. cbn iota.
    replace (6 <? length (x :: p)) with false by (symmetry; apply Nat.ltb_ge; lia).
    replace (length (x :: p) <=? 4) with true by (symmetry; apply Nat.leb_le; lia).
    left.
Qed.

(** C4.  The style keywords of every assembled schema hold exactly one
    member of each of the four pairs rounded/sharp corners, shadows/flat
    design, serif/sans-serif typography, contained/full width, and the list
    is in strictly ascending (alphabetical) order. *)
Theorem style_keywords_exclusive_and_sorted url now c t l cs i :
  let kw := style_keywords (generate_design_schema url now c t l cs i) in
  exactly_one_of "rounded-corners" "sharp-corners" kw /\
  exactly_one_of "uses-shadows" "flat-design" kw /\
  exactly_one_of "serif-typography" "sans-serif-typography" kw /\
  exactly_one_of "contained-width" "full-width-layout" kw /\
  StronglySorted Py.str_lt kw.
Proof.
  intros kw. subst kw. unfold exactly_one_of.
  rewrite !elem_of_style_keywords.
  rewrite keyword_rounded, keyword_sharp, keyword_shadows, keyword_flat,
    keyword_serif, keyword_sans_serif, keyword_contained, keyword_full_width.
  repeat split; try apply style_keywords_sorted.
  - destruct (has_rounding cs i); [left|right]; split; congruence.
  - destruct (has_shadow cs i); [left|right]; split; congruence.
  - destruct (is_serif t); [left|right]; split; congruence.
  - destruct (number_truthy (container_width l)); [left|right]; split; congruence.
Qed.

(** ** No color at all *)

(** C3, as the code has it.  With no valid color from any source the roles
    are the fixed defaults and the palette is empty; the palette-size rules
    are guarded by a non-empty palette, so neither of their keywords is
    emitted.  In general "limited-palette" is a keyword exactly when the
    palette has between 1 and 4 entries. *)
Theorem zero_colors_defaults sig out url now t l cs i :
  valid_hex_colors sig = ∅ ->
  extract_color_palette_returns sig out ->
  primary_color out = "#0000ff" /\
  secondary_color out = "#d3d3d3" /\
  accent_color out = "#ffa500" /\
  palette out = [] /\
  ("limited-palette" ∉ style_keywords (generate_design_schema url now out t l cs i)) /\
  (forall c : ColorInfo,
     "limited-palette" ∈ style_keywords (generate_design_schema url now c t l cs i) <->
     1 <= length (palette c) <= 4).
Proof.
  intros Hempty (sc & Hsc & ->).
  rewrite Hempty in Hsc. apply set_listing_empty in Hsc. subst sc.
  do 4 (split; [reflexivity|]). split.
  - rewrite elem_of_style_keywords, keyword_limited_palette. simpl. lia.
  - intros c. rewrite elem_of_style_keywords. apply keyword_limited_palette.
Qed.

(** ** Typography *)

Lemma lstrip_spec p s :
  (exists l, s = l +:+ Py.lstrip p s /\ Py.all_chars p l = true) /\
  starts_with p (Py.lstrip p s) = false.
Proof.
  induction s as [|c s [(l & Hl & Hall) Hst]]; simpl.
  - split; [exists EmptyString; auto|reflexivity].
  - destruct (p c) eqn:Hc.
    + split; [|exact Hst]. exists (String c l).
      change (String c l +:+ Py.lstrip p s) with (String c (l +:+ Py.lstrip p s)).
      rewrite <- Hl. simpl. rewrite Hc, Hall. auto.
    + split; [exists EmptyString; auto|simpl; exact Hc].
Qed.

Lemma rstrip_spec p s :
  (exists r, s = Py.rstrip p s +:+ r /\ Py.all_chars p r = true) /\
  ends_with p (Py.rstrip p s) = false /\
  (starts_with p s = false -> starts_with p (Py.rstrip p s) = false).
Proof.
  induction s as [|c s [(r & Hr & Hall) [Hend _]]]; simpl.
  - split; [exists EmptyString; auto|auto].
  - destruct (Py.rstrip p s) as [|c' r'] eqn:E.
    + destruct (p c) eqn:Hc; simpl.
      * split; [|auto]. exists (String c r). simpl. rewrite Hc, Hall.
        split; [|reflexivity]. rewrite Hr at 1. reflexivity.
      * split; [|rewrite Hc; auto]. exists r. split; [|exact Hall].
        rewrite Hr at 1. reflexivity.
    + rewrite andb_false_r. split; [|split; [exact Hend|simpl; auto]].
      exists r. split; [|exact Hall].
      change (String c (String c' r') +:+ r) with (String c (String c' r' +:+ r)).
      rewrite <- Hr. reflexivity.
Qed.

Lemma strip_quotes_spec raw : quotes_stripped raw (Py.strip Py.is_quote raw).
Proof.
  unfold quotes_stripped, Py.strip.
  destruct (lstrip_spec Py.is_quote raw) as [(l & Hl & Hlq) Hst].
  destruct (rstrip_spec Py.is_quote (Py.lstrip Py.is_quote raw)) as [(r & Hr & Hrq) [Hend Hkeep]].
  split; [|split; [apply Hkeep, Hst|exact Hend]].
  exists l, r. rewrite <- Hr. auto.
Qed.

Lemma heading_step_lookup probe hs t tag :
  heading_step probe hs t !! tag =
  if decide (t = tag) then
    match heading_entry probe t with Some h => Some h | None => hs !! tag end
  else hs !! tag.
Proof.
  unfold heading_step, heading_entry.
  destruct (probe t) as [| | |ff fs fw]; try (destruct (decide (t = tag)); reflexivity).
  destruct (Py.truthy ff && Py.truthy fs && Py.truthy fw);
    destruct (decide (t = tag)) as [->|Hne]; try reflexivity.
  - apply lookup_insert_eq.
  - apply lookup_insert_ne, Hne.
Qed.

Lemma headings_fold_lookup probe tags hs tag :
  foldl (heading_step probe) hs tags !! tag =
  match heading_entry probe tag with
  | Some h => if decide (tag ∈ tags) then Some h else hs !! tag
  | None => hs !! tag
  end.
Proof.
  revert hs. induction tags as [|t tags IH]; intros hs; simpl.
  - destruct (heading_entry probe tag); [|reflexivity].
    destruct (decide (tag ∈ [])) as [H|_]; [|reflexivity].
    apply elem_of_nil in H. contradiction.
  - rewrite IH, heading_step_lookup.
    destruct (decide (t = tag)) as [->|Hne].
    + destruct (heading_entry probe tag) as [h|]; [|reflexivity].
      destruct (decide (tag ∈ tags)), (decide (tag ∈ tag :: tags)) as [|Hn];
        try reflexivity; exfalso; apply Hn; left.
    + destruct (heading_entry probe tag) as [h|]; [|reflexivity].
      destruct (decide (tag ∈ tags)) as [Hin|Hnin],
               (decide (tag ∈ t :: tags)) as [Hin'|Hnin']; try reflexivity.
      * exfalso. apply Hnin'. right. exact Hin.
      * exfalso. apply elem_of_cons in Hin' as [->|Hin']; [apply Hne|apply Hnin]; auto.
Qed.

Lemma truthy_some v : Py.truthy v = true -> exists s, v = Some s /\ s <> "".
Proof.
  destruct v as [s|]; simpl; [|discriminate].
  intros H. exists s. split; [reflexivity|].
  intros ->. discriminate H.
Qed.

Lemma truthy_false_missing v : Py.truthy v = false <-> missing v.
Proof.
  unfold missing. destruct v as [s|]; simpl; [|intuition].
  destruct (String.eqb_spec s ""); simpl; split; try intuition congruence.
Qed.

(** C8.  [extract_typography] always yields a body descriptor: the four
    defaults when the body element cannot be found, and otherwise, field by
    field, the default when that field's own style is missing, else the
    style read (quote-stripped for the family).  A heading level has a
    descriptor only if family, size and weight were all read as non-empty
    strings for a visible element of that level, and then it holds them, the
    family with its surrounding quote characters stripped. *)
Theorem typography_defaults_and_headings sig :
  let t := extract_typography sig in
  (body_element sig = None -> body t = default_body) /\
  (forall st, body_element sig = Some st ->
     (missing (body_fontFamily st) -> font_family (body t) = "sans-serif") /\
     (missing (body_fontSize st) -> font_size (body t) = "16px") /\
     (missing (body_fontWeight st) -> font_weight (body t) = "400") /\
     (missing (body_lineHeight st) -> line_height (body t) = "normal") /\
     (forall v, body_fontFamily st = Some v -> v <> "" ->
                quotes_stripped v (font_family (body t))) /\
     (forall v, body_fontSize st = Some v -> v <> "" -> font_size (body t) = v) /\
     (forall v, body_fontWeight st = Some v -> v <> "" -> font_weight (body t) = v) /\
     (forall v, body_lineHeight st = Some v -> v <> "" -> line_height (body t) = v)) /\
  (forall tag h, headings t !! tag = Some h ->
     tag ∈ heading_tags /\
     exists ff fs fw,
       heading_probe sig tag = FirstVisibleHeading (Some ff) (Some fs) (Some fw) /\
       ff <> "" /\ fs <> "" /\ fw <> "" /\
       quotes_stripped ff (heading_font_family h) /\
       heading_font_size h = fs /\ heading_font_weight h = fw).
Proof.
  intros t. subst t. unfold extract_typography. cbn [body headings].
  split; [|split].
  - intros ->. reflexivity.
  - intros st ->. cbn [extract_body font_family font_size font_weight line_height].
    assert (Hd : forall v d, missing v -> or_default v d = d).
    { intros v d Hv. unfold or_default. apply truthy_false_missing in Hv.
      rewrite Hv. reflexivity. }
    assert (Hv : forall o v d, o = Some v -> v <> "" -> or_default o d = v).
    { intros o v d -> Hne. unfold or_default. simpl.
      destruct (String.eqb_spec v ""); [contradiction|reflexivity]. }
    split; [|split; [|split; [|split; [|split; [|split; [|split]]]]]]; eauto.
    + intros Hm. apply truthy_false_missing in Hm. rewrite Hm. reflexivity.
    + intros v Hfam Hne. rewrite Hfam. simpl.
      destruct (String.eqb_spec v ""); [contradiction|]. simpl.
      apply strip_quotes_spec.
  - intros tag h Hl. rewrite headings_fold_lookup in Hl.
    destruct (heading_entry (heading_probe sig) tag) as [h'|] eqn:E;
      [|rewrite lookup_empty in Hl; discriminate].
    destruct (decide (tag ∈ heading_tags)) as [Hin|_];
      [|rewrite lookup_empty in Hl; discriminate].
    injection Hl as ->. split; [exact Hin|].
    unfold heading_entry in E.
    destruct (heading_probe sig tag) as [| | |ff fs fw]; try discriminate.
    destruct (Py.truthy ff) eqn:Hff, (Py.truthy fs) eqn:Hfs, (Py.truthy fw) eqn:Hfw;
      simpl in E; try discriminate.
    apply truthy_some in Hff as (a & -> & Ha), Hfs as (b & -> & Hb), Hfw as (c & -> & Hc).
    injection E as <-. exists a, b, c. cbn.
    repeat split; auto. all: apply strip_quotes_spec.
Qed.

(** The converse for headings: a visible element of a level whose three
    styles were read gets its descriptor. *)
Lemma heading_present sig tag ff fs fw :
  tag ∈ heading_tags ->
  heading_probe sig tag = FirstVisibleHeading (Some ff) (Some fs) (Some fw) ->
  ff <> "" -> fs <> "" -> fw <> "" ->
  headings (extract_typography sig) !! tag =
  Some {| heading_font_family := Py.strip Py.is_quote ff;
          heading_font_size := fs; heading_font_weight := fw |}.
Proof.
  intros Hin Hp Ha Hb Hc. unfold extract_typography. cbn [headings].
  rewrite headings_fold_lookup. unfold heading_entry. rewrite Hp. simpl.
  destruct (String.eqb_spec ff ""), (String.eqb_spec fs ""), (String.eqb_spec fw "");
    try contradiction.
  simpl. destruct (decide (tag ∈ heading_tags)); [reflexivity|contradiction].
Qed.

(** ** [rgb_to_hex] as the filter in front of the palette *)

Lemma exists_cons_none s l x :
  rgb_to_hex (Some s) = None ->
  (exists c, c ∈ s :: l /\ rgb_to_hex (Some c) = Some x) <->
  (exists c, c ∈ l /\ rgb_to_hex (Some c) = Some x).
Proof.
  intros Hn. split; intros (c & Hin & Hc).
  - apply elem_of_cons in Hin as [->|Hin]; [congruence|eauto].
  - exists c. split; [right|]; assumption.
Qed.

(** C10.  [rgb_to_hex] returns [None] or a string matching
    [^#[0-9a-f]{6}$].  A string without the substring rgb (in any case), such
    as a hex literal or a color name, yields [None], and adding it to the CSS
    rule values or to the computed values leaves the set of valid colors,
    hence the palette, unchanged. *)
Theorem rgb_to_hex_safe :
  (forall v, rgb_to_hex v = None \/
             exists h, rgb_to_hex v = Some h /\ Py.is_hex6_lower h = true) /\
  (forall s, Py.contains "rgb" (Py.lower s) = false ->
     rgb_to_hex (Some s) = None /\
     forall sig,
       valid_hex_colors (add_css_value s sig) = valid_hex_colors sig /\
       valid_hex_colors (add_computed_value s sig) = valid_hex_colors sig).
Proof.
  split.
  - intros v. destruct (rgb_to_hex v) as [h|] eqn:E; [right|left; reflexivity].
    exists h. split; [reflexivity|]. exact (rgb_to_hex_canonical _ _ E).
  - intros s Hs. pose proof (rgb_to_hex_needs_rgb s Hs) as Hnone.
    split; [exact Hnone|]. intros sig.
    split; apply set_eq; intros x; rewrite !elem_of_valid_hex_colors;
      unfold add_css_value, add_computed_value, hex_dominant_colors;
      cbn [css_rule_values computed_values dominant_colors_rgb];
      rewrite (exists_cons_none s _ x Hnone); reflexivity.
Qed.

(** ** Spacing and radius bases *)

Lemma span_digits_spec s :
  s = fst (Py.span_digits s) +:+ snd (Py.span_digits s) /\
  Py.all_chars Py.is_digit (fst (Py.span_digits s)) = true /\
  starts_with Py.is_digit (snd (Py.span_digits s)) = false.
Proof.
  induction s as [|c s (Heq & Hall & Hst)]; simpl; [auto|].
  destruct (Py.is_digit c) eqn:Hc.
  - destruct (Py.span_digits s) as [d r]. simpl in *.
    rewrite Hc, Hall. repeat split; [|exact Hst].
    change (String c d +:+ r) with (String c (d +:+ r)). rewrite <- Heq. reflexivity.
  - simpl. rewrite Hc. auto.
Qed.

Lemma match_leading_digits_Some s d :
  Py.match_leading_digits s = Some d -> is_leading_integer_of s d.
Proof.
  unfold Py.match_leading_digits, is_leading_integer_of.
  destruct (span_digits_spec s) as (Heq & Hall & Hst).
  destruct (String.eqb_spec (fst (Py.span_digits s)) ""); [discriminate|].
  intros [= <-]. repeat split; [assumption..|]. eauto.
Qed.

Lemma match_leading_digits_digit s :
  starts_with Py.is_digit s = true -> exists d, Py.match_leading_digits s = Some d.
Proof.
  unfold Py.match_leading_digits. destruct s as [|c s]; simpl; [discriminate|].
  intros ->. destruct (Py.span_digits s). simpl. eauto.
Qed.

Lemma match_leading_digits_None s :
  starts_with Py.is_digit s = false -> Py.match_leading_digits s = None.
Proof.
  unfold Py.match_leading_digits. destruct s as [|c s]; simpl; [reflexivity|].
  intros ->. reflexivity.
Qed.

(** C7, as the code has it.  Without spacing samples
    [common_spacing_units] is empty and the spacing base is 8.  With a first
    spacing value the base is its leading run of digits when it starts with a
    digit, and stays 8 otherwise.  The radius base is read in the same way
    from one string, the button radius when it is a non-empty string and
    else the card radius: its leading run of digits, and 4 when that string
    is missing or does not start with a digit. *)
Theorem spacing_and_radius_bases float_gt_zero elements_to_sample (s : DesignSchema) :
  (match elements_to_sample with
   | Some els => spacing_samples float_gt_zero els = []
   | None => True
   end -> analyze_layout_spacing float_gt_zero elements_to_sample = []) /\
  (common_spacing_units (layout s) = [] ->
     sv_spacing_unit_val (snippet_values s) = "8" /\
     sv_spacing_unit (snippet_values s) = "8px") /\
  (forall first rest, common_spacing_units (layout s) = first :: rest ->
     (starts_with Py.is_digit first = true ->
        is_leading_integer_of first (sv_spacing_unit_val (snippet_values s))) /\
     (starts_with Py.is_digit first = false ->
        sv_spacing_unit_val (snippet_values s) = "8")) /\
  (radius_to_use (components s) =
     (let button_radius := Py.dict_get (buttons (components s)) "border_radius" None in
      if Py.truthy button_radius then button_radius
      else Py.dict_get (cards (components s)) "border_radius" None)) /\
  (missing (radius_to_use (components s)) ->
     sv_border_radius_val (snippet_values s) = "4") /\
  (forall r, radius_to_use (components s) = Some r -> r <> "" ->
     (starts_with Py.is_digit r = true ->
        is_leading_integer_of r (sv_border_radius_val (snippet_values s))) /\
     (starts_with Py.is_digit r = false ->
        sv_border_radius_val (snippet_values s) = "4")).
Proof.
  cbn [snippet_values sv_spacing_unit_val sv_spacing_unit sv_border_radius_val].
  unfold spacing_unit_val, border_radius_val.
  split; [|split; [|split; [|split; [|split]]]].
  - destruct elements_to_sample as [els|]; [|reflexivity].
    intros H. unfold analyze_layout_spacing. rewrite H. reflexivity.
  - intros ->. split; reflexivity.
  - intros first rest ->. split; intros Hd.
    + destruct (match_leading_digits_digit _ Hd) as (d & Hm). rewrite Hm.
      apply match_leading_digits_Some, Hm.
    + rewrite (match_leading_digits_None _ Hd). reflexivity.
  - reflexivity.
  - intros Hm. apply truthy_false_missing in Hm. rewrite Hm. reflexivity.
  - intros r Hr Hne. rewrite Hr. simpl.
    destruct (String.eqb_spec r ""); [contradiction|]. simpl. split; intros Hd.
    + destruct (match_leading_digits_digit _ Hd) as (d & Hm). rewrite Hm.
      apply match_leading_digits_Some, Hm.
    + rewrite (match_leading_digits_None _ Hd). reflexivity.
Qed.

(** ** Plugin dispatch *)

Lemma enhance_fold_invoked wt html driver steps st :
  invoked (foldl (enhance_step wt html driver) st steps) =
  invoked st ++ (fst <$> List.filter (fun ip => applies_to (snd ip) wt) steps).
Proof.
  revert st. induction steps as [|[i p] steps IH]; intros st.
  - simpl. rewrite app_nil_r. reflexivity.
  - cbn [foldl List.filter snd]. rewrite IH. unfold enhance_step.
    destruct (applies_to p wt); [|reflexivity].
    destruct (enhance_schema p (design_schema st) html driver);
      cbn [invoked]; rewrite <- app_assoc; reflexivity.
Qed.

Lemma enhance_fold_unchanged wt html driver steps st :
  (forall ip, ip ∈ steps -> applies_to (snd ip) wt = false) ->
  foldl (enhance_step wt html driver) st steps = st.
Proof.
  revert st. induction steps as [|[i p] steps IH]; intros st Hall; [reflexivity|].
  pose proof (Hall (i, p) ltac:(left)) as Hf. cbn [snd] in Hf.
  assert (Hstep : enhance_step wt html driver st (i, p) = st)
    by (unfold enhance_step; rewrite Hf; reflexivity).
  cbn [foldl]. rewrite Hstep. apply IH.
  intros ip Hip. apply Hall. right. exact Hip.
Qed.

Lemma elem_of_indexed_plugins (plugins : list Plugin) i p :
  (i, p) ∈ imap (fun i p => (i, p)) plugins <-> plugins !! i = Some p.
Proof.
  rewrite elem_of_lookup_imap. split.
  - intros (j & q & [= -> ->] & Hq). exact Hq.
  - intros H. eauto.
Qed.

Lemma applies_to_spec p wt : applies_to p wt = true <-> wt ∈ applicable_types p.
Proof. unfold applies_to. apply bool_decide_eq_true. Qed.

(** The plugins called are exactly the applicable ones, in registry order. *)
Lemma invoked_plugins plugins schema wt html driver i :
  i ∈ invoked (enhance_loop plugins schema wt html driver) <->
  exists p, plugins !! i = Some p /\ wt ∈ applicable_types p.
Proof.
  unfold enhance_loop. rewrite enhance_fold_invoked. cbn [invoked app].
  rewrite list_elem_of_fmap. split.
  - intros ([j p] & -> & Hin). apply elem_of_List_filter in Hin as [Hin Happ].
    exists p. split; [apply elem_of_indexed_plugins, Hin|apply applies_to_spec, Happ].
  - intros (p & Hp & Happ). exists (i, p). split; [reflexivity|].
    apply elem_of_List_filter.
    split; [apply elem_of_indexed_plugins, Hp|apply applies_to_spec, Happ].
Qed.

Lemma enhance_loop_unchanged plugins schema wt html driver :
  (forall p, p ∈ plugins -> wt ∉ applicable_types p) ->
  enhance_loop plugins schema wt html driver =
  {| design_schema := schema; applied_plugins := []; invoked := [] |}.
Proof.
  intros Hnone. unfold enhance_loop. apply enhance_fold_unchanged.
  intros [i p] Hip. apply elem_of_indexed_plugins in Hip.
  apply not_true_is_false. rewrite applies_to_spec.
  apply Hnone. eapply list_elem_of_lookup_2, Hip.
Qed.

Lemma indexed_plugins_plugins (plugins : list Plugin) :
  snd <$> imap (fun i p => (i, p)) plugins = plugins.
Proof.
  rewrite fmap_imap.
  change (imap (const id) plugins = plugins).
  rewrite imap_const. apply list_fmap_id.
Qed.

(** The schema that the loop returns: every plugin has had its turn. *)
Lemma enhance_fold_schema wt html driver steps st :
  design_schema (foldl (enhance_step wt html driver) st steps) =
  foldl (plugin_turn wt html driver) (design_schema st) (snd <$> steps).
Proof.
  revert st. induction steps as [|[i p] steps IH]; intros st; [reflexivity|].
  rewrite fmap_cons. cbn [foldl snd]. rewrite IH. f_equal.
  unfold enhance_step, plugin_turn. destruct (applies_to p wt); [|reflexivity].
  destruct (enhance_schema p (design_schema st) html driver); reflexivity.
Qed.

Lemma enhance_fold_returned wt html driver steps st :
  applied_plugins (foldl (enhance_step wt html driver) st steps) =
  applied_plugins st ++ returned_plugins wt html driver (design_schema st) (snd <$> steps).
Proof.
  revert st. induction steps as [|[i p] steps IH]; intros st.
  - cbn. rewrite app_nil_r. reflexivity.
  - rewrite fmap_cons. cbn [foldl snd returned_plugins]. rewrite IH.
    unfold enhance_step. destruct (applies_to p wt); [|reflexivity].
    destruct (enhance_schema p (design_schema st) html driver);
      cbn [applied_plugins design_schema]; [|reflexivity].
    rewrite <- app_assoc. reflexivity.
Qed.

Lemma enhance_with_plugins_turns plugins schema wt html driver :
  enhance_with_plugins plugins schema wt html driver =
  foldl (plugin_turn wt html driver) schema plugins.
Proof.
  unfold enhance_with_plugins, enhance_loop.
  rewrite enhance_fold_schema, indexed_plugins_plugins. reflexivity.
Qed.

Lemma applied_plugins_returned plugins schema wt html driver :
  applied_plugins (enhance_loop plugins schema wt html driver) =
  returned_plugins wt html driver schema plugins.
Proof.
  unfold enhance_loop. rewrite enhance_fold_returned, indexed_plugins_plugins.
  reflexivity.
Qed.

Lemma returned_plugins_app wt html driver s l1 l2 :
  returned_plugins wt html driver s (l1 ++ l2) =
  returned_plugins wt html driver s l1 ++
  returned_plugins wt html driver (foldl (plugin_turn wt html driver) s l1) l2.
Proof.
  revert s. induction l1 as [|p l1 IH]; intros s; [reflexivity|].
  cbn [app returned_plugins foldl]. unfold plugin_turn at 2.
  destruct (applies_to p wt); [|apply IH].
  destruct (enhance_schema p s html driver); cbn [schema_left]; rewrite IH; reflexivity.
Qed.

(** C9.  A registered plugin whose applicable types do not contain the
    detected type is not called; when no plugin applies, the schema comes
    back unchanged and nothing is called; and every plugin that applies is
    called, whether the plugins before it returned or raised.  The schema
    returned is the one that results when every plugin has its turn, each
    applicable plugin called on the schema that the plugins before it left,
    and the names reported are those of the plugins whose call returned.
    In particular, when a plugin raises, the plugins behind it are run on
    the schema it left exactly as enhancement would run them on their own:
    the result is theirs, and the names they report follow the names
    reported before the failure. *)
Theorem plugins_dispatched_by_type plugins schema wt html driver :
  let st := enhance_loop plugins schema wt html driver in
  (forall i p, plugins !! i = Some p -> wt ∉ applicable_types p -> i ∉ invoked st) /\
  ((forall p, p ∈ plugins -> wt ∉ applicable_types p) ->
     enhance_with_plugins plugins schema wt html driver = schema /\ invoked st = []) /\
  (forall i p, plugins !! i = Some p -> wt ∈ applicable_types p -> i ∈ invoked st) /\
  enhance_with_plugins plugins schema wt html driver =
    foldl (plugin_turn wt html driver) schema plugins /\
  applied_plugins st = returned_plugins wt html driver schema plugins /\
  (forall before p after kept,
     plugins = before ++ p :: after ->
     wt ∈ applicable_types p ->
     enhance_schema p (enhance_with_plugins before schema wt html driver) html driver
       = PluginRaised kept ->
     enhance_with_plugins plugins schema wt html driver
       = enhance_with_plugins after kept wt html driver /\
     applied_plugins st
       = applied_plugins (enhance_loop before schema wt html driver) ++
         applied_plugins (enhance_loop after kept wt html driver) /\
     (forall j q, after !! j = Some q -> wt ∈ applicable_types q ->
        length before + S j ∈ invoked st)).
Proof.
  intros st. subst st. split; [|split; [|split; [|split; [|split]]]].
  - intros i p Hp Hnot Hin. apply invoked_plugins in Hin as (q & Hq & Happ).
    rewrite Hp in Hq. injection Hq as <-. contradiction.
  - intros Hnone. unfold enhance_with_plugins.
    rewrite (enhance_loop_unchanged _ _ _ _ _ Hnone). split; reflexivity.
  - intros i p Hp Happ. apply invoked_plugins. eauto.
  - apply enhance_with_plugins_turns.
  - apply applied_plugins_returned.
  - intros before p after kept -> Happ Hraised.
    apply applies_to_spec in Happ.
    rewrite enhance_with_plugins_turns in Hraised.
    assert (Hturn : plugin_turn wt html driver
                      (foldl (plugin_turn wt html driver) schema before) p = kept).
    { unfold plugin_turn at 1. rewrite Happ, Hraised. reflexivity. }
    split; [|split].
    + rewrite !enhance_with_plugins_turns, foldl_app. cbn [foldl].
      rewrite Hturn. reflexivity.
    + rewrite !applied_plugins_returned, returned_plugins_app.
      cbn [returned_plugins]. rewrite Happ, Hraised. reflexivity.
    + intros j q Hq Hq'. apply invoked_plugins. exists q. split; [|exact Hq'].
      rewrite lookup_app_r by lia.
      replace (length before + S j - length before) with (S j) by lia.
      exact Hq.
Qed.

(** ** Artifact derivers *)

(** C6, as the code has it.  Each deriver catches its own failure, so each
    requested output is computed from the schema by its own deriver alone,
    whatever happens in the other two.  What a failed deriver leaves differs:
    the code snippets are null, the documentation is the empty string, and
    the AI view is the original schema without an [ai_consumption] entry
    when the copy fails, and otherwise the copy with the descriptions built
    so far. *)
Theorem deriver_failures_contained
    (json_deep_copy : DesignSchema -> option DesignSchema)
    (describe : DesignSchema -> gmap string string * list string)
    (render_snippets : SnippetValues -> option CodeSnippets)
    (documentation_body : DesignSchema -> option string)
    (optimize_ai generate_code generate_docs : bool) (s : DesignSchema) :
  let r := derive_artifacts json_deep_copy describe render_snippets documentation_body
             optimize_ai generate_code generate_docs s in
  res_design_schema r = Some s /\
  res_ai_optimized_schema r =
    (if optimize_ai then Some (optimize_for_ai_consumption json_deep_copy describe s)
     else None) /\
  res_code_snippets r =
    (if generate_code then generate_design_code_snippets render_snippets s else None) /\
  res_documentation r =
    (if generate_docs then Some (generate_documentation documentation_body s) else None) /\
  (render_snippets (snippet_values s) = None ->
     generate_design_code_snippets render_snippets s = None) /\
  (documentation_body s = None -> generate_documentation documentation_body s = "") /\
  (json_deep_copy s = None ->
     optimize_for_ai_consumption json_deep_copy describe s =
     {| ai_schema := s; ai_consumption := None |}) /\
  (forall copy, json_deep_copy s = Some copy ->
     ai_schema (optimize_for_ai_consumption json_deep_copy describe s) = copy /\
     ai_consumption (optimize_for_ai_consumption json_deep_copy describe s) =
       Some {| natural_language_descriptions := fst (describe copy);
               suggested_prompt_elements := snd (describe copy);
               full_palette_hex := palette (colors copy) |}).
Proof.
  intros r. subst r. unfold derive_artifacts, generate_design_code_snippets,
    generate_documentation, optimize_for_ai_consumption.
  repeat split.
  - destruct optimize_ai, generate_code, generate_docs; reflexivity.
  - destruct optimize_ai, generate_code, generate_docs; reflexivity.
  - destruct optimize_ai, generate_code, generate_docs; reflexivity.
  - destruct optimize_ai, generate_code, generate_docs; reflexivity.
  - auto.
  - intros ->. reflexivity.
  - intros ->. reflexivity.
  - rewrite H. destruct (describe copy). reflexivity.
  - rewrite H. destruct (describe copy). reflexivity.
Qed.

(** * Further properties *)

(** ** Conversion of browser color strings *)

Lemma str_app_assoc a b c : (a +:+ b) +:+ c = a +:+ (b +:+ c).
Proof.
  induction a as [|x a IH]; [reflexivity|].
  change (String x ((a +:+ b) +:+ c) = String x (a +:+ b +:+ c)). rewrite IH. reflexivity.
Qed.

Lemma str_app_cons x a b : String x a +:+ b = String x (a +:+ b).
Proof. reflexivity. Qed.

Lemma decimal_uint_digits d :
  Py.all_chars Py.is_digit (DecimalString.NilEmpty.string_of_uint d) = true.
Proof. induction d; simpl; auto. Qed.

Lemma decimal_of_N_digits n :
  Py.all_chars Py.is_digit (decimal_of_N n) = true /\ decimal_of_N n <> "".
Proof.
  unfold decimal_of_N, DecimalString.NilZero.string_of_uint.
  destruct (N.to_uint n) eqn:E; try (split; [reflexivity|discriminate]);
    (split; [apply (decimal_uint_digits (_ u))|discriminate]).
Qed.

Lemma decimal_value_acc d p :
  Py.decimal_value_from (Z.pos p) (DecimalString.NilEmpty.string_of_uint d) =
  Z.pos (Pos.of_uint_acc d p).
Proof.
  revert p. induction d; intros p; simpl; [reflexivity|..].
  all: unfold Py.digit_value; cbn [N_of_ascii N_of_digits Z.of_N].
  all: match goal with
       | |- Py.decimal_value_from ?a _ = Z.pos (Pos.of_uint_acc _ ?q) =>
           replace a with (Z.pos q) by (cbn; lia)
       end.
  all: apply IHd.
Qed.

Lemma decimal_value_uint d :
  Py.decimal_value_from 0 (DecimalString.NilEmpty.string_of_uint d) = Z.of_N (N.of_uint d).
Proof.
  induction d; simpl; try exact IHd; try reflexivity.
  all: unfold Py.digit_value; cbn [N_of_ascii N_of_digits Z.of_N Z.mul Z.add Z.sub
                                   Z.pos_sub Z.opp Pos.pred_double Z.succ_double
                                   Z.pred_double Z.double].
  all: apply decimal_value_acc.
Qed.

Lemma decimal_of_N_value n : Py.decimal_value_from 0 (decimal_of_N n) = Z.of_N n.
Proof.
  unfold decimal_of_N, DecimalString.NilZero.string_of_uint.
  rewrite <- (DecimalN.Unsigned.of_to n) at 2.
  destruct (N.to_uint n) eqn:E; try reflexivity;
    rewrite <- ?E; try apply decimal_value_uint.
Qed.

Lemma int_of_decimal limit n :
  int_accepts limit (decimal_of_N n) -> Py.int limit (decimal_of_N n) = Some (Z.of_N n).
Proof.
  unfold int_accepts, Py.int. destruct limit as [m|]; intros H.
  - destruct (N.ltb_spec m (N.of_nat (String.length (decimal_of_N n)))); [lia|].
    rewrite decimal_of_N_value. reflexivity.
  - rewrite decimal_of_N_value. reflexivity.
Qed.

Lemma findall_digits_run cur d s :
  Py.all_chars Py.is_digit d = true ->
  Py.findall_digits_from cur (d +:+ s) = Py.findall_digits_from (cur +:+ d) s.
Proof.
  revert cur. induction d as [|c d IH]; intros cur H.
  - rewrite string_app_empty_r. reflexivity.
  - cbn [Py.all_chars] in H. apply andb_true_iff in H as [Hc Hd].
    rewrite str_app_cons. cbn [Py.findall_digits_from]. rewrite Hc.
    rewrite (IH _ Hd), str_app_assoc. reflexivity.
Qed.

Lemma findall_digits_skip p s :
  Py.all_chars (fun c => negb (Py.is_digit c)) p = true ->
  Py.findall_digits_from "" (p +:+ s) = Py.findall_digits_from "" s.
Proof.
  induction p as [|c p IH]; intros H; [reflexivity|].
  cbn [Py.all_chars] in H. apply andb_true_iff in H as [Hc Hp].
  rewrite str_app_cons. cbn [Py.findall_digits_from].
  apply negb_true_iff in Hc. rewrite Hc. apply IH, Hp.
Qed.

Lemma findall_digits_skip_char c s :
  Py.is_digit c = false ->
  Py.findall_digits_from "" (String c s) = Py.findall_digits_from "" s.
Proof. intros Hc. cbn [Py.findall_digits_from]. rewrite Hc. reflexivity. Qed.

(** A numeral followed by a character that is no digit is one match. *)
Lemma findall_digits_numeral d c s :
  Py.all_chars Py.is_digit d = true -> d <> "" -> Py.is_digit c = false ->
  Py.findall_digits_from "" (d +:+ String c s) = d :: Py.findall_digits_from "" s.
Proof.
  intros Hd Hne Hc. rewrite (findall_digits_run _ _ _ Hd).
  cbn [Py.findall_digits_from]. rewrite Hc.
  change ("" +:+ d) with d.
  destruct (String.eqb_spec d ""); [contradiction|reflexivity].
Qed.

Lemma findall_digits_three name r g b tail :
  Py.all_chars (fun c => negb (Py.is_digit c)) name = true ->
  starts_with Py.is_digit tail = false ->
  exists more,
    Py.findall_digits
      (name +:+ decimal_of_N r +:+ ", " +:+ decimal_of_N g +:+ ", "
            +:+ decimal_of_N b +:+ tail)
    = decimal_of_N r :: decimal_of_N g :: decimal_of_N b :: more.
Proof.
  intros Hname Htail. unfold Py.findall_digits.
  destruct (decimal_of_N_digits r) as [Hr Hr'], (decimal_of_N_digits g) as [Hg Hg'],
    (decimal_of_N_digits b) as [Hb Hb'].
  rewrite (findall_digits_skip _ _ Hname).
  do 2 change (", " +:+ ?x) with (String "," (String " " x)).
  rewrite (findall_digits_numeral _ "," _ Hr Hr' eq_refl).
  rewrite (findall_digits_skip_char " " _ eq_refl).
  rewrite (findall_digits_numeral _ "," _ Hg Hg' eq_refl).
  rewrite (findall_digits_skip_char " " _ eq_refl).
  destruct tail as [|c tail].
  - rewrite (findall_digits_run _ _ _ Hb). cbn [Py.findall_digits_from].
    change ("" +:+ decimal_of_N b) with (decimal_of_N b).
    destruct (String.eqb_spec (decimal_of_N b) ""); [contradiction|]. eauto.
  - simpl in Htail. rewrite (findall_digits_numeral _ _ _ Hb Hb' Htail). eauto.
Qed.

Lemma lower_app a b : Py.lower (a +:+ b) = Py.lower a +:+ Py.lower b.
Proof.
  induction a as [|c a IH]; [reflexivity|].
  rewrite str_app_cons. cbn [Py.lower]. rewrite IH. reflexivity.
Qed.

Lemma contains_prefix p s : String.prefix p s = true -> Py.contains p s = true.
Proof. destruct s; simpl; intros ->; reflexivity. Qed.

Lemma format_02x_pair n :
  (0 <= n <= 255)%Z ->
  exists c1 c2, Py.format_02x n = String c1 (String c2 EmptyString) /\
                hex_pair_value c1 c2 = Some (Z.to_N n).
Proof.
  intros Hn.
  assert (Hall : forallb (fun k =>
                   match Py.format_02x (Z.of_nat k) with
                   | String c1 (String c2 EmptyString) =>
                       bool_decide (hex_pair_value c1 c2 = Some (N.of_nat k))
                   | _ => false
                   end) (seq 0 256) = true) by (vm_compute; reflexivity).
  rewrite forallb_forall in Hall. specialize (Hall (Z.to_nat n)).
  rewrite Z2Nat.id in Hall by lia.
  assert (Hin : In (Z.to_nat n) (seq 0 256)) by (apply in_seq; lia).
  specialize (Hall Hin).
  destruct (Py.format_02x n) as [|c1 [|c2 [|? ?]]]; try discriminate.
  exists c1, c2. split; [reflexivity|].
  apply bool_decide_eq_true in Hall. rewrite Hall. f_equal. lia.
Qed.

Lemma hex_components_of_rgb r g b :
  (0 <= r <= 255)%Z -> (0 <= g <= 255)%Z -> (0 <= b <= 255)%Z ->
  hex_components (hex_of_rgb r g b) = Some (Z.to_N r, Z.to_N g, Z.to_N b).
Proof.
  intros Hr Hg Hb. unfold hex_of_rgb.
  destruct (format_02x_pair r Hr) as (r1 & r2 & -> & Hr'),
    (format_02x_pair g Hg) as (g1 & g2 & -> & Hg'),
    (format_02x_pair b Hb) as (b1 & b2 & -> & Hb').
  change (hex_components
            (String "#" (String r1 (String r2 (String g1 (String g2
               (String b1 (String b2 EmptyString))))))) = Some (Z.to_N r, Z.to_N g, Z.to_N b)).
  unfold hex_components. rewrite Hr', Hg', Hb'. reflexivity.
Qed.

Lemma rgb_to_hex_three_numerals s r g b more :
  s <> "" ->
  Py.contains "rgb" (Py.lower s) = true ->
  Py.findall_digits s = decimal_of_N r :: decimal_of_N g :: decimal_of_N b :: more ->
  int_accepts int_max_str_digits (decimal_of_N r) ->
  int_accepts int_max_str_digits (decimal_of_N g) ->
  int_accepts int_max_str_digits (decimal_of_N b) ->
  rgb_to_hex (Some s) =
  Some (hex_of_rgb (clamp255 (Z.of_N r)) (clamp255 (Z.of_N g)) (clamp255 (Z.of_N b))).
Proof.
  intros Hne Hrgb Hfind Hr Hg Hb. unfold rgb_to_hex. rewrite Hrgb, Hfind.
  simpl Py.truthy. destruct (String.eqb_spec s ""); [contradiction|].
  cbn [negb orb length Nat.leb take fmap list_fmap].
  rewrite (int_of_decimal _ _ Hr), (int_of_decimal _ _ Hg), (int_of_decimal _ _ Hb).
  reflexivity.
Qed.

Lemma clamp255_of_N n : clamp255 (Z.of_N n) = Z.of_N (N.min n 255).
Proof. unfold clamp255. lia. Qed.

(** X1.  A color that the browser serialises as [rgb(r, g, b)] or
    [rgba(r, g, b, a)], whatever the alpha text, is converted to the hex
    color whose three bytes are the components, each cut at 255. *)
Theorem rgb_to_hex_round_trip r g b alpha :
  int_accepts int_max_str_digits (decimal_of_N r) ->
  int_accepts int_max_str_digits (decimal_of_N g) ->
  int_accepts int_max_str_digits (decimal_of_N b) ->
  exists h,
    rgb_to_hex (Some (css_rgb r g b)) = Some h /\
    rgb_to_hex (Some (css_rgba r g b alpha)) = Some h /\
    hex_components h = Some (N.min r 255, N.min g 255, N.min b 255)%N.
Proof.
  intros Hr Hg Hb.
  exists (hex_of_rgb (clamp255 (Z.of_N r)) (clamp255 (Z.of_N g)) (clamp255 (Z.of_N b))).
  split; [|split].
  - destruct (findall_digits_three "rgb(" r g b ")" eq_refl eq_refl) as (more & Hfind).
    apply (rgb_to_hex_three_numerals _ r g b more); try assumption; [discriminate|].
    unfold css_rgb. rewrite lower_app. apply contains_prefix. reflexivity.
  - destruct (findall_digits_three "rgba(" r g b (", " +:+ alpha +:+ ")") eq_refl eq_refl)
      as (more & Hfind).
    apply (rgb_to_hex_three_numerals _ r g b more); try assumption; [discriminate|].
    unfold css_rgba. rewrite lower_app. apply contains_prefix. reflexivity.
  - rewrite hex_components_of_rgb by apply clamp255_range.
    rewrite !clamp255_of_N, !N2Z.id. reflexivity.
Qed.

(** ** Roles and palette *)

Lemma filter_head_exists {A} (f : A -> bool) (l : list A) x :
  x ∈ l -> f x = true -> exists y, List.filter f l !! 0 = Some y /\ f y = true.
Proof.
  intros Hin Hf.
  assert (Hx : x ∈ List.filter f l) by (apply elem_of_List_filter; auto).
  destruct (List.filter f l) as [|y ys] eqn:E; [apply elem_of_nil in Hx; contradiction|].
  exists y. split; [reflexivity|].
  assert (Hy : y ∈ List.filter f l) by (rewrite E; left).
  apply elem_of_List_filter in Hy. tauto.
Qed.

(** X2.  With three or more colors that are neither gray nor the page's
    background or text color, the three roles are three different detected
    colors, none of them gray, background or text. *)
Theorem non_gray_roles_distinct bg fg l :
  NoDup l ->
  3 <= length (non_gray_colors bg fg l) ->
  let r := assign_roles bg fg l in
  NoDup [role_primary r; role_secondary r; role_accent r] /\
  Forall (fun c => c ∈ l /\ not_in_lower c [bg; fg] = true /\ is_grayscale c = false)
         [role_primary r; role_secondary r; role_accent r].
Proof.
  intros Hnd Hlen r. subst r. unfold assign_roles.
  pose proof (sublist_NoDup _ _ Hnd (List_filter_sublist
                (fun c => not_in_lower c [bg; fg] && negb (is_grayscale c)) l)) as Hnd'.
  assert (Hin : forall c, c ∈ non_gray_colors bg fg l ->
                  c ∈ l /\ not_in_lower c [bg; fg] = true /\ is_grayscale c = false).
  { intros c Hc. apply elem_of_List_filter in Hc as [Hc Hf].
    apply andb_true_iff in Hf as [Hf1 Hf2]. apply negb_true_iff in Hf2. auto. }
  fold (non_gray_colors bg fg l) in Hnd'.
  destruct (non_gray_colors bg fg l) as [|c0 [|c1 [|c2 rest]]]; simpl in Hlen; try lia.
  cbn [role_primary role_secondary role_accent]. split.
  - apply NoDup_cons in Hnd' as [H0 Hnd']. apply NoDup_cons in Hnd' as [H1 Hnd'].
    apply NoDup_cons in Hnd' as [H2 _].
    rewrite !not_elem_of_cons in H0. rewrite !not_elem_of_cons in H1.
    repeat (apply NoDup_cons; split); [| |apply not_elem_of_nil|apply NoDup_nil_2];
      rewrite !not_elem_of_cons; repeat split; try tauto; apply not_elem_of_nil.
  - repeat constructor; apply Hin; repeat constructor.
Qed.

(** X3.  As soon as one color is detected, the primary and the accent color
    are detected colors (with two or more, the secondary too): the fixed
    defaults are used only for an empty color set.  With three or more
    colors the primary is not the background or text color if any other
    color was detected. *)
Theorem roles_come_from_detected_colors bg fg l :
  l <> [] ->
  let r := assign_roles bg fg l in
  role_primary r ∈ l /\ role_accent r ∈ l /\
  (2 <= length l -> role_secondary r ∈ l) /\
  (3 <= length l ->
   (exists c, c ∈ l /\ not_in_lower c [bg; fg] = true) ->
   not_in_lower (role_primary r) [bg; fg] = true).
Proof.
  intros Hne r. subst r. unfold assign_roles.
  destruct (non_gray_colors bg fg l) as [|c0 [|c1 [|c2 ng]]] eqn:Eng.
  4: { assert (Hin : forall c, c ∈ c0 :: c1 :: c2 :: ng ->
                       c ∈ l /\ not_in_lower c [bg; fg] = true).
       { intros c Hc. rewrite <- Eng in Hc. unfold non_gray_colors in Hc.
         apply elem_of_List_filter in Hc as [Hc Hf].
         apply andb_true_iff in Hf. tauto. }
       cbn [role_primary role_secondary role_accent].
       repeat split; intros; apply Hin; repeat constructor. }
  all: destruct l as [|s0 [|s1 [|s2 l']]]; [contradiction|..];
    cbn [role_primary role_secondary role_accent length].
  all: try solve [split; [|split; [|split]]; intros; try lia; repeat constructor].
  all: set (l0 := s0 :: s1 :: s2 :: l') in *.
  all: assert (H0 : s0 ∈ l0) by (left).
  all: pose proof (head_of_filter_in (fun c => not_in_lower c [bg; fg]) l0 s0 H0) as Hp.
  all: pose proof (head_of_filter_in
                     (fun c => not_in_lower c
                        [bg; fg; default s0 (List.filter (fun c => not_in_lower c [bg; fg]) l0 !! 0)])
                     l0 _ (index_or_default_in l0 1 _ Hp)) as Hs.
  all: split; [exact Hp|split; [|split; [intros _; exact Hs|]]].
  all: try (eapply head_of_filter_in, index_or_default_in, Hs).
  all: intros _ (c & Hc & Hf);
    destruct (filter_head_exists (fun c => not_in_lower c [bg; fg]) l0 c Hc Hf)
      as (y & Hy & Hfy); rewrite Hy; exact Hfy.
Qed.

(** X4.  The emitted palette holds only valid colors and as many as there
    are, up to 15; up to 15 valid colors are all in it; and when it is cut,
    it keeps the colors that come first in code-point order, so that every
    dropped color is greater than every kept one. *)
Theorem palette_keeps_smallest sig l :
  set_listing (valid_hex_colors sig) l ->
  let p := palette (extract_color_palette sig l) in
  (forall x, x ∈ p -> x ∈ valid_hex_colors sig) /\
  length p = min 15 (length l) /\
  (length l <= 15 -> forall x, x ∈ valid_hex_colors sig -> x ∈ p) /\
  (forall x y, x ∈ valid_hex_colors sig -> x ∉ p -> y ∈ p -> Py.str_lt y x).
Proof.
  intros Hl p. subst p. cbn [palette extract_color_palette].
  destruct (sorted_spec l) as [Hs Hp].
  assert (Hnd : NoDup (Py.sorted l)) by (rewrite Hp; apply Hl).
  pose proof (StronglySorted_strict _ Hs Hnd) as Hlt.
  assert (Hlen : length (Py.sorted l) = length l) by (rewrite Hp; reflexivity).
  split; [|split; [|split]].
  - intros x Hx. apply subseteq_take in Hx. rewrite Hp in Hx. apply Hl, Hx.
  - rewrite length_take, Hlen. reflexivity.
  - intros Hle x Hx. rewrite take_ge by lia. rewrite Hp. apply Hl, Hx.
  - intros x y Hx Hnot Hy.
    rewrite <- (take_drop 15 (Py.sorted l)) in Hlt.
    apply (StronglySorted_app_1_elem_of _ _ _ _ _ Hlt Hy).
    apply Hl in Hx. rewrite <- Hp, <- (take_drop 15 (Py.sorted l)) in Hx.
    apply elem_of_app in Hx as [Hx|Hx]; [contradiction|exact Hx].
Qed.

(** ** Spacing samples and their ranking *)

Lemma sample_props_sound float reads acc v :
  v ∈ sample_props float reads acc ->
  v ∈ acc \/
  (ReadValue (Some v) ∈ reads /\ Py.endswith v "px" = true /\
   float (Py.remove_px v) = Some true).
Proof.
  revert acc. induction reads as [|rd reads IH]; intros acc; cbn [sample_props]; [auto|].
  destruct rd as [|[value|]]; [auto| |].
  - destruct (Py.truthy (Some value) && Py.endswith value "px") eqn:Hc.
    + apply andb_true_iff in Hc as [_ Hpx].
      destruct (float (Py.remove_px value)) as [[|]|] eqn:Hf; [| |auto].
      * intros [Hv|Hv]%IH.
        -- apply elem_of_app in Hv as [Hv|Hv]; [auto|].
           apply list_elem_of_singleton in Hv as ->. right. split; [left|auto].
        -- right. destruct Hv as (Hv & ?). split; [right; exact Hv|assumption].
      * intros [Hv|(Hv & ?)]%IH; [auto|]. right. split; [right; exact Hv|assumption].
    + intros [Hv|(Hv & ?)]%IH; [auto|]. right. split; [right; exact Hv|assumption].
  - intros [Hv|(Hv & ?)]%IH; [auto|]. right. split; [right; exact Hv|assumption].
Qed.

Lemma foldl_sample_element_sound float els acc v :
  v ∈ foldl (sample_element float) acc els ->
  v ∈ acc \/
  exists el, el ∈ els /\ displayed el = Some true /\
             ReadValue (Some v) ∈ spacing_reads el /\
             Py.endswith v "px" = true /\ float (Py.remove_px v) = Some true.
Proof.
  revert acc. induction els as [|el els IH]; intros acc; cbn [foldl]; [auto|].
  intros [Hv|(el' & Hin & H)]%IH.
  - unfold sample_element in Hv.
    destruct (displayed el) as [[|]|] eqn:Hd; auto.
    apply sample_props_sound in Hv as [Hv|Hv]; [auto|].
    right. exists el. split; [left|]. tauto.
  - right. exists el'. split; [right; exact Hin|exact H].
Qed.

(** X5.  Every spacing sample was read from one of the first 100 sampled
    elements, from an element reported as displayed, ends in px and has a
    positive numeric part; elements after the hundredth are never read. *)
Theorem spacing_samples_sound float els :
  (forall v, v ∈ spacing_samples float els ->
     Py.endswith v "px" = true /\ float (Py.remove_px v) = Some true /\
     exists el, el ∈ take 100 els /\ displayed el = Some true /\
                ReadValue (Some v) ∈ spacing_reads el) /\
  (forall more, 100 <= length els ->
     spacing_samples float (els ++ more) = spacing_samples float els).
Proof.
  split.
  - intros v Hv. unfold spacing_samples in Hv.
    apply foldl_sample_element_sound in Hv as [Hv|(el & Hin & Hd & Hr & Hpx & Hf)].
    + apply elem_of_nil in Hv. contradiction.
    + split; [exact Hpx|split; [exact Hf|]]. exists el. auto.
  - intros more Hlen. unfold spacing_samples. rewrite take_app_le by exact Hlen.
    reflexivity.
Qed.

Lemma counter_add_get x k c :
  counter_get k (counter_add x c) =
  counter_get k c + (if String.eqb k x then 1 else 0).
Proof.
  induction c as [|[y n] c IH]; cbn [counter_add counter_get].
  - destruct (String.eqb k x); reflexivity.
  - destruct (String.eqb_spec x y) as [->|Hxy]; cbn [counter_get].
    + destruct (String.eqb_spec k y); lia.
    + destruct (String.eqb_spec k y) as [->|Hky].
      * destruct (String.eqb_spec y x); [congruence|lia].
      * exact IH.
Qed.

Lemma counter_add_keys x c :
  fst <$> counter_add x c =
  if bool_decide (x ∈ fst <$> c) then fst <$> c else (fst <$> c) ++ [x].
Proof.
  induction c as [|[y n] c IH]; cbn [counter_add]; [reflexivity|].
  destruct (String.eqb_spec x y) as [->|Hxy].
  - rewrite bool_decide_eq_true_2 by (rewrite fmap_cons; left). reflexivity.
  - rewrite !fmap_cons, IH. cbn [fst].
    destruct (bool_decide (x ∈ fst <$> c)) eqn:E.
    + apply bool_decide_eq_true in E.
      rewrite bool_decide_eq_true_2 by (right; exact E). reflexivity.
    + apply bool_decide_eq_false in E.
      rewrite bool_decide_eq_false_2; [reflexivity|].
      intros [?|?]%elem_of_cons; [congruence|contradiction].
Qed.

Lemma counter_add_NoDup x c : NoDup (fst <$> c) -> NoDup (fst <$> counter_add x c).
Proof.
  intros Hnd. rewrite counter_add_keys.
  destruct (bool_decide (x ∈ fst <$> c)) eqn:E; [exact Hnd|].
  apply bool_decide_eq_false in E.
  apply NoDup_app. split; [exact Hnd|split].
  - intros y Hy Hy'. apply list_elem_of_singleton in Hy' as ->. contradiction.
  - apply NoDup_singleton.
Qed.

Lemma occurrences_cons k x l :
  occurrences k (x :: l) = (if String.eqb k x then 1 else 0) + occurrences k l.
Proof. unfold occurrences. cbn [List.filter]. destruct (String.eqb k x); reflexivity. Qed.

Lemma counter_fold_spec l c :
  NoDup (fst <$> c) ->
  NoDup (fst <$> foldl (fun c x => counter_add x c) c l) /\
  (forall k, counter_get k (foldl (fun c x => counter_add x c) c l)
             = counter_get k c + occurrences k l) /\
  (forall k, k ∈ fst <$> foldl (fun c x => counter_add x c) c l <->
             k ∈ fst <$> c \/ k ∈ l).
Proof.
  revert c. induction l as [|x l IH]; intros c Hnd; cbn [foldl].
  - split; [exact Hnd|split].
    + intros k. unfold occurrences. simpl. lia.
    + intros k. rewrite elem_of_nil. tauto.
  - destruct (IH _ (counter_add_NoDup x c Hnd)) as (H1 & H2 & H3).
    split; [exact H1|split].
    + intros k. rewrite H2, counter_add_get, occurrences_cons. lia.
    + intros k. rewrite H3, counter_add_keys, elem_of_cons.
      destruct (bool_decide (x ∈ fst <$> c)) eqn:E.
      * apply bool_decide_eq_true in E. split; [tauto|].
        intros [?|[->|?]]; auto.
      * rewrite elem_of_app, list_elem_of_singleton. tauto.
Qed.

Lemma counter_get_entry c k n :
  NoDup (fst <$> c) -> (k, n) ∈ c -> counter_get k c = n.
Proof.
  induction c as [|[y m] c IH]; intros Hnd Hin; [apply elem_of_nil in Hin; contradiction|].
  rewrite fmap_cons in Hnd. apply NoDup_cons in Hnd as [Hy Hnd].
  cbn [counter_get]. apply elem_of_cons in Hin as [[= -> ->]|Hin].
  - rewrite String.eqb_refl. reflexivity.
  - destruct (String.eqb_spec k y) as [->|_]; [|exact (IH Hnd Hin)].
    exfalso. apply Hy. apply list_elem_of_fmap. exists (y, n). auto.
Qed.

(** The entries of a [Counter]: each sample once, with its number of
    occurrences. *)
Lemma Counter_spec l :
  NoDup (fst <$> Counter l) /\
  (forall k n, (k, n) ∈ Counter l -> k ∈ l /\ n = occurrences k l) /\
  (forall k, k ∈ l -> (k, occurrences k l) ∈ Counter l).
Proof.
  unfold Counter. destruct (counter_fold_spec l [] (NoDup_nil_2)) as (H1 & H2 & H3).
  split; [exact H1|split].
  - intros k n Hin. split.
    + assert (Hk : k ∈ fst <$> foldl (fun c x => counter_add x c) [] l)
        by (apply list_elem_of_fmap; exists (k, n); auto).
      apply H3 in Hk as [Hk|Hk]; [apply elem_of_nil in Hk; contradiction|exact Hk].
    + rewrite <- (counter_get_entry _ _ _ H1 Hin), H2. reflexivity.
  - intros k Hk.
    assert (Hk' : k ∈ fst <$> foldl (fun c x => counter_add x c) [] l)
      by (apply H3; auto).
    apply list_elem_of_fmap in Hk' as ([k' n] & -> & Hin). cbn [fst].
    assert (Hn : n = occurrences k' l)
      by (rewrite <- (counter_get_entry _ _ _ H1 Hin), H2; reflexivity).
    rewrite <- Hn. exact Hin.
Qed.

Lemma insert_by_count_perm x l : insert_by_count x l ≡ₚ x :: l.
Proof.
  induction l as [|y l IH]; cbn [insert_by_count]; [reflexivity|].
  destruct (snd x <? snd y); [|reflexivity].
  rewrite IH. apply Permutation_swap.
Qed.

Lemma insert_by_count_sorted x l :
  StronglySorted (fun a b => snd b <= snd a) l ->
  StronglySorted (fun a b => snd b <= snd a) (insert_by_count x l).
Proof.
  induction 1 as [|y l Hl IH Hy]; cbn [insert_by_count]; [repeat constructor|].
  destruct (Nat.ltb_spec (snd x) (snd y)) as [Hlt|Hge].
  - constructor; [exact IH|].
    rewrite insert_by_count_perm. constructor; [lia|exact Hy].
  - constructor; [constructor; assumption|].
    constructor; [exact Hge|].
    eapply Forall_impl; [exact Hy|]. cbn. intros; lia.
Qed.

Lemma sort_by_count_spec c :
  foldr insert_by_count [] c ≡ₚ c /\
  StronglySorted (fun a b => snd b <= snd a) (foldr insert_by_count [] c).
Proof.
  induction c as [|x c [IHp IHs]]; cbn [foldr]; [split; [reflexivity|constructor]|].
  split; [rewrite insert_by_count_perm, IHp; reflexivity|].
  apply insert_by_count_sorted, IHs.
Qed.

(** X6.  [common_spacing_units] holds at most five values, all different
    and all collected samples, in order of decreasing frequency; a sample
    that is left out occurs no more often than any value kept, and nothing
    is left out when fewer than five values are kept. *)
Theorem common_spacing_units_top_five float obs :
  let units := analyze_layout_spacing float obs in
  let samples := match obs with Some els => spacing_samples float els | None => [] end in
  length units <= 5 /\
  NoDup units /\
  (forall u, u ∈ units -> u ∈ samples) /\
  StronglySorted (fun a b => occurrences b samples <= occurrences a samples) units /\
  (forall u v, u ∈ units -> v ∈ samples -> v ∉ units ->
     occurrences v samples <= occurrences u samples) /\
  (length units < 5 -> forall v, v ∈ samples -> v ∈ units).
Proof.
  intros units samples. subst units.
  assert (Hempty : samples = [] -> analyze_layout_spacing float obs = []).
  { subst samples. unfold analyze_layout_spacing. destruct obs as [els|]; [|reflexivity].
    intros ->. reflexivity. }
  destruct (decide (samples = [])) as [He|Hne].
  { rewrite (Hempty He), He. cbn [length].
    repeat split; try constructor; try lia.
    all: intros; exfalso; eapply elem_of_nil; eassumption. }
  assert (Hunits : analyze_layout_spacing float obs
                   = fst <$> take 5 (foldr insert_by_count [] (Counter samples))).
  { subst samples. unfold analyze_layout_spacing, most_common in *.
    destruct obs as [els|]; [|contradiction].
    rewrite bool_decide_eq_false_2 by exact Hne. reflexivity. }
  rewrite Hunits. clear Hunits Hempty.
  destruct (Counter_spec samples) as (Hnd & Hentry & Hall).
  destruct (sort_by_count_spec (Counter samples)) as (Hperm & Hsorted).
  set (sorted := foldr insert_by_count [] (Counter samples)) in *.
  assert (Hnd' : NoDup (fst <$> sorted)) by (rewrite Hperm; exact Hnd).
  assert (Hin : forall e, e ∈ sorted -> e.1 ∈ samples /\ e.2 = occurrences e.1 samples).
  { intros [k n] He. rewrite Hperm in He. apply Hentry, He. }
  rewrite <- (take_drop 5 sorted) in Hnd', Hsorted.
  rewrite fmap_app in Hnd'. apply NoDup_app in Hnd' as (Hnd1 & Hdisj & _).
  split; [rewrite length_fmap, length_take; lia|].
  split; [exact Hnd1|].
  split.
  { intros u Hu. apply list_elem_of_fmap in Hu as (e & -> & He).
    apply subseteq_take in He. apply Hin, He. }
  split.
  { apply StronglySorted_app_1_l in Hsorted.
    assert (Htake : forall e, e ∈ take 5 sorted -> e.2 = occurrences e.1 samples).
    { intros e He. apply subseteq_take in He. apply Hin, He. }
    clear -Hsorted Htake. induction Hsorted as [|e l Hl IH He]; [constructor|].
    rewrite fmap_cons. constructor.
    - apply IH. intros e' He'. apply Htake. right. exact He'.
    - apply Forall_fmap, Forall_forall. intros e' He'. cbn.
      rewrite Forall_forall in He. specialize (He e' He').
      rewrite <- (Htake e) by left. rewrite <- (Htake e') by (right; exact He').
      exact He. }
  assert (Hleft : forall v, v ∈ samples -> v ∉ fst <$> take 5 sorted ->
                    (v, occurrences v samples) ∈ drop 5 sorted).
  { intros v Hv Hnot. pose proof (Hall v Hv) as He.
    rewrite <- Hperm, <- (take_drop 5 sorted) in He.
    apply elem_of_app in He as [He|He]; [|exact He].
    exfalso. apply Hnot. apply list_elem_of_fmap. exists (v, occurrences v samples). auto. }
  split.
  { intros u v Hu Hv Hnot. apply list_elem_of_fmap in Hu as (e & -> & He).
    pose proof (StronglySorted_app_1_elem_of _ _ _ _ _ Hsorted He (Hleft v Hv Hnot)) as Hle.
    cbn in Hle. rewrite <- (proj2 (Hin e (subseteq_take _ _ _ He))). exact Hle. }
  intros Hlen v Hv. rewrite length_fmap, length_take in Hlen.
  destruct (decide (v ∈ fst <$> take 5 sorted)) as [Hyes|Hnot]; [exact Hyes|].
  pose proof (Hleft v Hv Hnot) as He.
  rewrite drop_ge in He by lia. apply elem_of_nil in He. contradiction.
Qed.

(** ** The keyword list as a whole *)

Lemma derive_keywords_as_list c t l cs i :
  derive_keywords c t l cs i = list_to_set (keyword_list c t l cs i).
Proof.
  apply set_eq. intros k.
  rewrite elem_of_derive_keywords, elem_of_list_to_set. unfold keyword_list.
  rewrite !elem_of_app, !elem_of_cons, elem_of_nil.
  destruct (has_grid_system l).
  - rewrite list_elem_of_singleton. intuition congruence.
  - rewrite elem_of_nil. intuition congruence.
Qed.

Lemma palette_keywords_cases c :
  palette_keywords c = [] \/ palette_keywords c = ["high-contrast"] \/
  palette_keywords c = ["limited-palette"].
Proof.
  unfold palette_keywords.
  destruct (negb _), (6 <? length (palette c)), (length (palette c) <=? 4); auto.
Qed.

Lemma icon_keywords_cases i :
  icon_keywords i = [] \/ icon_keywords i = ["svg-icons"] \/
  icon_keywords i = ["icon-font"].
Proof. unfold icon_keywords. destruct (has_svg_icons i), (has_icon_font i); auto. Qed.

Lemma keyword_list_facts c t l cs i :
  NoDup (keyword_list c t l cs i) /\
  4 <= length (keyword_list c t l cs i) <= 7 /\
  Forall (fun k => k ∈ known_keywords) (keyword_list c t l cs i).
Proof.
  unfold keyword_list.
  destruct (palette_keywords_cases c) as [-> | [-> | ->]],
    (icon_keywords_cases i) as [-> | [-> | ->]],
    (number_truthy (container_width l)), (has_grid_system l), (is_serif t),
    (has_shadow cs i), (has_rounding cs i).
  all: split; [apply (bool_decide_unpack _); vm_compute; exact I|].
  all: split; [cbn; lia|].
  all: apply (bool_decide_unpack _); vm_compute; exact I.
Qed.

Lemma keyword_high_contrast c t l cs i :
  "high-contrast" ∈ derive_keywords c t l cs i <-> 6 < length (palette c).
Proof.
  rewrite elem_of_derive_keywords; unfold icon_keywords, palette_keywords.
  split.
  - intros [H|[H|[[_ H]|[H|[H|[H|H]]]]]];
      repeat match type of H with
             | context [if ?b then _ else _] => destruct b eqn:?
             end;
      rewrite ?list_elem_of_singleton, ?elem_of_nil in H;
      try discriminate H; try contradiction.
    apply Nat.ltb_lt. assumption.
  - intros H6. do 6 right.
    destruct (palette c) as [|x p] eqn:E; [simpl in H6; lia|].
    simpl negb. cbn iota.
    replace (6 <? length (x :: p)) with true by (symmetry; apply Nat.ltb_lt; lia).
    left.
Qed.

Lemma keyword_grid c t l cs i :
  "grid-layout" ∈ derive_keywords c t l cs i <-> has_grid_system l = true.
Proof.
  rewrite elem_of_derive_keywords; unfold icon_keywords, palette_keywords.
  split.
  - intros [H|[H|[[Hg _]|[H|[H|[H|H]]]]]]; [| |exact Hg|..];
      repeat match type of H with
             | context [if ?b then _ else _] => destruct b eqn:?
             end;
      rewrite ?list_elem_of_singleton, ?elem_of_nil in H;
      try discriminate H; try contradiction.
  - intros E. right. right. left. split; [exact E|reflexivity].
Qed.

Lemma keyword_svg c t l cs i :
  "svg-icons" ∈ derive_keywords c t l cs i <-> has_svg_icons i = true.
Proof. keyword_membership. Qed.

Lemma keyword_icon_font c t l cs i :
  "icon-font" ∈ derive_keywords c t l cs i <->
  has_svg_icons i = false /\ has_icon_font i = true.
Proof.
  rewrite elem_of_derive_keywords; unfold icon_keywords, palette_keywords.
  split.
  - intros [H|[H|[[_ H]|[H|[H|[H|H]]]]]];
      repeat match type of H with
             | context [if ?b then _ else _] => destruct b eqn:?
             end;
      rewrite ?list_elem_of_singleton, ?elem_of_nil in H;
      try discriminate H; try contradiction; auto.
  - intros [E1 E2]. rewrite E1, E2. left. left.
Qed.

(** X7.  The style keywords of an assembled schema are between four and
    seven words of a fixed vocabulary of thirteen.  Beside the four pairs
    they hold "grid-layout" exactly for a grid system, "high-contrast"
    exactly for a palette of more than six colors (never together with
    "limited-palette"), "svg-icons" exactly when vector icons were found and
    "icon-font" only when an icon font but no vector icon was found. *)
Theorem style_keywords_vocabulary url now c t l cs i :
  let kw := style_keywords (generate_design_schema url now c t l cs i) in
  Forall (fun k => k ∈ known_keywords) kw /\
  4 <= length kw <= 7 /\
  ("grid-layout" ∈ kw <-> has_grid_system l = true) /\
  ("high-contrast" ∈ kw <-> 6 < length (palette c)) /\
  ~ ("high-contrast" ∈ kw /\ "limited-palette" ∈ kw) /\
  ("svg-icons" ∈ kw <-> has_svg_icons i = true) /\
  ("icon-font" ∈ kw <-> has_svg_icons i = false /\ has_icon_font i = true).
Proof.
  intros kw. subst kw.
  destruct (keyword_list_facts c t l cs i) as (Hnd & Hlen & Hknown).
  rewrite !elem_of_style_keywords, keyword_grid, keyword_high_contrast,
    keyword_limited_palette, keyword_svg, keyword_icon_font.
  split; [|split; [|repeat split; try tauto; lia]].
  - apply Forall_forall. intros k Hk. apply elem_of_style_keywords in Hk.
    rewrite derive_keywords_as_list, elem_of_list_to_set in Hk.
    rewrite Forall_forall in Hknown. apply Hknown, Hk.
  - cbn [style_keywords generate_design_schema].
    rewrite (proj2 (sorted_spec _)), derive_keywords_as_list,
      (elements_list_to_set _ Hnd). exact Hlen.
Qed.

(** ** Serif detection *)

Lemma prefix_split a s : String.prefix a s = true -> exists r, s = a +:+ r.
Proof.
  revert s. induction a as [|c a IH]; intros s; [exists s; reflexivity|].
  destruct s as [|c' s]; cbn [String.prefix]; [discriminate|].
  destruct (ascii_dec c c') as [->|]; [|discriminate].
  intros (r & ->)%IH. exists r. reflexivity.
Qed.

Lemma prefix_app a r : String.prefix a (a +:+ r) = true.
Proof.
  induction a as [|c a IH]; [destruct r; reflexivity|].
  rewrite str_app_cons. cbn [String.prefix].
  destruct (ascii_dec c c); [exact IH|contradiction].
Qed.

Lemma contains_app_r b p s : Py.contains b s = true -> Py.contains b (p +:+ s) = true.
Proof.
  intros H. induction p as [|c p IH]; [exact H|].
  rewrite str_app_cons. cbn [Py.contains]. rewrite IH. apply orb_true_r.
Qed.

Lemma contains_split b s :
  Py.contains b s = true <-> exists p r, s = p +:+ b +:+ r.
Proof.
  split.
  - induction s as [|c s IH]; cbn [Py.contains].
    + rewrite orb_false_r. intros (r & ->)%prefix_split. exists EmptyString, r. reflexivity.
    + intros [H|H]%orb_true_iff.
      * apply prefix_split in H as (r & ->). exists EmptyString, r. reflexivity.
      * destruct (IH H) as (p & r & ->). exists (String c p), r. reflexivity.
  - intros (p & r & ->). apply contains_app_r, contains_prefix, prefix_app.
Qed.

(** Containment of substrings is transitive. *)
Lemma contains_trans a b s :
  Py.contains a b = true -> Py.contains b s = true -> Py.contains a s = true.
Proof.
  rewrite !contains_split. intros (p & r & ->) (p' & r' & ->).
  exists (p' +:+ p), (r +:+ r'). rewrite !str_app_assoc. reflexivity.
Qed.

(** X8.  The serif test is a substring test, and sans-serif contains serif:
    whenever the font examined contains sans-serif the schema is tagged
    "serif-typography".  This is so in particular when no typography could
    be read at all, since the default body family is sans-serif. *)
Theorem sans_serif_is_tagged_serif url now c l cs i :
  (forall t, Py.contains "sans-serif" (heading_font t) = true ->
     "serif-typography" ∈ style_keywords (generate_design_schema url now c t l cs i)) /\
  (forall sig,
     body_element sig = None ->
     (forall tag, heading_probe sig tag = NoHeadingElements) ->
     let kw := style_keywords
                 (generate_design_schema url now c (extract_typography sig) l cs i) in
     "serif-typography" ∈ kw /\ "sans-serif-typography" ∉ kw).
Proof.
  assert (Hgen : forall t, Py.contains "sans-serif" (heading_font t) = true ->
                   is_serif t = true).
  { intros t Hc. unfold is_serif, serif_indicators. cbn [existsb].
    rewrite (contains_trans "serif" "sans-serif" _ eq_refl Hc). reflexivity. }
  split.
  - intros t Hc. rewrite elem_of_style_keywords, keyword_serif. apply Hgen, Hc.
  - intros sig Hbody Hprobe kw. subst kw.
    rewrite !elem_of_style_keywords, keyword_serif, keyword_sans_serif.
    assert (Hs : is_serif (extract_typography sig) = true).
    { apply Hgen. unfold heading_font, major_heading, extract_typography.
      cbn [headings body]. rewrite Hbody. unfold heading_tags. cbn [foldl].
      unfold heading_step. rewrite !Hprobe.
      rewrite bool_decide_eq_true_2 by reflexivity. reflexivity. }
    rewrite Hs. split; [reflexivity|discriminate].
Qed.

(** X9.  The font that the keyword rule examines is the lowercase of the
    heading font that the code snippets use, unless the first major heading
    has an empty family: then the keyword rule alone falls back to the body
    font. *)
Theorem keyword_font_is_snippet_font t :
  ((forall h, major_heading t = Some h -> heading_font_family h <> "") ->
   heading_font t = Py.lower (heading_font_raw t)) /\
  (forall h, major_heading t = Some h -> heading_font_family h = "" ->
   heading_font t = Py.lower (font_family (body t)) /\ heading_font_raw t = "").
Proof.
  unfold heading_font, heading_font_raw. split.
  - intros Hne. destruct (major_heading t) as [h|]; [|reflexivity].
    cbn [fmap option_fmap option_map default Py.truthy].
    specialize (Hne h eq_refl).
    destruct (heading_font_family h) as [|ch rest]; [contradiction|reflexivity].
  - intros h -> Hempty. cbn [fmap option_fmap option_map default Py.truthy].
    rewrite Hempty. split; reflexivity.
Qed.

(** ** Plugin dispatch: order of the calls and the names reported *)

Lemma indexed_plugins_indices (plugins : list Plugin) :
  fst <$> imap (fun i p => (i, p)) plugins = seq 0 (length plugins).
Proof.
  rewrite fmap_imap.
  change (imap (fun (j : nat) (_ : Plugin) => id j) plugins = seq 0 (length plugins)).
  rewrite (imap_seq_0 plugins id). apply list_fmap_id.
Qed.

Lemma StronglySorted_seq start n : StronglySorted lt (seq start n).
Proof.
  revert start. induction n as [|n IH]; intros start; cbn [seq]; constructor.
  - apply IH.
  - apply Forall_forall. intros x Hx. apply elem_of_seq in Hx. lia.
Qed.

Lemma StronglySorted_sublist_of {A} (R : relation A) l1 l2 :
  l1 `sublist_of` l2 -> StronglySorted R l2 -> StronglySorted R l1.
Proof.
  induction 1 as [|x l1 l2 Hs IH|x l1 l2 Hs IH]; intros Hsorted.
  - constructor.
  - apply StronglySorted_inv in Hsorted as [Hs2 Hall]. constructor; [apply IH, Hs2|].
    apply Forall_forall. intros y Hy. rewrite Forall_forall in Hall.
    apply Hall. eapply elem_of_sublist; eassumption.
  - apply StronglySorted_inv in Hsorted as [Hs2 _]. apply IH, Hs2.
Qed.

Lemma enhance_fold_applied wt html driver steps st :
  let st' := foldl (enhance_step wt html driver) st steps in
  length (applied_plugins st') + length (invoked st) <=
    length (invoked st') + length (applied_plugins st) /\
  (forall n, n ∈ applied_plugins st' ->
     n ∈ applied_plugins st \/
     exists ip, ip ∈ steps /\ plugin_name (snd ip) = n /\ applies_to (snd ip) wt = true).
Proof.
  revert st. induction steps as [|[i p] steps IH]; intros st; cbn [foldl].
  - split; [lia|]. intros n Hn. left. exact Hn.
  - destruct (IH (enhance_step wt html driver st (i, p))) as [Hlen Hin].
    unfold enhance_step in Hlen, Hin |- *.
    destruct (applies_to p wt) eqn:Happ.
    + destruct (enhance_schema p (design_schema st) html driver) as [s|s];
        cbn [applied_plugins invoked] in Hlen, Hin;
        rewrite ?length_app in Hlen; cbn [length] in Hlen.
      * split; [lia|]. intros n Hn. destruct (Hin n Hn) as [Hold|(ip & Hip & Hname & Ha)].
        -- apply elem_of_app in Hold as [Hold|Hnew]; [left; exact Hold|].
           apply list_elem_of_singleton in Hnew. right. exists (i, p).
           split; [left|split; [symmetry; exact Hnew|exact Happ]].
        -- right. exists ip. split; [right; exact Hip|split; assumption].
      * split; [lia|]. intros n Hn. destruct (Hin n Hn) as [Hold|(ip & Hip & Hname & Ha)].
        -- left. exact Hold.
        -- right. exists ip. split; [right; exact Hip|split; assumption].
    + split; [exact Hlen|]. intros n Hn.
      destruct (Hin n Hn) as [Hold|(ip & Hip & Hname & Ha)]; [left; exact Hold|].
      right. exists ip. split; [right; exact Hip|split; assumption].
Qed.

(** X10.  The plugins are called in registry order and each at most once;
    the names reported as applied are names of registered plugins that apply
    to the detected type, and there are no more of them than calls. *)
Theorem plugins_called_once_in_registry_order plugins schema wt html driver :
  let st := enhance_loop plugins schema wt html driver in
  StronglySorted lt (invoked st) /\
  NoDup (invoked st) /\
  (forall i, i ∈ invoked st -> i < length plugins) /\
  length (applied_plugins st) <= length (invoked st) /\
  (forall n, n ∈ applied_plugins st ->
     exists p, p ∈ plugins /\ plugin_name p = n /\ wt ∈ applicable_types p).
Proof.
  intros st. subst st.
  assert (Hsub : invoked (enhance_loop plugins schema wt html driver)
                   `sublist_of` seq 0 (length plugins)).
  { unfold enhance_loop. rewrite enhance_fold_invoked. cbn [invoked app].
    rewrite <- indexed_plugins_indices. apply fmap_sublist, List_filter_sublist. }
  split; [|split; [|split; [|split]]].
  - eapply StronglySorted_sublist_of; [exact Hsub|apply StronglySorted_seq].
  - eapply sublist_NoDup; [apply NoDup_seq|exact Hsub].
  - intros i Hi. eapply elem_of_sublist in Hi; [|exact Hsub].
    apply elem_of_seq in Hi. lia.
  - pose proof (enhance_fold_applied wt html driver (imap (fun i p => (i, p)) plugins)
                  {| design_schema := schema; applied_plugins := []; invoked := [] |})
      as [Hlen _].
    cbn [applied_plugins invoked length] in Hlen. unfold enhance_loop. lia.
  - intros n Hn.
    pose proof (enhance_fold_applied wt html driver (imap (fun i p => (i, p)) plugins)
                  {| design_schema := schema; applied_plugins := []; invoked := [] |})
      as [_ Hin].
    destruct (Hin n Hn) as [Hold|([i p] & Hip & Hname & Ha)].
    + cbn [applied_plugins] in Hold. apply elem_of_nil in Hold. contradiction.
    + exists p. apply elem_of_indexed_plugins in Hip.
      split; [eapply list_elem_of_lookup_2, Hip|].
      split; [exact Hname|apply applies_to_spec, Ha].
Qed.

(** X11.  The plugins that ship touch only the CMS entry of the metadata
    and the sidebar component: colors, typography, layout, images, style
    keywords, the other metadata and the other components come back as they
    went in.  For a type other than wordpress the schema is returned
    unchanged; for wordpress the CMS entry carries the theme found in the
    page, and a sidebar is recorded only with a driver that shows one. *)
Theorem shipped_plugins_touch_only_cms_and_sidebar schema wt html driver :
  let s' := enhance_with_plugins _PLUGINS schema wt html driver in
  (colors s' = colors schema /\ typography s' = typography schema /\
   layout s' = layout schema /\ images s' = images schema /\
   style_keywords s' = style_keywords schema) /\
  (source_url (metadata s') = source_url (metadata schema) /\
   extraction_date (metadata s') = extraction_date (metadata schema) /\
   schema_version (metadata s') = schema_version (metadata schema)) /\
  (buttons (components s') = buttons (components schema) /\
   cards (components s') = cards (components schema) /\
   form_inputs (components s') = form_inputs (components schema) /\
   navigation (components s') = navigation (components schema) /\
   detected_css_patterns (components s') = detected_css_patterns (components schema)) /\
  (wt <> "wordpress" -> s' = schema) /\
  (wt = "wordpress" ->
     cms (metadata s') =
       Some {| cms_type := "wordpress"; cms_theme := search_theme html |}) /\
  (sidebar (components s') = sidebar (components schema) \/
   wt = "wordpress" /\
   exists d w, driver = Some d /\ sidebar_probe d = VisibleSidebar w /\
     sidebar (components s') = Some {| sidebar_present := true; sidebar_width := w |}).
Proof.
  intros s'. subst s'.
  unfold enhance_with_plugins, enhance_loop, _PLUGINS.
  cbn [imap foldl]. unfold enhance_step, applies_to.
  cbn [applicable_types WordPressPlugin enhance_schema plugin_name design_schema].
  case_bool_decide as Hwt.
  - apply list_elem_of_singleton in Hwt. subst wt. unfold wordpress_enhance.
    destruct driver as [d|].
    + destruct (sidebar_probe d) as [| |w] eqn:Hprobe; cbn.
      all: repeat split; try reflexivity; try contradiction.
      all: try (left; reflexivity).
      right. split; [reflexivity|]. exists d, w. repeat split. exact Hprobe.
    + cbn. repeat split; try reflexivity; try contradiction. left. reflexivity.
  - cbn [design_schema]. repeat split; try reflexivity.
    + intros ->. exfalso. apply Hwt. left.
    + left. reflexivity.
Qed.

(** ** The theme name *)

Lemma search_theme_unfold html :
  search_theme html =
  let here :=
    if String.prefix "wp-content/themes/" (Py.lower html)
    then run_not_slash (String.substring 18 (String.length html - 18) html)
    else EmptyString in
  if negb (String.eqb here "") then Some here
  else match html with
       | String _ html' => search_theme html'
       | EmptyString => None
       end.
Proof. destruct html; reflexivity. Qed.

Lemma lower_length s : String.length (Py.lower s) = String.length s.
Proof. induction s as [|c s IH]; cbn [Py.lower String.length]; congruence. Qed.

Lemma lower_prefix_split p s :
  String.prefix p (Py.lower s) = true ->
  exists lit rest, s = lit +:+ rest /\ Py.lower lit = p.
Proof.
  revert s. induction p as [|c p IH]; intros s H.
  - exists EmptyString, s. split; reflexivity.
  - destruct s as [|x s]; cbn [Py.lower String.prefix] in H; [discriminate|].
    destruct (ascii_dec c (Py.lower_char x)) as [->|]; [|discriminate].
    destruct (IH s H) as (lit & rest & -> & <-).
    exists (String x lit), rest. split; reflexivity.
Qed.

Lemma substring_all s : String.substring 0 (String.length s) s = s.
Proof. induction s as [|c s IH]; cbn [String.substring String.length]; congruence. Qed.

Lemma substring_after lit rest :
  String.substring (String.length lit)
    (String.length (lit +:+ rest) - String.length lit) (lit +:+ rest) = rest.
Proof.
  induction lit as [|c lit IH].
  - change (EmptyString +:+ rest) with rest. cbn [String.length].
    rewrite Nat.sub_0_r. apply substring_all.
  - rewrite str_app_cons. cbn [String.length String.substring Nat.sub]. exact IH.
Qed.

Lemma run_not_slash_spec s :
  Py.contains "/" (run_not_slash s) = false /\
  exists post, s = run_not_slash s +:+ post /\
    (post = "" \/ starts_with (Ascii.eqb "/") post = true).
Proof.
  induction s as [|c s [IHc (post & IHs & IHp)]]; cbn [run_not_slash].
  - split; [reflexivity|]. exists EmptyString. split; [reflexivity|left; reflexivity].
  - destruct (Ascii.eqb_spec c "/") as [->|Hc].
    + split; [reflexivity|]. exists (String "/" s).
      split; [reflexivity|right; reflexivity].
    + split.
      * cbn [Py.contains String.prefix]. rewrite IHc.
        destruct (ascii_dec "/" c) as [<-|]; [contradiction|reflexivity].
      * exists post. rewrite str_app_cons, <- IHs. split; [reflexivity|exact IHp].
Qed.

Lemma theme_here lit rest :
  Py.lower lit = "wp-content/themes/" ->
  String.prefix "wp-content/themes/" (Py.lower (lit +:+ rest)) = true /\
  String.substring 18 (String.length (lit +:+ rest) - 18) (lit +:+ rest) = rest.
Proof.
  intros Hlit. split.
  - rewrite lower_app, Hlit. apply prefix_app.
  - assert (Hlen : String.length lit = 18)
      by (rewrite <- (lower_length lit), Hlit; reflexivity).
    rewrite <- Hlen. apply substring_after.
Qed.

Lemma search_theme_sound html t :
  search_theme html = Some t ->
  t <> "" /\ Py.contains "/" t = false /\
  exists pre lit post,
    html = pre +:+ lit +:+ t +:+ post /\ Py.lower lit = "wp-content/themes/" /\
    (post = "" \/ starts_with (Ascii.eqb "/") post = true).
Proof.
  induction html as [|x html IH]; rewrite search_theme_unfold; cbv zeta.
  - cbn. discriminate.
  - destruct (String.prefix "wp-content/themes/" (Py.lower (String x html))) eqn:Hp.
    + destruct (lower_prefix_split _ _ Hp) as (lit & rest & Hsplit & Hlit).
      rewrite Hsplit. destruct (theme_here lit rest Hlit) as [_ ->].
      destruct (String.eqb_spec (run_not_slash rest) "") as [He|Hne]; cbn [negb].
      * rewrite <- Hsplit. intros H. destruct (IH H) as (Ht & Hs & pre & l' & post & -> & Hl & Hpost).
        split; [exact Ht|]. split; [exact Hs|]. exists (String x pre), l', post.
        split; [reflexivity|]. split; assumption.
      * intros [= <-]. split; [exact Hne|].
        destruct (run_not_slash_spec rest) as [Hs (post & Hrest & Hpost)].
        split; [exact Hs|]. exists EmptyString, lit, post.
        split; [|split; [exact Hlit|exact Hpost]].
        change (EmptyString +:+ lit +:+ run_not_slash rest +:+ post)
          with (lit +:+ run_not_slash rest +:+ post).
        rewrite <- Hrest. reflexivity.
    + cbn [String.eqb negb]. intros H.
      destruct (IH H) as (Ht & Hs & pre & l' & post & -> & Hl & Hpost).
      split; [exact Ht|]. split; [exact Hs|]. exists (String x pre), l', post.
      split; [reflexivity|]. split; assumption.
Qed.

Lemma search_theme_finds pre lit c post :
  Py.lower lit = "wp-content/themes/" -> c <> "/"%char ->
  search_theme (pre +:+ lit +:+ String c post) <> None.
Proof.
  intros Hlit Hc. induction pre as [|x pre IH]; rewrite search_theme_unfold; cbv zeta.
  - change (EmptyString +:+ lit +:+ String c post) with (lit +:+ String c post).
    destruct (theme_here lit (String c post) Hlit) as [-> ->].
    cbn [run_not_slash]. destruct (Ascii.eqb_spec c "/"); [contradiction|].
    cbn. discriminate.
  - rewrite str_app_cons.
    destruct (negb (String.eqb _ "")); [discriminate|exact IH].
Qed.

(** X12.  The theme name reported is a non-empty run without a slash that
    follows an occurrence of wp-content/themes/ (in any letter case) and
    goes up to the next slash or the end of the page; and no theme is
    reported exactly when every such occurrence is followed by a slash or
    ends the page. *)
Theorem search_theme_sound_and_complete html :
  (forall t, search_theme html = Some t ->
     t <> "" /\ Py.contains "/" t = false /\
     exists pre lit post,
       html = pre +:+ lit +:+ t +:+ post /\ Py.lower lit = "wp-content/themes/" /\
       (post = "" \/ starts_with (Ascii.eqb "/") post = true)) /\
  (search_theme html = None <->
   forall pre lit c post,
     html = pre +:+ lit +:+ String c post -> Py.lower lit = "wp-content/themes/" ->
     c = "/"%char).
Proof.
  split; [intros t; apply search_theme_sound|]. split.
  - intros Hnone pre lit c post -> Hlit.
    destruct (Ascii.eqb_spec c "/") as [|Hc]; [assumption|].
    exfalso. exact (search_theme_finds pre lit c post Hlit Hc Hnone).
  - intros Hall. destruct (search_theme html) as [t|] eqn:Ht; [|reflexivity].
    exfalso. destruct (search_theme_sound _ _ Ht) as (Hne & Hs & pre & lit & post & Hhtml & Hlit & _).
    destruct t as [|c t]; [contradiction|].
    rewrite str_app_cons in Hhtml.
    pose proof (Hall pre lit c (t +:+ post) Hhtml Hlit) as ->.
    cbn [Py.contains String.prefix] in Hs.
    destruct (ascii_dec "/" "/"); [destruct t; discriminate|contradiction].
Qed.

(** ** The website type *)

Ltac website_type_cases :=
  unfold determine_website_type, cms_patterns; cbn [List.find snd];
  repeat match goal with
         | |- context [if ?b then _ else _] => destruct b eqn:?
         | |- context [match ?n with Some _ => _ | None => _ end] => destruct n
         end.

Lemma website_type_known html netloc :
  determine_website_type html netloc ∈ known_website_types.
Proof.
  website_type_cases; apply (bool_decide_unpack _); vm_compute; exact I.
Qed.

Lemma website_type_wordpress_iff html netloc :
  determine_website_type html netloc = "wordpress" <->
  search_any wordpress_signatures html = true.
Proof.
  unfold determine_website_type, cms_patterns. cbn [List.find snd].
  destruct (search_any wordpress_signatures html); [split; reflexivity|].
  repeat match goal with
         | |- context [if ?b then _ else _] => destruct b eqn:?
         | |- context [match ?n with Some _ => _ | None => _ end] => destruct n
         end.
  all: split; discriminate.
Qed.

Lemma website_type_url_last html netloc :
  (forall netloc', determine_website_type html netloc' = determine_website_type html netloc) \/
  determine_website_type html netloc ∈ ["government"; "education"; "organization"; "general"].
Proof.
  unfold determine_website_type, cms_patterns. cbn [List.find snd].
  repeat match goal with
         | |- context [if search_any ?l html then _ else _] =>
             destruct (search_any l html); [left; reflexivity|]
         | |- context [if search_any ?l html || ?c then _ else _] =>
             destruct (search_any l html || c); [left; reflexivity|]
         end.
  right.
  repeat match goal with
         | |- context [if ?b then _ else _] => destruct b eqn:?
         | |- context [match ?n with Some _ => _ | None => _ end] => destruct n
         end.
  all: apply (bool_decide_unpack _); vm_compute; exact I.
Qed.

Lemma theme_implies_signature html t :
  search_theme html = Some t -> search_any wordpress_signatures html = true.
Proof.
  intros H. apply search_theme_sound in H as (_ & _ & pre & lit & post & -> & Hlit & _).
  unfold search_any, wordpress_signatures. cbn [existsb].
  assert (Hc : Py.contains "wp-content" (Py.lower (pre +:+ lit +:+ t +:+ post)) = true).
  { apply contains_split. exists (Py.lower pre), ("/themes/" +:+ Py.lower (t +:+ post)).
    rewrite !lower_app, Hlit.
    change "wp-content/themes/" with ("wp-content" +:+ "/themes/").
    rewrite !str_app_assoc. reflexivity. }
  rewrite Hc. reflexivity.
Qed.

(** X13.  The detected type is one of nineteen names.  It is wordpress
    exactly when the page contains wp-content, wordpress or wp-includes in
    any letter case, so in particular whenever a theme path is found in the
    page; and the URL is consulted last: it can change the answer only
    between government, education, organization and general. *)
Theorem website_type_wordpress_first html netloc :
  determine_website_type html netloc ∈ known_website_types /\
  (determine_website_type html netloc = "wordpress" <->
   exists lit, lit ∈ ["wp-content"; "wordpress"; "wp-includes"] /\
     Py.contains lit (Py.lower html) = true) /\
  (forall t, search_theme html = Some t ->
     determine_website_type html netloc = "wordpress") /\
  ((forall netloc',
      determine_website_type html netloc' = determine_website_type html netloc) \/
   determine_website_type html netloc ∈
     ["government"; "education"; "organization"; "general"]).
Proof.
  split; [apply website_type_known|]. split; [|split].
  - rewrite website_type_wordpress_iff. unfold search_any, wordpress_signatures.
    rewrite existsb_exists. split.
    + intros (lit & Hin & Hc). exists lit. split; [apply list_elem_of_In, Hin|exact Hc].
    + intros (lit & Hin & Hc). exists lit. split; [apply list_elem_of_In, Hin|exact Hc].
  - intros t Ht. apply website_type_wordpress_iff. eapply theme_implies_signature, Ht.
  - apply website_type_url_last.
Qed.

Lemma shipped_plugins_skip schema wt html driver :
  wt <> "wordpress" -> enhance_loop _PLUGINS schema wt html driver =
    {| design_schema := schema; applied_plugins := []; invoked := [] |}.
Proof.
  intros Hwt. apply enhance_loop_unchanged. intros p Hp.
  apply list_elem_of_singleton in Hp. subst p. cbn [applicable_types WordPressPlugin].
  intros Hin. apply list_elem_of_singleton in Hin. contradiction.
Qed.

Lemma shipped_plugins_cms schema html driver :
  cms (metadata (enhance_with_plugins _PLUGINS schema "wordpress" html driver)) =
  Some {| cms_type := "wordpress"; cms_theme := search_theme html |}.
Proof.
  unfold enhance_with_plugins, enhance_loop, _PLUGINS.
  cbn [imap foldl]. unfold enhance_step, applies_to.
  cbn [applicable_types WordPressPlugin enhance_schema plugin_name design_schema].
  rewrite bool_decide_eq_true_2 by (left).
  unfold wordpress_enhance. destruct driver as [d|]; [|reflexivity].
  destruct (sidebar_probe d); reflexivity.
Qed.

(** X14.  Type detection, schema assembly and plugins together: the
    enhanced schema has a CMS entry exactly when the page contains one of
    the three wordpress signatures, and that entry names the theme found in
    the page; without a signature the assembled schema comes back unchanged,
    and no theme path is in the page. *)
Theorem cms_entry_iff_wordpress_signature url now c t l cs i html netloc driver :
  let schema := generate_design_schema url now c t l cs i in
  let s' := enhance_with_plugins _PLUGINS schema
              (determine_website_type html netloc) html driver in
  (search_any wordpress_signatures html = true ->
     cms (metadata s') =
       Some {| cms_type := "wordpress"; cms_theme := search_theme html |}) /\
  (search_any wordpress_signatures html = false ->
     s' = schema /\ cms (metadata s') = None /\ search_theme html = None).
Proof.
  intros schema s'. subst s'. split.
  - intros Hsig. apply website_type_wordpress_iff with (netloc := netloc) in Hsig.
    rewrite Hsig. apply shipped_plugins_cms.
  - intros Hsig.
    assert (Hwt : determine_website_type html netloc <> "wordpress").
    { intros Hw. apply website_type_wordpress_iff in Hw. congruence. }
    unfold enhance_with_plugins. rewrite (shipped_plugins_skip _ _ _ _ Hwt).
    cbn [design_schema]. split; [reflexivity|]. split; [reflexivity|].
    destruct (search_theme html) as [th|] eqn:Hth; [|reflexivity].
    apply theme_implies_signature in Hth. congruence.
Qed.

(** ** Class patterns *)

Lemma str_app_snoc cur c s : (cur +:+ String c "") +:+ s = cur +:+ String c s.
Proof. rewrite str_app_assoc. reflexivity. Qed.

Lemma contains_cons b c s : Py.contains b s = true -> Py.contains b (String c s) = true.
Proof. intros H. cbn [Py.contains]. rewrite H. apply orb_true_r. Qed.

Lemma split_from_spec cur s tok :
  Py.all_chars (fun c => negb (Py.is_whitespace c)) cur = true ->
  tok ∈ Py.split_from cur s ->
  tok <> "" /\ Py.all_chars (fun c => negb (Py.is_whitespace c)) tok = true /\
  Py.contains tok (cur +:+ s) = true.
Proof.
  revert cur. induction s as [|c s IH]; intros cur Hcur Hin; cbn [Py.split_from] in Hin.
  - destruct (String.eqb_spec cur "") as [|Hne]; [apply elem_of_nil in Hin; contradiction|].
    apply list_elem_of_singleton in Hin. subst tok.
    split; [exact Hne|]. split; [exact Hcur|]. apply contains_prefix, prefix_app.
  - destruct (Py.is_whitespace c) eqn:Hc.
    + apply elem_of_app in Hin as [Hin|Hin].
      * destruct (String.eqb_spec cur "") as [|Hne];
          [apply elem_of_nil in Hin; contradiction|].
        apply list_elem_of_singleton in Hin. subst tok.
        split; [exact Hne|]. split; [exact Hcur|]. apply contains_prefix, prefix_app.
      * destruct (IH EmptyString eq_refl Hin) as (Hne & Hall & Hcont).
        split; [exact Hne|]. split; [exact Hall|].
        rewrite <- str_app_snoc. apply contains_app_r. exact Hcont.
    + assert (Hcur' : Py.all_chars (fun c => negb (Py.is_whitespace c))
                        (cur +:+ String c "") = true).
      { rewrite all_chars_app, Hcur. cbn [Py.all_chars]. rewrite Hc. reflexivity. }
      destruct (IH _ Hcur' Hin) as (Hne & Hall & Hcont).
      rewrite str_app_snoc in Hcont. auto.
Qed.

Lemma strip_unchanged p s :
  Py.all_chars (fun c => negb (p c)) s = true -> Py.strip p s = s.
Proof.
  intros Hall. unfold Py.strip.
  assert (Hl : Py.lstrip p s = s).
  { destruct s as [|c s]; [reflexivity|]. cbn [Py.all_chars] in Hall.
    apply andb_true_iff in Hall as [Hc _]. cbn [Py.lstrip].
    destruct (p c); [discriminate|reflexivity]. }
  rewrite Hl. clear Hl. induction s as [|c s IH]; [reflexivity|].
  cbn [Py.all_chars] in Hall. apply andb_true_iff in Hall as [Hc Hall].
  cbn [Py.rstrip]. rewrite (IH Hall). destruct (p c); [discriminate|reflexivity].
Qed.

Lemma strip_prefix_spec p s r : strip_prefix p s = Some r -> s = p +:+ r.
Proof.
  revert s. induction p as [|a p IH]; intros s H.
  - destruct s; injection H as <-; reflexivity.
  - destruct s as [|b s]; cbn [strip_prefix] in H; [discriminate|].
    destruct (Ascii.eqb_spec a b) as [->|]; [|discriminate].
    rewrite str_app_cons, <- (IH s H). reflexivity.
Qed.

Lemma span_not_quote_spec s :
  s = fst (span_not_quote s) +:+ snd (span_not_quote s).
Proof.
  induction s as [|c s IH]; [reflexivity|]. cbn [span_not_quote].
  destruct (Py.is_quote c); [reflexivity|].
  destruct (span_not_quote s) as [run rest]. cbn [fst snd] in *.
  rewrite str_app_cons, <- IH. reflexivity.
Qed.

Lemma match_class_attribute_spec s g n :
  match_class_attribute s = Some (g, n) -> Py.contains g s = true.
Proof.
  unfold match_class_attribute. intros H.
  destruct (strip_prefix "class=" s) as [r|] eqn:Hp; [|discriminate].
  destruct r as [|q r]; [discriminate|].
  destruct (Py.is_quote q); [|discriminate].
  pose proof (span_not_quote_spec r) as Hr.
  destruct (span_not_quote r) as [run rest]. cbn [fst snd] in Hr.
  destruct run as [|x run]; [discriminate|]. destruct rest as [|y rest]; [discriminate|].
  injection H as <- _. apply strip_prefix_spec in Hp. subst s r.
  apply contains_split. exists ("class=" +:+ String q ""), (String y rest).
  rewrite str_app_snoc. reflexivity.
Qed.

Lemma findall_class_contains skip html m :
  m ∈ findall_class skip html -> Py.contains m html = true.
Proof.
  revert skip. induction html as [|c html IH]; intros skip Hin; cbn [findall_class] in Hin.
  - apply elem_of_nil in Hin. contradiction.
  - destruct skip as [|k]; [|apply contains_cons, (IH k), Hin].
    destruct (match_class_attribute (String c html)) as [[g n]|] eqn:Hm.
    + apply elem_of_cons in Hin as [->|Hin].
      * eapply match_class_attribute_spec, Hm.
      * apply contains_cons, (IH _ Hin).
    + apply contains_cons, (IH _ Hin).
Qed.

(** The class names counted: words of class attributes of the page. *)
Lemma all_classes_spec html tok :
  tok ∈ all_classes html ->
  tok <> "" /\ Py.all_chars (fun c => negb (Py.is_whitespace c)) tok = true /\
  Py.contains tok html = true.
Proof.
  unfold all_classes. intros Hin.
  apply list_elem_of_bind in Hin as (m & Htok & Hm).
  apply list_elem_of_fmap in Htok as (tok' & -> & Htok').
  destruct (split_from_spec EmptyString m tok' eq_refl Htok') as (Hne & Hall & Hcont).
  rewrite (strip_unchanged _ _ Hall).
  split; [exact Hne|]. split; [exact Hall|].
  eapply contains_trans; [exact Hcont|]. eapply findall_class_contains, Hm.
Qed.

Lemma sorted_entries_keys (l : list string) (entries : list (string * nat)) :
  (forall e, e ∈ entries -> e.2 = occurrences e.1 l) ->
  StronglySorted (fun a b => snd b <= snd a) entries ->
  StronglySorted (fun a b => occurrences b l <= occurrences a l) (fst <$> entries).
Proof.
  intros Hocc Hsorted. induction Hsorted as [|e es Hes IH He]; [constructor|].
  rewrite fmap_cons. constructor.
  - apply IH. intros e' He'. apply Hocc. right. exact He'.
  - apply Forall_fmap, Forall_forall. intros e' He'. cbn.
    rewrite Forall_forall in He. specialize (He e' He').
    rewrite <- (Hocc e) by left. rewrite <- (Hocc e') by (right; exact He').
    exact He.
Qed.

(** X15.  [detected_css_patterns] holds at most fifteen class names, all
    different, in order of decreasing frequency.  Each of them is a word of
    a class attribute of the page (so it occurs in the page, is not empty
    and has no whitespace), is counted more than five times, is longer than
    two characters and contains one of the utility indicators. *)
Theorem detected_css_patterns_sound html :
  let classes := all_classes html in
  let found := detect_css_patterns html in
  length found <= 15 /\
  NoDup found /\
  StronglySorted (fun a b => occurrences b classes <= occurrences a classes) found /\
  Forall (fun cls =>
            Py.contains cls html = true /\
            Py.all_chars (fun c => negb (Py.is_whitespace c)) cls = true /\
            5 < occurrences cls classes /\
            2 < String.length cls /\
            exists indicator, indicator ∈ utility_indicators /\
              Py.contains indicator cls = true) found.
Proof.
  intros classes found. subst found. unfold detect_css_patterns. fold classes.
  case_bool_decide as Hempty.
  { cbn [length]. repeat split; try constructor; lia. }
  unfold most_common. rewrite <- fmap_take.
  destruct (Counter_spec classes) as (Hnd & Hentry & _).
  destruct (sort_by_count_spec (Counter classes)) as (Hperm & Hsorted).
  set (sorted := foldr insert_by_count [] (Counter classes)) in *.
  set (kept := take 15 (List.filter relevant_class (take 50 sorted))).
  assert (Hsub : kept `sublist_of` sorted).
  { unfold kept. etransitivity; [apply sublist_take|].
    etransitivity; [apply List_filter_sublist|apply sublist_take]. }
  assert (Hin : forall e, e ∈ kept ->
            e.1 ∈ classes /\ e.2 = occurrences e.1 classes /\ relevant_class e = true).
  { intros [k n] He. split; [|split].
    - eapply elem_of_sublist in He; [|exact Hsub]. rewrite Hperm in He.
      apply (Hentry _ _ He).
    - eapply elem_of_sublist in He; [|exact Hsub]. rewrite Hperm in He.
      apply (Hentry _ _ He).
    - unfold kept in He. apply subseteq_take in He.
      apply elem_of_List_filter in He as [_ He]. exact He. }
  split; [rewrite length_fmap; unfold kept; rewrite length_take; lia|].
  split.
  { eapply sublist_NoDup; [|apply fmap_sublist, Hsub]. rewrite Hperm. exact Hnd. }
  split.
  { apply sorted_entries_keys; [intros e He; apply (Hin e He)|].
    eapply StronglySorted_sublist_of; [exact Hsub|exact Hsorted]. }
  apply Forall_fmap, Forall_forall. intros e He.
  destruct (Hin e He) as (Hcls & Hocc & Hrel). cbn.
  destruct (all_classes_spec html _ Hcls) as (_ & Hws & Hcont).
  unfold relevant_class in Hrel.
  apply andb_true_iff in Hrel as [Hrel Hlen]. apply andb_true_iff in Hrel as [Hcount Hind].
  apply Nat.ltb_lt in Hcount, Hlen. apply existsb_exists in Hind as (ind & Hi & Hc).
  split; [exact Hcont|]. split; [exact Hws|]. split; [rewrite <- Hocc; exact Hcount|].
  split; [exact Hlen|]. exists ind. split; [apply list_elem_of_In, Hi|exact Hc].
Qed.

(** ** Corners and shadows, from the sampled elements to the keywords *)

Lemma truthy_spec v : Py.truthy v = true <-> exists text, v = Some text /\ text <> "".
Proof.
  destruct v as [text|]; cbn [Py.truthy].
  - destruct (String.eqb_spec text "") as [->|Hne]; cbn [negb]; split.
    + discriminate.
    + intros (t' & [= <-] & Hne). contradiction.
    + intros _. exists text. auto.
    + reflexivity.
  - split; [discriminate|]. intros (t' & [=] & _).
Qed.

Lemma significant_radius_spec r :
  significant_radius r = true <-> reads_other_than ["0px"; "0%"] r.
Proof.
  unfold significant_radius, reads_other_than.
  rewrite !andb_true_iff, !negb_true_iff, !bool_decide_eq_false, truthy_spec.
  split.
  - intros [[(text & -> & Hne) H1] H2]. exists text. split; [reflexivity|].
    split; [exact Hne|]. rewrite !not_elem_of_cons. repeat split; try congruence.
    apply not_elem_of_nil.
  - intros (text & -> & Hne & Hnot). rewrite !not_elem_of_cons in Hnot.
    destruct Hnot as (H1 & H2 & _). repeat split; eauto; congruence.
Qed.

Lemma truthy_unless text v :
  Py.truthy (unless text v) = true <-> reads_other_than [text] v.
Proof.
  unfold unless, reads_other_than. case_bool_decide as Hv.
  - subst v. split; [discriminate|]. intros (t' & [= <-] & _ & Hnot).
    exfalso. apply Hnot. left.
  - rewrite truthy_spec. split.
    + intros (t' & -> & Hne). exists t'. split; [reflexivity|]. split; [exact Hne|].
      rewrite not_elem_of_cons. split; [congruence|apply not_elem_of_nil].
    + intros (t' & -> & Hne & _). eauto.
Qed.

Lemma significant_unless_0px v :
  significant_radius (unless "0px" v) = significant_radius v.
Proof.
  unfold unless. case_bool_decide as Hv; [subst v|]; reflexivity.
Qed.

Lemma buttons_descriptor_radius sample :
  Py.dict_get (buttons_descriptor sample) "border_radius" (Some "0px") =
  match sample with Some b => button_radius b | None => Some "0px" end.
Proof. destruct sample; reflexivity. Qed.

Lemma cards_descriptor_radius sample :
  Py.dict_get (cards_descriptor sample) "border_radius" (Some "0px") =
  match sample with Some c => card_radius c | None => Some "0px" end.
Proof. destruct sample; reflexivity. Qed.

Lemma cards_descriptor_shadow sample :
  Py.dict_get (cards_descriptor sample) "box_shadow" None =
  match sample with Some c => unless "none" (card_shadow c) | None => None end.
Proof. destruct sample; reflexivity. Qed.

Lemma image_descriptor_radius sample :
  Py.dict_get (image_style_descriptor sample) "border_radius" (Some "0px") =
  match sample with Some i => unless "0px" (img_border_radius i) | None => Some "0px" end.
Proof. destruct sample; reflexivity. Qed.

Lemma image_descriptor_shadow sample :
  Py.dict_get (image_style_descriptor sample) "box_shadow" None =
  match sample with Some i => unless "none" (img_shadow i) | None => None end.
Proof. destruct sample; reflexivity. Qed.

Lemma reads_other_than_none texts : ~ reads_other_than texts None.
Proof. intros (t' & [=] & _). Qed.

(** X16.  From the sampled elements to the keywords: the schema is tagged
    rounded-corners exactly when the border radius read from the first
    visible button, card or image is a text other than the empty one, 0px
    and 0%, and uses-shadows exactly when the box shadow read from the
    first visible card or image is a text other than the empty one and
    none, or the navigation entry has a shadow.  An element that was not
    sampled, or whose style could not be read, counts for nothing. *)
Theorem sampled_styles_decide_corners_and_shadows
    url now c t l btn card img forms nav patterns sb svg font icons logo logo_src :
  let cs := {| buttons := buttons_descriptor btn; cards := cards_descriptor card;
               form_inputs := forms; navigation := nav;
               detected_css_patterns := patterns; sidebar := sb |} in
  let i := {| has_svg_icons := svg; has_icon_font := font; icon_classes_found := icons;
              image_style := image_style_descriptor img;
              logo_detected := logo; logo_url := logo_src |} in
  let kw := style_keywords (generate_design_schema url now c t l cs i) in
  ("rounded-corners" ∈ kw <->
     reads_other_than ["0px"; "0%"] (btn ≫= button_radius) \/
     reads_other_than ["0px"; "0%"] (card ≫= card_radius) \/
     reads_other_than ["0px"; "0%"] (img ≫= img_border_radius)) /\
  ("uses-shadows" ∈ kw <->
     reads_other_than ["none"] (card ≫= card_shadow) \/
     reads_other_than ["none"] (img ≫= img_shadow) \/
     Py.truthy (Py.dict_get nav "box_shadow" None) = true) /\
  (btn = None -> card = None -> img = None -> "sharp-corners" ∈ kw).
Proof.
  intros cs i kw. subst kw.
  rewrite !elem_of_style_keywords, keyword_rounded, keyword_shadows, keyword_sharp.
  unfold has_rounding, has_shadow. subst cs i.
  cbn [buttons cards navigation image_style existsb].
  rewrite buttons_descriptor_radius, cards_descriptor_radius, cards_descriptor_shadow,
    image_descriptor_radius, image_descriptor_shadow.
  split; [|split].
  - rewrite orb_false_r, !orb_true_iff.
    destruct btn as [b|], card as [cd|], img as [im|]; cbn [mbind option_bind];
      rewrite ?significant_unless_0px, <- ?significant_radius_spec.
    all: change (significant_radius (Some "0px")) with false.
    all: intuition discriminate.
  - rewrite !orb_true_iff.
    destruct card as [cd|], img as [im|]; cbn [mbind option_bind];
      rewrite ?truthy_unless.
    all: change (Py.truthy None) with false.
    all: pose proof (reads_other_than_none ["none"]).
    all: intuition discriminate.
  - intros -> -> ->. reflexivity.
Qed.

(** ** The descriptions of the AI view *)

Lemma style_keywords_length url now c t l cs i :
  4 <= length (style_keywords (generate_design_schema url now c t l cs i)) <= 7.
Proof.
  destruct (keyword_list_facts c t l cs i) as (Hnd & Hlen & _).
  cbn [style_keywords generate_design_schema].
  rewrite (proj2 (sorted_spec _)), derive_keywords_as_list,
    (elements_list_to_set _ Hnd). exact Hlen.
Qed.

Lemma hex6_not_empty x : Py.is_hex6_lower x = true -> String.eqb x "" = false.
Proof. destruct x; [discriminate|reflexivity]. Qed.

Lemma literal_app_not_empty ch p x : String ch p +:+ x <> "".
Proof. rewrite str_app_cons. discriminate. Qed.

Lemma describe_schema_descriptions s :
  let d := fst (describe_schema s) in
  d !! "overall_style" =
    Some (match style_keywords s with
          | [] => ""
          | _ :: _ => style_description (style_keywords s)
          end) /\
  d !! "color_scheme" = Some (default "" (fst <$> color_description (colors s))) /\
  d !! "typography" = Some (fst (typography_description (typography s))) /\
  d !! "layout_spacing" =
    Some ("Layout is generally " +:+ Py.join ", " (layout_desc_parts (layout s)) +:+ ".") /\
  d !! "component_styles" =
    Some (match comp_desc_parts (components s) (images s) with
          | [] => "Specific component styles were not prominently detected."
          | _ :: _ =>
              "Key component styles include: "
                +:+ Py.join ", " (comp_desc_parts (components s) (images s)) +:+ "."
          end).
Proof. repeat split; reflexivity. Qed.

Lemma color_description_roles c :
  Forall (fun x => Py.is_hex6_lower x = true)
    [primary_color c; secondary_color c; accent_color c; background_color c;
     text_color c] ->
  color_description c =
    Some ("Key colors are Primary: " +:+ primary_color c +:+ ", Secondary: "
            +:+ secondary_color c +:+ ", Accent: " +:+ accent_color c
            +:+ ", Background: " +:+ background_color c
            +:+ ", Text: " +:+ text_color c +:+ ".",
          "Color Palette: Primary(" +:+ primary_color c +:+ "), Secondary("
            +:+ secondary_color c +:+ "), Accent(" +:+ accent_color c
            +:+ "), Background(" +:+ background_color c
            +:+ "), Text(" +:+ text_color c +:+ ")").
Proof.
  intros H. rewrite !Forall_cons in H. destruct H as (H1 & H2 & H3 & H4 & H5 & _).
  unfold color_description.
  rewrite (hex6_not_empty _ H1), (hex6_not_empty _ H2), (hex6_not_empty _ H3),
    (hex6_not_empty _ H4), (hex6_not_empty _ H5). reflexivity.
Qed.

Lemma extract_color_palette_roles sig listing :
  set_listing (valid_hex_colors sig) listing ->
  let c := extract_color_palette sig listing in
  Forall (fun x => Py.is_hex6_lower x = true)
    [primary_color c; secondary_color c; accent_color c; background_color c;
     text_color c].
Proof.
  intros Hl c. subst c. cbn [extract_color_palette primary_color secondary_color
    accent_color background_color text_color].
  destruct (assign_roles_sources (background_color_hex sig) (text_color_hex sig) listing)
    as (Hp & Hs & Ha).
  repeat constructor; eauto using role_source_canonical,
    background_color_hex_canonical, text_color_hex_canonical.
Qed.

(** X17.  For a schema assembled from the color resolver's output, the AI
    view leaves none of its five descriptions empty.  The sentence on the
    style lists all keywords, the last one after the word and (there are at
    least four); the sentence on the colors is always the one that names
    the five roles, never the one that lists the palette; and there are
    three prompt elements, or four when spacing values were collected. *)
Theorem descriptions_of_assembled_schema url now sig listing t l cs i :
  set_listing (valid_hex_colors sig) listing ->
  let c := extract_color_palette sig listing in
  let s := generate_design_schema url now c t l cs i in
  let kw := style_keywords s in
  let d := fst (describe_schema s) in
  let prompts := snd (describe_schema s) in
  Forall (fun key => exists text, d !! key = Some text /\ text <> "")
    ["overall_style"; "color_scheme"; "typography"; "layout_spacing";
     "component_styles"] /\
  d !! "overall_style" =
    Some ("The website features a " +:+ Py.join ", " (removelast kw) +:+ " and "
            +:+ List.last kw "" +:+ " design style.") /\
  d !! "color_scheme" =
    Some ("Key colors are Primary: " +:+ primary_color c +:+ ", Secondary: "
            +:+ secondary_color c +:+ ", Accent: " +:+ accent_color c
            +:+ ", Background: " +:+ background_color c
            +:+ ", Text: " +:+ text_color c +:+ ".") /\
  length prompts = (if bool_decide (common_spacing_units l = []) then 3 else 4).
Proof.
  intros Hl c s kw d prompts.
  destruct (describe_schema_descriptions s) as (Ho & Hc & Ht & Hlay & Hcomp).
  fold d in Ho, Hc, Ht, Hlay, Hcomp.
  pose proof (style_keywords_length url now c t l cs i) as Hlen. fold s kw in Hlen.
  pose proof (color_description_roles c (extract_color_palette_roles sig listing Hl))
    as Hcolor.
  assert (Hstyle : match kw with [] => "" | _ :: _ => style_description kw end =
            "The website features a " +:+ Py.join ", " (removelast kw) +:+ " and "
              +:+ List.last kw "" +:+ " design style.").
  { unfold style_description. destruct kw as [|k1 [|k2 rest]]; cbn [length] in Hlen; try lia.
    reflexivity. }
  fold kw in Ho. rewrite Hstyle in Ho.
  change (colors s) with c in Hc. rewrite Hcolor in Hc.
  cbn [fmap option_fmap option_map default fst] in Hc.
  split; [|split; [exact Ho|split; [exact Hc|]]].
  - repeat constructor.
    + eexists. split; [exact Ho|apply literal_app_not_empty].
    + eexists. split; [exact Hc|apply literal_app_not_empty].
    + eexists. split; [exact Ht|]. unfold typography_description.
      destruct (String.eqb _ _); apply literal_app_not_empty.
    + eexists. split; [exact Hlay|apply literal_app_not_empty].
    + eexists. split; [exact Hcomp|].
      destruct (comp_desc_parts _ _); [discriminate|apply literal_app_not_empty].
  - subst prompts. unfold describe_schema. cbn [snd]. fold kw.
    change (colors s) with c. rewrite Hcolor. change (layout s) with l.
    rewrite !length_app.
    destruct kw as [|k1 rest]; [cbn [length] in Hlen; lia|].
    destruct (common_spacing_units l); reflexivity.
Qed.

Lemma rounded_word_spec r :
  Py.truthy r && negb (bool_decide (r = Some "0px")) = true <->
  reads_other_than ["0px"] r.
Proof.
  unfold reads_other_than.
  rewrite andb_true_iff, negb_true_iff, bool_decide_eq_false, truthy_spec. split.
  - intros [(text & -> & Hne) H1]. exists text. split; [reflexivity|].
    split; [exact Hne|]. rewrite not_elem_of_cons. split; [congruence|apply not_elem_of_nil].
  - intros (text & -> & Hne & Hnot). rewrite not_elem_of_cons in Hnot.
    destruct Hnot as (H1 & _). split; [eauto|congruence].
Qed.

Ltac literal_membership :=
  match goal with
  | |- _ ∈ _ => apply (bool_decide_unpack _); vm_compute; exact I
  | H : _ ∈ _ |- _ => apply (bool_decide_pack _) in H; vm_compute in H; contradiction
  end.

Lemma comp_desc_parts_buttons cs i :
  let radius := Py.dict_get (buttons cs) "border_radius" (Some "0px") in
  ("rounded buttons" ∈ comp_desc_parts cs i <->
     buttons cs <> ∅ /\ reads_other_than ["0px"] radius) /\
  ("sharp-edged buttons" ∈ comp_desc_parts cs i <->
     buttons cs <> ∅ /\ ~ reads_other_than ["0px"] radius).
Proof.
  intros radius. unfold comp_desc_parts. fold radius.
  rewrite <- (rounded_word_spec radius).
  destruct (Py.truthy radius && negb (bool_decide (radius = Some "0px")));
    case_bool_decide as Hb; case_bool_decide as Hc;
    destruct (Py.truthy (Py.dict_get (cards cs) "box_shadow" None));
    destruct (has_svg_icons i); destruct (has_icon_font i).
  all: split; split; intros H; try literal_membership.
  all: try (split; [exact Hb|]); try reflexivity; try discriminate.
  all: try (destruct H as [H1 H2]; try contradiction; try discriminate).
  all: try (exfalso; apply H2; reflexivity).
Qed.

(** X18.  The AI view words the buttons by its own test: it says rounded
    buttons when a button was sampled and its border radius is a text other
    than the empty one and 0px, and sharp-edged buttons for any other
    sampled button.  The corner keyword also takes 0% for no rounding, so
    the view can say rounded buttons in a schema tagged sharp-corners, and
    it does so only for a button radius of 0%. *)
Theorem button_wording_and_corner_keyword url now c t l cs i :
  let kw := style_keywords (generate_design_schema url now c t l cs i) in
  let parts := comp_desc_parts cs i in
  let radius := Py.dict_get (buttons cs) "border_radius" (Some "0px") in
  ("rounded buttons" ∈ parts <-> buttons cs <> ∅ /\ reads_other_than ["0px"] radius) /\
  ("sharp-edged buttons" ∈ parts <->
     buttons cs <> ∅ /\ ~ reads_other_than ["0px"] radius) /\
  ("rounded buttons" ∈ parts -> "sharp-corners" ∈ kw -> radius = Some "0%") /\
  ("sharp-edged buttons" ∈ parts -> "rounded-corners" ∈ kw ->
     significant_radius (Py.dict_get (cards cs) "border_radius" (Some "0px")) = true \/
     significant_radius (Py.dict_get (image_style i) "border_radius" (Some "0px")) = true).
Proof.
  intros kw parts radius. subst kw parts.
  destruct (comp_desc_parts_buttons cs i) as [Hround Hsharp]. fold radius in Hround, Hsharp.
  split; [exact Hround|]. split; [exact Hsharp|].
  rewrite !elem_of_style_keywords, keyword_sharp, keyword_rounded.
  unfold has_rounding. cbn [existsb]. fold radius. split.
  - intros [_ (text & Hr & Hne & Hnot)]%Hround Hno.
    apply orb_false_iff in Hno as [Hno _].
    rewrite Hr in Hno |- *. unfold significant_radius in Hno.
    rewrite not_elem_of_cons in Hnot. destruct Hnot as [Hpx _].
    cbn [Py.truthy] in Hno. destruct (String.eqb_spec text "") as [|_]; [contradiction|].
    rewrite (bool_decide_eq_false_2 (Some text = Some "0px")) in Hno by congruence.
    cbn [negb andb] in Hno. apply negb_false_iff, bool_decide_eq_true in Hno. exact Hno.
  - intros [_ Hnot]%Hsharp Hyes.
    rewrite orb_false_r, !orb_true_iff in Hyes. destruct Hyes as [Hyes|[Hyes|Hyes]]; auto.
    exfalso. apply Hnot. apply significant_radius_spec in Hyes as (text & Hr & Hne & Hn).
    exists text. split; [exact Hr|]. split; [exact Hne|].
    rewrite not_elem_of_cons in Hn |- *. split; [apply Hn|apply not_elem_of_nil].
Qed.

(** ** The first font of a font stack *)

Lemma lstrip_app_all p a b :
  Py.all_chars p a = true -> Py.lstrip p (a +:+ b) = Py.lstrip p b.
Proof.
  induction a as [|c a IH]; [reflexivity|]. cbn [Py.all_chars].
  intros [Hc Ha]%andb_true_iff. rewrite str_app_cons. cbn [Py.lstrip].
  rewrite Hc. apply IH, Ha.
Qed.

Lemma lstrip_unchanged p s : starts_with p s = false -> Py.lstrip p s = s.
Proof. destruct s as [|c s]; [reflexivity|]. cbn. intros ->. reflexivity. Qed.

Lemma rstrip_unchanged p s : ends_with p s = false -> Py.rstrip p s = s.
Proof.
  induction s as [|c s IH]; [reflexivity|]. cbn [Py.rstrip].
  destruct s as [|c' s].
  - cbn. intros ->. reflexivity.
  - intros H. change (ends_with p (String c' s) = false) in H.
    rewrite (IH H). rewrite andb_false_r. reflexivity.
Qed.

Lemma rstrip_all p b : Py.all_chars p b = true -> Py.rstrip p b = "".
Proof.
  induction b as [|c b IH]; [reflexivity|]. cbn [Py.all_chars Py.rstrip].
  intros [Hc Hb]%andb_true_iff. rewrite (IH Hb), Hc. reflexivity.
Qed.

Lemma rstrip_app_all p a b :
  Py.all_chars p b = true -> Py.rstrip p (a +:+ b) = Py.rstrip p a.
Proof.
  intros Hb. induction a as [|c a IH]; [apply rstrip_all, Hb|].
  rewrite str_app_cons. cbn [Py.rstrip]. rewrite IH. reflexivity.
Qed.

Lemma str_app_not_empty_r a b : b <> "" -> a +:+ b <> "".
Proof. destruct a; [auto|]. intros _. rewrite str_app_cons. discriminate. Qed.

Lemma str_app_not_empty_l a b : a <> "" -> a +:+ b <> "".
Proof. destruct a; [contradiction|]. intros _. rewrite str_app_cons. discriminate. Qed.

Lemma rstrip_app_keep p a b :
  Py.rstrip p b <> "" -> Py.rstrip p (a +:+ b) = a +:+ Py.rstrip p b.
Proof.
  intros Hb. induction a as [|c a IH]; [reflexivity|].
  rewrite !str_app_cons. cbn [Py.rstrip]. rewrite IH.
  destruct (String.eqb_spec (a +:+ Py.rstrip p b) "") as [He|_].
  - exfalso. exact (str_app_not_empty_r _ _ Hb He).
  - rewrite andb_false_r. reflexivity.
Qed.

Lemma before_comma_app a x :
  Py.all_chars (fun c => negb (Ascii.eqb c ",")) a = true ->
  Py.before_comma (a +:+ String "," x) = a.
Proof.
  induction a as [|c a IH]; [reflexivity|]. cbn [Py.all_chars].
  intros [Hc Ha]%andb_true_iff. rewrite str_app_cons. cbn [Py.before_comma].
  apply negb_true_iff in Hc. rewrite Hc, (IH Ha). reflexivity.
Qed.

Lemma before_comma_unchanged a :
  Py.all_chars (fun c => negb (Ascii.eqb c ",")) a = true -> Py.before_comma a = a.
Proof.
  induction a as [|c a IH]; [reflexivity|]. cbn [Py.all_chars].
  intros [Hc Ha]%andb_true_iff. cbn [Py.before_comma].
  apply negb_true_iff in Hc. rewrite Hc, (IH Ha). reflexivity.
Qed.

Lemma starts_with_app p a b : a <> "" -> starts_with p (a +:+ b) = starts_with p a.
Proof. destruct a; [contradiction|reflexivity]. Qed.

Lemma ends_with_app p a b : b <> "" -> ends_with p (a +:+ b) = ends_with p b.
Proof.
  intros Hb. induction a as [|c a IH]; [reflexivity|].
  rewrite str_app_cons. cbn [ends_with]. rewrite IH.
  destruct (a +:+ b) eqn:E; [|reflexivity].
  exfalso. exact (str_app_not_empty_r _ _ Hb E).
Qed.

Lemma ends_with_all (p q : ascii -> bool) s :
  (forall c, q c = true -> p c = false) ->
  Py.all_chars q s = true -> ends_with p s = false.
Proof.
  intros Hpq. induction s as [|c s IH]; [reflexivity|]. cbn [Py.all_chars].
  intros [Hc Hs]%andb_true_iff. cbn [ends_with].
  destruct s; [apply Hpq, Hc|apply IH, Hs].
Qed.

Lemma starts_with_all (p q : ascii -> bool) s :
  (forall c, q c = true -> p c = false) ->
  Py.all_chars q s = true -> starts_with p s = false.
Proof.
  intros Hpq. destruct s as [|c s]; [reflexivity|]. cbn [Py.all_chars].
  intros [Hc _]%andb_true_iff. apply Hpq, Hc.
Qed.

Lemma quote_is_not_space c : Py.is_quote c = true -> Py.is_space c = false.
Proof.
  pose proof (N_ascii_embedding (N_of_ascii c) (N_ascii_bounded c)) as _.
  unfold Py.is_quote, Py.is_space. intros H.
  apply orb_true_iff in H as [H|H]; apply N.eqb_eq in H; rewrite H; reflexivity.
Qed.

Lemma quote_is_not_comma c : Py.is_quote c = true -> negb (Ascii.eqb c ",") = true.
Proof.
  intros H. destruct (Ascii.eqb_spec c ",") as [->|]; [discriminate|reflexivity].
Qed.

Lemma space_is_whitespace c : Py.is_space c = true -> Py.is_whitespace c = true.
Proof. intros H. exact H. Qed.

Lemma plain_font_name_ends name :
  plain_font_name name ->
  starts_with Py.is_space name = false /\ ends_with Py.is_space name = false.
Proof.
  intros (_ & _ & Hst & Hend). split.
  - destruct name as [|c name]; [reflexivity|]. cbn in Hst |- *.
    destruct (Py.is_space c) eqn:Hc; [|reflexivity].
    rewrite (space_is_whitespace _ Hc) in Hst. discriminate.
  - clear Hst. induction name as [|c name IH]; [reflexivity|].
    cbn [ends_with] in Hend |- *. destruct name as [|c' name]; [|exact (IH Hend)].
    destruct (Py.is_space c) eqn:Hc; [|reflexivity].
    rewrite (space_is_whitespace _ Hc) in Hend. discriminate.
Qed.

(** What [first_font] makes of a name followed by quote characters. *)
Lemma first_font_steps name qr :
  plain_font_name name -> Py.all_chars Py.is_quote qr = true ->
  Py.strip Py.is_quote (Py.strip Py.is_space (name +:+ qr)) = name.
Proof.
  intros Hname Hqr. destruct (plain_font_name_ends name Hname) as [Hst Hend].
  destruct Hname as (Hne & Hall & _ & _).
  assert (Hnq : Py.all_chars (fun c => negb (Py.is_quote c)) name = true).
  { eapply all_chars_weaken; [|exact Hall]. cbn. intros c [H _]%andb_true_iff. exact H. }
  assert (Hspace : Py.strip Py.is_space (name +:+ qr) = name +:+ qr).
  { unfold Py.strip. rewrite lstrip_unchanged
      by (rewrite starts_with_app by exact Hne; exact Hst).
    apply rstrip_unchanged. destruct qr as [|c qr].
    - rewrite string_app_empty_r. exact Hend.
    - rewrite ends_with_app by discriminate.
      eapply ends_with_all; [apply quote_is_not_space|exact Hqr]. }
  rewrite Hspace. unfold Py.strip.
  rewrite lstrip_unchanged.
  - rewrite rstrip_app_all by exact Hqr. apply rstrip_unchanged.
    eapply ends_with_all; [|exact Hnq]. cbn. intros c H. apply negb_true_iff, H.
  - rewrite starts_with_app by exact Hne.
    eapply starts_with_all; [|exact Hnq]. cbn. intros c H. apply negb_true_iff, H.
Qed.

(** X19.  From the font family the browser reports to the font of the
    Tailwind snippet: when the reported stack begins with a plain font
    name, bare or between quote characters, and either ends there or goes
    on after a comma, the first font taken from the schema's body family is
    that name, without the quote characters. *)
Theorem first_font_of_a_font_stack name ql qr tail st :
  plain_font_name name ->
  Py.all_chars Py.is_quote ql = true ->
  Py.all_chars Py.is_quote qr = true ->
  (tail = "" \/ exists rest, tail = String "," rest) ->
  body_fontFamily st = Some (ql +:+ name +:+ qr +:+ tail) ->
  first_font (font_family (extract_body (Some st))) = name.
Proof.
  intros Hname Hql Hqr Htail Hread.
  pose proof Hname as (Hne & Hall & _ & _).
  assert (Hnq : Py.all_chars (fun c => negb (Py.is_quote c)) name = true).
  { eapply all_chars_weaken; [|exact Hall]. cbn. intros c [H _]%andb_true_iff. exact H. }
  assert (Hnc : Py.all_chars (fun c => negb (Ascii.eqb c ",")) name = true).
  { eapply all_chars_weaken; [|exact Hall]. cbn. intros c [_ H]%andb_true_iff. exact H. }
  assert (Hstart : starts_with Py.is_quote (name +:+ qr +:+ tail) = false).
  { rewrite starts_with_app by exact Hne.
    eapply starts_with_all; [|exact Hnq]. cbn. intros c H. apply negb_true_iff, H. }
  cbn [extract_body font_family]. rewrite Hread.
  assert (Htruthy : Py.truthy (Some (ql +:+ name +:+ qr +:+ tail)) = true).
  { apply truthy_spec. eexists. split; [reflexivity|].
    apply str_app_not_empty_r, str_app_not_empty_l, Hne. }
  rewrite Htruthy. cbn [default id]. unfold first_font.
  assert (Hlead : Py.strip Py.is_quote (ql +:+ name +:+ qr +:+ tail)
                  = Py.rstrip Py.is_quote (name +:+ qr +:+ tail)).
  { unfold Py.strip. rewrite lstrip_app_all by exact Hql.
    rewrite (lstrip_unchanged _ _ Hstart). reflexivity. }
  rewrite Hlead.
  destruct Htail as [->|(rest & ->)].
  - rewrite string_app_empty_r, rstrip_app_all by exact Hqr.
    rewrite rstrip_unchanged
      by (eapply ends_with_all; [|exact Hnq]; cbn; intros c H; apply negb_true_iff, H).
    rewrite (before_comma_unchanged _ Hnc).
    rewrite <- (string_app_empty_r name) at 1.
    apply first_font_steps; [exact Hname|reflexivity].
  - rewrite <- str_app_assoc.
    rewrite rstrip_app_keep by (cbn [Py.rstrip]; rewrite andb_false_l; discriminate).
    cbn [Py.rstrip]. rewrite andb_false_l.
    rewrite before_comma_app.
    + apply first_font_steps; assumption.
    + rewrite all_chars_app, Hnc.
      eapply all_chars_weaken; [apply quote_is_not_comma|exact Hqr].
Qed.

(** ** The units of the code snippets *)

Lemma leading_digits_or_default s dflt :
  dflt <> "" -> Py.all_chars Py.is_digit dflt = true ->
  default dflt (Py.match_leading_digits s) <> "" /\
  Py.all_chars Py.is_digit (default dflt (Py.match_leading_digits s)) = true.
Proof.
  intros Hne Hall. destruct (Py.match_leading_digits s) as [d|] eqn:Hm; cbn [default].
  - apply match_leading_digits_Some in Hm as (Hd & Hdigits & _). auto.
  - auto.
Qed.

(** X20.  Whatever the layout and the components hold, the spacing unit
    and the border radius that go into the three snippets are a non-empty
    run of decimal digits followed by px. *)
Theorem snippet_units_are_pixel_lengths s :
  is_pixel_length (sv_spacing_unit (snippet_values s)) /\
  is_pixel_length (sv_border_radius (snippet_values s)).
Proof.
  cbn [snippet_values sv_spacing_unit sv_border_radius]. split.
  - exists (spacing_unit_val (layout s)). split; [reflexivity|].
    unfold spacing_unit_val. destruct (common_spacing_units (layout s)) as [|first rest].
    + split; [discriminate|reflexivity].
    + apply leading_digits_or_default; [discriminate|reflexivity].
  - exists (border_radius_val (components s)). split; [reflexivity|].
    unfold border_radius_val. destruct (Py.truthy (radius_to_use (components s))).
    + apply leading_digits_or_default; [discriminate|reflexivity].
    + split; [discriminate|reflexivity].
Qed.

(** ** The heading font *)

(** X21.  Only h1, h2 and h3 are consulted for the heading font.  When the
    typography has none of them, whatever it holds for h4 to h6, the
    keyword rule examines the body font, the snippets take the body font as
    heading font, and the AI view describes one font family. *)
Theorem only_major_headings_are_consulted t :
  (forall tag, tag ∈ ["h1"; "h2"; "h3"] -> headings t !! tag = None) ->
  heading_font t = Py.lower (font_family (body t)) /\
  heading_font_raw t = font_family (body t) /\
  typography_description t =
    ("Typography primarily uses the '" +:+ font_family (body t) +:+ "' font family.",
     "Typography: Use '" +:+ font_family (body t) +:+ "' font.").
Proof.
  intros Hnone.
  assert (Hmajor : major_heading t = None).
  { unfold major_heading. case_bool_decide; [reflexivity|]. cbn [first_heading].
    rewrite !Hnone by (apply (bool_decide_unpack _); vm_compute; exact I).
    reflexivity. }
  assert (Hraw : heading_font_raw t = font_family (body t))
    by (unfold heading_font_raw; rewrite Hmajor; reflexivity).
  split; [unfold heading_font; rewrite Hmajor; reflexivity|].
  split; [exact Hraw|].
  unfold typography_description. rewrite Hraw, String.eqb_refl. reflexivity.
Qed.

(** ** Enhancement, repeated *)

(** X22.  Enhancing a schema a second time with the shipped plugins, for
    the same type, page and driver, changes nothing more. *)
Theorem shipped_enhancement_is_idempotent schema wt html driver :
  let once := enhance_with_plugins _PLUGINS schema wt html driver in
  enhance_with_plugins _PLUGINS once wt html driver = once.
Proof.
  intros once. subst once.
  unfold enhance_with_plugins, enhance_loop, _PLUGINS.
  cbn [imap foldl]. unfold enhance_step, applies_to.
  cbn [applicable_types WordPressPlugin enhance_schema plugin_name design_schema].
  case_bool_decide as Hwt; [|reflexivity].
  unfold wordpress_enhance. destruct driver as [d|]; [|reflexivity].
  destruct (sidebar_probe d); reflexivity.
Qed.

(** ** Ties between equally frequent values *)

Lemma first_position_app_in k p r :
  k ∈ p -> first_position k (p ++ r) = first_position k p /\ first_position k p < length p.
Proof.
  induction p as [|y p IH]; intros Hk; [apply elem_of_nil in Hk; contradiction|].
  cbn [app first_position length]. destruct (String.eqb_spec k y) as [->|Hne].
  - split; [reflexivity|lia].
  - apply elem_of_cons in Hk as [->|Hk]; [contradiction|].
    destruct (IH Hk) as [-> Hlt]. split; [reflexivity|lia].
Qed.

Lemma first_position_app_notin k p r :
  k ∉ p -> first_position k (p ++ r) = length p + first_position k r.
Proof.
  induction p as [|y p IH]; intros Hk; [reflexivity|].
  apply not_elem_of_cons in Hk as [Hne Hk].
  cbn [app first_position length]. destruct (String.eqb_spec k y) as [->|_]; [contradiction|].
  rewrite (IH Hk). reflexivity.
Qed.

(** A counter lists its keys in the order in which they were first met. *)
Lemma counter_fold_order p l c :
  (forall k, k ∈ fst <$> c <-> k ∈ p) ->
  StronglySorted (fun a b => first_position a (p ++ l) < first_position b (p ++ l))
    (fst <$> c) ->
  StronglySorted (fun a b => first_position a (p ++ l) < first_position b (p ++ l))
    (fst <$> foldl (fun c x => counter_add x c) c l).
Proof.
  revert p c. induction l as [|x l IH]; intros p c Hkeys Hsorted; [exact Hsorted|].
  cbn [foldl].
  replace (p ++ x :: l) with ((p ++ [x]) ++ l) in * by (rewrite <- app_assoc; reflexivity).
  apply IH.
  - intros k. rewrite counter_add_keys, elem_of_app, list_elem_of_singleton.
    destruct (bool_decide (x ∈ fst <$> c)) eqn:E.
    + apply bool_decide_eq_true in E. rewrite Hkeys. split; [auto|].
      intros [Hk| ->]; [exact Hk|apply Hkeys, E].
    + rewrite elem_of_app, list_elem_of_singleton, Hkeys. reflexivity.
  - rewrite counter_add_keys. destruct (bool_decide (x ∈ fst <$> c)) eqn:E; [exact Hsorted|].
    apply bool_decide_eq_false in E.
    apply StronglySorted_app_2; [|exact Hsorted|repeat constructor].
    intros k x' Hk Hx'. apply list_elem_of_singleton in Hx' as ->.
    assert (Hkp : k ∈ p) by (apply Hkeys, Hk).
    assert (Hxp : x ∉ p) by (intros Hx; apply E, Hkeys, Hx).
    rewrite <- !app_assoc.
    destruct (first_position_app_in k p ([x] ++ l) Hkp) as [-> Hlt].
    rewrite (first_position_app_notin x p _ Hxp). lia.
Qed.

Lemma Counter_order l :
  StronglySorted (fun a b => first_position a l < first_position b l) (fst <$> Counter l).
Proof.
  apply (counter_fold_order [] l []); [|constructor].
  intros k. cbn. reflexivity.
Qed.

(** [insert_by_count] keeps the order of arrival among equal counts. *)
Lemma insert_by_count_stable (Q : relation (string * nat)) x l :
  StronglySorted (fun a b => snd b < snd a \/ (snd a = snd b /\ Q a b)) l ->
  Forall (Q x) l ->
  StronglySorted (fun a b => snd b < snd a \/ (snd a = snd b /\ Q a b))
    (insert_by_count x l).
Proof.
  induction 1 as [|y l Hl IH Hy]; intros Hx; cbn [insert_by_count]; [repeat constructor|].
  apply Forall_cons in Hx as [Hxy Hxl].
  destruct (Nat.ltb_spec (snd x) (snd y)) as [Hlt|Hge].
  - constructor; [exact (IH Hxl)|].
    rewrite insert_by_count_perm. constructor; [left; exact Hlt|exact Hy].
  - constructor; [constructor; assumption|].
    constructor.
    + destruct (decide (snd y = snd x)) as [He|Hne]; [right; auto|left; lia].
    + rewrite Forall_forall in Hy, Hxl |- *. intros z Hz.
      destruct (Hy z Hz) as [Hlt|[He _]].
      * left. lia.
      * destruct (decide (snd z = snd x)) as [He'|Hne]; [right|left; lia].
        split; [symmetry; exact He'|apply Hxl, Hz].
Qed.

Lemma sort_by_count_stable (Q : relation (string * nat)) c :
  StronglySorted Q c ->
  StronglySorted (fun a b => snd b < snd a \/ (snd a = snd b /\ Q a b))
    (foldr insert_by_count [] c).
Proof.
  induction 1 as [|x c Hc IH Hx]; cbn [foldr]; [constructor|].
  apply insert_by_count_stable; [exact IH|].
  rewrite (proj1 (sort_by_count_spec c)). exact Hx.
Qed.

(** The keys of [most_common], all of them: by falling count, and in the
    order in which they were first met among equal counts. *)
Lemma most_common_order l :
  StronglySorted (more_common_or_first l)
    (fst <$> foldr insert_by_count [] (Counter l)).
Proof.
  destruct (Counter_spec l) as (_ & Hentry & _).
  pose proof (Counter_order l) as Horder.
  assert (HQ : StronglySorted
                 (fun a b : string * nat => first_position a.1 l < first_position b.1 l)
                 (Counter l)).
  { clear Hentry. induction (Counter l) as [|e es IH]; [constructor|].
    rewrite fmap_cons in Horder. apply StronglySorted_inv in Horder as [Hes He].
    constructor; [exact (IH Hes)|].
    rewrite Forall_fmap in He. exact He. }
  pose proof (sort_by_count_stable _ _ HQ) as Hsorted.
  assert (Hin : forall e, e ∈ foldr insert_by_count [] (Counter l) ->
                  e.2 = occurrences e.1 l).
  { intros [k n] He. rewrite (proj1 (sort_by_count_spec _)) in He. apply (Hentry _ _ He). }
  induction Hsorted as [|e es Hes IH He]; [constructor|].
  rewrite fmap_cons. constructor.
  - apply IH. intros e' He'. apply Hin. right. exact He'.
  - apply Forall_fmap, Forall_forall. intros e' He'.
    rewrite Forall_forall in He. specialize (He e' He').
    unfold more_common_or_first. cbn.
    rewrite <- (Hin e) by left. rewrite <- (Hin e') by (right; exact He').
    exact He.
Qed.

(** X23.  Among the spacing values, one that occurs more often comes
    first, and of two that occur equally often the one sampled first comes
    first.  So the first value, from which the snippets take their spacing
    base, is the most frequent sample, and the earliest of the most
    frequent ones. *)
Theorem common_spacing_units_ties_first_seen float obs :
  let units := analyze_layout_spacing float obs in
  let samples := match obs with Some els => spacing_samples float els | None => [] end in
  StronglySorted (more_common_or_first samples) units /\
  (forall u v, head units = Some u -> v ∈ samples -> v <> u ->
     more_common_or_first samples u v).
Proof.
  intros units samples. subst units.
  destruct (decide (samples = [])) as [He|Hne].
  { assert (Hunits : analyze_layout_spacing float obs = []).
    { subst samples. unfold analyze_layout_spacing. destruct obs as [els|]; [|reflexivity].
      rewrite He. reflexivity. }
    rewrite Hunits. split; [constructor|]. intros u v [=]. }
  assert (Hunits : analyze_layout_spacing float obs
                   = take 5 (fst <$> foldr insert_by_count [] (Counter samples))).
  { subst samples. unfold analyze_layout_spacing, most_common in *.
    destruct obs as [els|]; [|contradiction].
    rewrite bool_decide_eq_false_2 by exact Hne. apply fmap_take. }
  rewrite Hunits. clear Hunits.
  pose proof (most_common_order samples) as Hsorted.
  destruct (Counter_spec samples) as (_ & _ & Hall).
  set (keys := fst <$> foldr insert_by_count [] (Counter samples)) in *.
  split.
  - eapply StronglySorted_sublist_of; [apply sublist_take|exact Hsorted].
  - intros u v Hu Hv Hneq.
    assert (Hvk : v ∈ keys).
    { unfold keys. apply list_elem_of_fmap. exists (v, occurrences v samples).
      split; [reflexivity|]. rewrite (proj1 (sort_by_count_spec _)). apply Hall, Hv. }
    destruct keys as [|k keys']; [apply elem_of_nil in Hvk; contradiction|].
    cbn [take head] in Hu. injection Hu as ->.
    apply StronglySorted_inv in Hsorted as [_ Hfirst].
    apply elem_of_cons in Hvk as [->|Hvk]; [contradiction|].
    rewrite Forall_forall in Hfirst. apply Hfirst, Hvk.
Qed.

(** ** The AI view and the keywords *)

Ltac find_in_list := solve [left | right; find_in_list].

Ltac differs_at_first_character H :=
  repeat (apply elem_of_cons in H as [H|H];
          [apply (f_equal (String.get 0)) in H; vm_compute in H; discriminate|]);
  apply elem_of_nil in H; contradiction.

Lemma layout_desc_parts_spec l :
  ("grid-based layout" ∈ layout_desc_parts l <-> has_grid_system l = true) /\
  ("full-width layout" ∈ layout_desc_parts l <->
     number_truthy (container_width l) = false).
Proof.
  unfold layout_desc_parts.
  destruct (has_grid_system l), (number_truthy (container_width l)),
    (common_spacing_units l) as [|first rest]; cbn [app].
  all: split; split; intros H; try reflexivity; try discriminate; try find_in_list.
  all: differs_at_first_character H.
Qed.

Lemma comp_desc_parts_icons cs i :
  ("uses SVG icons" ∈ comp_desc_parts cs i <-> has_svg_icons i = true) /\
  ("uses icon fonts" ∈ comp_desc_parts cs i <->
     has_svg_icons i = false /\ has_icon_font i = true) /\
  ("shadowed cards/panels" ∈ comp_desc_parts cs i <->
     cards cs <> ∅ /\ Py.truthy (Py.dict_get (cards cs) "box_shadow" None) = true).
Proof.
  unfold comp_desc_parts.
  destruct (Py.truthy (Py.dict_get (buttons cs) "border_radius" (Some "0px"))
            && negb (bool_decide (Py.dict_get (buttons cs) "border_radius" (Some "0px")
                                  = Some "0px")));
    case_bool_decide as Hb; case_bool_decide as Hc;
    destruct (Py.truthy (Py.dict_get (cards cs) "box_shadow" None));
    destruct (has_svg_icons i); destruct (has_icon_font i).
  all: repeat split; try intros H; try literal_membership.
  all: try reflexivity; try discriminate; try exact Hc.
  all: try (destruct H as [H1 H2]; try contradiction; discriminate).
Qed.

(** X24.  On the layout and the icons the AI view and the style keywords
    agree: the view speaks of a grid-based layout exactly when the schema is
    tagged grid-layout, of a full-width layout exactly when it is tagged
    full-width-layout, of SVG icons exactly with svg-icons and of icon
    fonts exactly with icon-font; and it speaks of shadowed cards only in a
    schema tagged uses-shadows. *)
Theorem ai_view_agrees_with_keywords url now c t l cs i :
  let kw := style_keywords (generate_design_schema url now c t l cs i) in
  ("grid-based layout" ∈ layout_desc_parts l <-> "grid-layout" ∈ kw) /\
  ("full-width layout" ∈ layout_desc_parts l <-> "full-width-layout" ∈ kw) /\
  ("uses SVG icons" ∈ comp_desc_parts cs i <-> "svg-icons" ∈ kw) /\
  ("uses icon fonts" ∈ comp_desc_parts cs i <-> "icon-font" ∈ kw) /\
  ("shadowed cards/panels" ∈ comp_desc_parts cs i -> "uses-shadows" ∈ kw).
Proof.
  intros kw. subst kw.
  rewrite !elem_of_style_keywords, keyword_grid, keyword_full_width, keyword_svg,
    keyword_icon_font, keyword_shadows.
  destruct (layout_desc_parts_spec l) as [Hgrid Hfull].
  destruct (comp_desc_parts_icons cs i) as (Hsvg & Hfont & Hshadow).
  split; [exact Hgrid|]. split; [exact Hfull|]. split; [exact Hsvg|].
  split; [exact Hfont|].
  intros [_ Hcard]%Hshadow. unfold has_shadow. rewrite Hcard. reflexivity.
Qed.

End Extractor.

(** * The properties at sample inputs *)

(** ** The model run on sample inputs *)

Example rgb_to_hex_clamps :
  rgb_to_hex cpython_default_limit (Some "RGBA(300, 0, 12, 0.5)") = Some "#ff000c".
Proof. vm_compute. reflexivity. Qed.

Example rgb_to_hex_two_numbers :
  rgb_to_hex cpython_default_limit (Some "rgb(12, 7)") = None.
Proof. vm_compute. reflexivity. Qed.

Example two_colors_alias_accent :
  assign_roles "#ffffff" "#000000" ["#ff0000"; "#0000ff"] =
  {| role_primary := "#ff0000"; role_secondary := "#0000ff"; role_accent := "#ff0000" |}.
Proof. vm_compute. reflexivity. Qed.

Example three_grays_fall_back :
  assign_roles "#ffffff" "#000000" ["#ffffff"; "#808080"; "#000000"] =
  {| role_primary := "#808080"; role_secondary := "#808080"; role_accent := "#000000" |}.
Proof. vm_compute. reflexivity. Qed.

Example search_theme_first_segment :
  search_theme "<link href='/WP-Content/themes/astra/style.css'>" = Some "astra".
Proof. vm_compute. reflexivity. Qed.

Example spacing_of_sampled_elements :
  spacing_samples decimal_gt_zero sampled_elements = [".5px"; "16px"; ".5px"; "24px"] /\
  analyze_layout_spacing decimal_gt_zero (Some sampled_elements) = [".5px"; "16px"; "24px"].
Proof. vm_compute. split; reflexivity. Qed.

Example wordpress_plugin_applied :
  metadata
    (enhance_with_plugins _PLUGINS plain_schema "wordpress"
       "<link href='/wp-content/themes/astra/style.css'>" None) =
  {| source_url := "https://example.com/"; extraction_date := "2024-01-01T00:00:00";
     schema_version := "1.0";
     cms := Some {| cms_type := "wordpress"; cms_theme := Some "astra" |} |}.
Proof. vm_compute. reflexivity. Qed.

(** A concrete list is an enumeration of a concrete set: by evaluation. *)
Ltac listing_by_evaluation :=
  apply set_listing_of_list;
  [ apply (bool_decide_unpack _); vm_compute; exact I
  | vm_compute; reflexivity ].

(** C1 on the code.  For one and the same input the resolver can return
    different primary (and secondary) colors: red, green and blue come out
    of [list(valid_hex_colors)] in an order the program does not fix.  Only
    the palette, the background and the text color are the same in all
    runs. *)
Theorem roles_depend_on_set_order :
  exists out1 out2,
    extract_color_palette_returns cpython_default_limit rgb_signals out1 /\
    extract_color_palette_returns cpython_default_limit rgb_signals out2 /\
    primary_color out1 = "#ff0000" /\ primary_color out2 = "#00ff00" /\
    primary_color out1 <> primary_color out2 /\
    palette out1 = palette out2.
Proof.
  exists (extract_color_palette cpython_default_limit rgb_signals
            ["#ff0000"; "#00ff00"; "#0000ff"]),
         (extract_color_palette cpython_default_limit rgb_signals
            ["#00ff00"; "#ff0000"; "#0000ff"]).
  split; [|split].
  - exists ["#ff0000"; "#00ff00"; "#0000ff"]. split; [listing_by_evaluation|reflexivity].
  - exists ["#00ff00"; "#ff0000"; "#0000ff"]. split; [listing_by_evaluation|reflexivity].
  - vm_compute. repeat split. discriminate.
Qed.



(** The canonical form of every color emitted for red, green and blue. *)
Lemma emitted_colors_canonical_witness :
  let out := extract_color_palette cpython_default_limit rgb_signals
               ["#0000ff"; "#ff0000"; "#00ff00"] in
  extract_color_palette_returns cpython_default_limit rgb_signals out /\
  Forall (fun c => Py.is_hex6_lower c = true)
         [primary_color out; secondary_color out; accent_color out;
          background_color out; text_color out] /\
  Forall (fun c => Py.is_hex6_lower c = true) (palette out) /\
  length (palette out) <= 15 /\
  NoDup (Py.lower <$> palette out).
Proof.
  intros out.
  assert (Hret : extract_color_palette_returns cpython_default_limit rgb_signals out).
  { exists ["#0000ff"; "#ff0000"; "#00ff00"]. split; [listing_by_evaluation|reflexivity]. }
  split; [exact Hret|].
  exact (emitted_colors_canonical cpython_default_limit rgb_signals out Hret).
Defined.

(** C3 refuted as stated: with no color at all the keywords hold no
    "limited-palette". *)
Lemma zero_colors_without_limited_palette :
  ~ (forall sig out url now t l cs i,
       valid_hex_colors cpython_default_limit sig = ∅ ->
       extract_color_palette_returns cpython_default_limit sig out ->
       "limited-palette" ∈ style_keywords (generate_design_schema url now out t l cs i)).
Proof.
  intros H.
  specialize (H no_signals (extract_color_palette cpython_default_limit no_signals [])
                "https://example.com/" "2024-01-01T00:00:00"
                plain_typography plain_layout no_components no_images).
  assert (Hin : "limited-palette" ∈
                style_keywords
                  (generate_design_schema "https://example.com/" "2024-01-01T00:00:00"
                     (extract_color_palette cpython_default_limit no_signals [])
                     plain_typography plain_layout no_components no_images)).
  { apply H; [vm_compute; reflexivity|].
    exists []. split; [listing_by_evaluation|reflexivity]. }
  apply elem_of_style_keywords, keyword_limited_palette in Hin.
  simpl in Hin. lia.
Qed.

(** The defaults for a page without any color signal. *)
Lemma zero_colors_defaults_witness :
  let out := extract_color_palette cpython_default_limit no_signals [] in
  valid_hex_colors cpython_default_limit no_signals = ∅ /\
  extract_color_palette_returns cpython_default_limit no_signals out /\
  primary_color out = "#0000ff" /\
  secondary_color out = "#d3d3d3" /\
  accent_color out = "#ffa500" /\
  palette out = [] /\
  ("limited-palette" ∉
     style_keywords (generate_design_schema "https://example.com/" "2024-01-01T00:00:00"
                       out plain_typography plain_layout no_components no_images)).
Proof.
  intros out.
  assert (Hempty : valid_hex_colors cpython_default_limit no_signals = ∅)
    by (vm_compute; reflexivity).
  assert (Hret : extract_color_palette_returns cpython_default_limit no_signals out).
  { exists []. split; [listing_by_evaluation|reflexivity]. }
  split; [exact Hempty|split; [exact Hret|]].
  destruct (zero_colors_defaults cpython_default_limit no_signals out
              "https://example.com/" "2024-01-01T00:00:00"
              plain_typography plain_layout no_components no_images Hempty Hret)
    as (Hp & Hs & Ha & Hpal & Hkw & _).
  auto.
Defined.

(** C6 refuted as stated: when the documentation deriver raises, its output
    is the empty string, not null. *)
Lemma failed_documentation_is_not_null :
  ~ (forall json_deep_copy describe render_snippets documentation_body s,
       documentation_body s = None ->
       res_documentation
         (derive_artifacts json_deep_copy describe render_snippets documentation_body
            true true true s) = None).
Proof.
  intros H.
  specialize (H Some (fun _ => (∅, [])) (fun _ => None) (fun _ => None)
                plain_schema eq_refl).
  discriminate H.
Qed.

(** All three derivers failing at once: empty documentation, null snippets,
    the original schema as AI view. *)
Lemma deriver_failures_contained_witness :
  let documentation_body := fun _ : DesignSchema => @None string in
  documentation_body plain_schema = None /\
  generate_documentation documentation_body plain_schema = "" /\
  res_documentation
    (derive_artifacts (fun _ => None) (fun _ => (∅, [])) (fun _ => None)
       documentation_body true true true plain_schema) = Some "" /\
  res_code_snippets
    (derive_artifacts (fun _ => None) (fun _ => (∅, [])) (fun _ => None)
       documentation_body true true true plain_schema) = None /\
  res_ai_optimized_schema
    (derive_artifacts (fun _ => None) (fun _ => (∅, [])) (fun _ => None)
       documentation_body true true true plain_schema)
    = Some {| ai_schema := plain_schema; ai_consumption := None |}.
Proof.
  intros documentation_body.
  destruct (deriver_failures_contained (fun _ => None) (fun _ => (∅, [])) (fun _ => None)
              documentation_body true true true plain_schema)
    as (_ & Hai & Hcode & Hdocs & Hrender & Hdoc & Hcopy & _).
  split; [reflexivity|].
  split; [exact (Hdoc eq_refl)|].
  split; [rewrite Hdocs, (Hdoc eq_refl); reflexivity|].
  split; [rewrite Hcode; exact (Hrender eq_refl)|].
  rewrite Hai, (Hcopy eq_refl). reflexivity.
Defined.

(** C7 refuted as stated: spacing samples were collected, the first one is
    .5px, and the spacing base is 8, which is not its leading integer. *)
Lemma spacing_base_is_not_leading_integer :
  ~ (forall (s : DesignSchema) first rest,
       common_spacing_units (layout s) = first :: rest ->
       is_leading_integer_of first (sv_spacing_unit_val (snippet_values s))).
Proof.
  intros H.
  destruct (H half_pixel_schema ".5px" ["16px"; "24px"] eq_refl) as (_ & _ & r & Hr & _).
  vm_compute in Hr. discriminate Hr.
Qed.

(** The bases without spacing units or radii, and for a first unit .5px. *)
Lemma spacing_and_radius_bases_witness :
  common_spacing_units (layout plain_schema) = [] /\
  sv_spacing_unit_val (snippet_values plain_schema) = "8" /\
  sv_spacing_unit (snippet_values plain_schema) = "8px" /\
  sv_border_radius_val (snippet_values plain_schema) = "4" /\
  sv_spacing_unit_val (snippet_values half_pixel_schema) = "8".
Proof.
  destruct (spacing_and_radius_bases (fun _ => None) (Some []) plain_schema)
    as (_ & Hnone & _ & _ & Hmissing & _).
  destruct (spacing_and_radius_bases (fun _ => None) None half_pixel_schema)
    as (_ & _ & Hfirst & _).
  split; [reflexivity|].
  split; [exact (proj1 (Hnone eq_refl))|].
  split; [exact (proj2 (Hnone eq_refl))|].
  split; [apply Hmissing; left; reflexivity|].
  exact (proj2 (Hfirst ".5px" ["16px"; "24px"] eq_refl) eq_refl).
Defined.

(** A page with a quoted body font, no body size, an empty line height, a
    complete h1 and an h2 without size. *)
Lemma typography_defaults_and_headings_witness :
  let t := extract_typography quoted_font_signals in
  font_size (body t) = "16px" /\
  line_height (body t) = "normal" /\
  font_weight (body t) = "700" /\
  quotes_stripped "'Georgia'" (font_family (body t)) /\
  headings t !! "h1" =
    Some {| heading_font_family := "Playfair Display"; heading_font_size := "32px";
            heading_font_weight := "700" |} /\
  headings t !! "h2" = None.
Proof.
  intros t.
  destruct (typography_defaults_and_headings quoted_font_signals)
    as (_ & Hbody & Hheadings).
  destruct (Hbody _ eq_refl) as (_ & Hsize & _ & Hline & Hfam & _ & Hweight & _).
  split; [apply Hsize; left; reflexivity|].
  split; [apply Hline; right; reflexivity|].
  split; [apply Hweight; [reflexivity|discriminate]|].
  split; [apply Hfam; [reflexivity|discriminate]|].
  split; [vm_compute; reflexivity|].
  destruct (headings t !! "h2") as [h|] eqn:E; [|reflexivity].
  destruct (Hheadings "h2" h E) as (_ & ff & fs & fw & Hprobe & _).
  discriminate Hprobe.
Defined.

(** The registry of the source: [WordPressPlugin] is skipped for a page
    classified as general and called for a WordPress page.  And a registry
    in which a plugin that raises stands before [WordPressPlugin]: the
    WordPress plugin is called all the same, on the schema that the failed
    plugin left, and its entries are in the schema returned. *)
Lemma plugins_dispatched_by_type_witness :
  (forall p, p ∈ _PLUGINS -> "general" ∉ applicable_types p) /\
  enhance_with_plugins _PLUGINS plain_schema "general" "<html></html>" None = plain_schema /\
  0 ∈ invoked (enhance_loop _PLUGINS plain_schema "wordpress" "<html></html>" None) /\
  let registry := [failing_plugin; WordPressPlugin] in
  let page := "<link href='/wp-content/themes/astra/style.css'>" in
  let st := enhance_loop registry plain_schema "wordpress" page None in
  1 ∈ invoked st /\
  applied_plugins st = ["wordpress_enhancer"] /\
  cms (metadata (enhance_with_plugins registry plain_schema "wordpress" page None)) =
    Some {| cms_type := "wordpress"; cms_theme := Some "astra" |} /\
  sidebar (components (enhance_with_plugins registry plain_schema "wordpress" page None)) =
    Some {| sidebar_present := false; sidebar_width := None |}.
Proof.
  assert (Hnone : forall p, p ∈ _PLUGINS -> "general" ∉ applicable_types p).
  { intros p Hp. apply list_elem_of_singleton in Hp as ->.
    cbn [applicable_types WordPressPlugin]. intros H.
    apply list_elem_of_singleton in H. discriminate H. }
  split; [exact Hnone|].
  destruct (plugins_dispatched_by_type _PLUGINS plain_schema "general" "<html></html>" None)
    as (_ & Hunchanged & _).
  destruct (plugins_dispatched_by_type _PLUGINS plain_schema "wordpress" "<html></html>" None)
    as (_ & _ & Hcalled & _).
  split; [exact (proj1 (Hunchanged Hnone))|].
  split; [apply (Hcalled 0 WordPressPlugin eq_refl); left|].
  intros registry page st.
  destruct (plugins_dispatched_by_type registry plain_schema "wordpress" page None)
    as (_ & _ & _ & _ & _ & Hafter).
  destruct (Hafter [] failing_plugin [WordPressPlugin]
              (set_sidebar plain_schema {| sidebar_present := false; sidebar_width := None |})
              eq_refl ltac:(left) eq_refl) as (Hschema & Hnames & Hlater).
  split; [exact (Hlater 0 WordPressPlugin eq_refl ltac:(left))|].
  split; [exact Hnames|].
  rewrite Hschema. split; vm_compute; reflexivity.
Defined.

(** A hex literal and a color name are rejected and add nothing to the
    set of valid colors. *)
Lemma rgb_to_hex_safe_witness :
  Py.contains "rgb" (Py.lower "#ff0000") = false /\
  rgb_to_hex cpython_default_limit (Some "#ff0000") = None /\
  rgb_to_hex cpython_default_limit (Some "DarkOrange") = None /\
  valid_hex_colors cpython_default_limit (add_css_value "#ff0000" no_signals) = ∅.
Proof.
  destruct (rgb_to_hex_safe cpython_default_limit) as (_ & Hgate).
  split; [reflexivity|].
  split; [exact (proj1 (Hgate "#ff0000" eq_refl))|].
  split; [exact (proj1 (Hgate "DarkOrange" eq_refl))|].
  rewrite (proj1 (proj2 (Hgate "#ff0000" eq_refl) no_signals)).
  vm_compute. reflexivity.
Defined.

(** * Further properties at sample inputs *)

(** An out-of-range component is cut at 255, and the alpha text is ignored. *)
Lemma rgb_to_hex_round_trip_witness :
  int_accepts cpython_default_limit (decimal_of_N 300) /\
  exists h,
    rgb_to_hex cpython_default_limit (Some (css_rgb 300 0 41)) = Some h /\
    rgb_to_hex cpython_default_limit (Some (css_rgba 300 0 41 "0.5")) = Some h /\
    hex_components h = Some (255, 0, 41)%N.
Proof.
  split; [vm_compute; discriminate|].
  apply (rgb_to_hex_round_trip cpython_default_limit 300 0 41 "0.5");
    vm_compute; discriminate.
Defined.

(** Green, blue and red on a white page with dark text. *)
Lemma non_gray_roles_distinct_witness :
  let r := assign_roles "#ffffff" "#212529" ["#00ff00"; "#0000ff"; "#ff0000"] in
  NoDup [role_primary r; role_secondary r; role_accent r] /\
  Forall (fun c => c ∈ ["#00ff00"; "#0000ff"; "#ff0000"] /\
                   not_in_lower c ["#ffffff"; "#212529"] = true /\
                   is_grayscale c = false)
         [role_primary r; role_secondary r; role_accent r].
Proof.
  apply (non_gray_roles_distinct "#ffffff" "#212529" ["#00ff00"; "#0000ff"; "#ff0000"]).
  - apply (bool_decide_unpack _). vm_compute. exact I.
  - vm_compute. repeat constructor.
Defined.

(** Two detected colors: primary and accent are taken from them. *)
Lemma roles_come_from_detected_colors_witness :
  let r := assign_roles "#ffffff" "#000000" ["#ff0000"; "#0000ff"] in
  role_primary r ∈ ["#ff0000"; "#0000ff"] /\ role_accent r ∈ ["#ff0000"; "#0000ff"].
Proof.
  intros r.
  pose proof (roles_come_from_detected_colors "#ffffff" "#000000" ["#ff0000"; "#0000ff"]
                ltac:(discriminate)) as (Hp & Ha & _).
  split; [exact Hp|exact Ha].
Defined.

(** The palette of red, green and blue holds all three. *)
Lemma palette_keeps_smallest_witness :
  set_listing (valid_hex_colors cpython_default_limit rgb_signals)
              ["#00ff00"; "#0000ff"; "#ff0000"] /\
  length (palette (extract_color_palette cpython_default_limit rgb_signals
                     ["#00ff00"; "#0000ff"; "#ff0000"])) = 3.
Proof.
  assert (Hl : set_listing (valid_hex_colors cpython_default_limit rgb_signals)
                           ["#00ff00"; "#0000ff"; "#ff0000"]).
  { listing_by_evaluation. }
  split; [exact Hl|].
  exact (proj1 (proj2 (palette_keeps_smallest cpython_default_limit rgb_signals _ Hl))).
Defined.

(** The descriptions for red, green and blue on a page without components. *)
Lemma descriptions_of_assembled_schema_witness :
  let s := generate_design_schema "https://example.com/" "2024-01-01T00:00:00"
             (extract_color_palette cpython_default_limit rgb_signals
                ["#00ff00"; "#0000ff"; "#ff0000"])
             plain_typography plain_layout no_components no_images in
  set_listing (valid_hex_colors cpython_default_limit rgb_signals)
              ["#00ff00"; "#0000ff"; "#ff0000"] /\
  Forall (fun key => exists text, fst (describe_schema s) !! key = Some text /\ text <> "")
    ["overall_style"; "color_scheme"; "typography"; "layout_spacing";
     "component_styles"] /\
  length (snd (describe_schema s)) = 3.
Proof.
  intros s.
  assert (Hl : set_listing (valid_hex_colors cpython_default_limit rgb_signals)
                           ["#00ff00"; "#0000ff"; "#ff0000"]).
  { listing_by_evaluation. }
  split; [exact Hl|].
  pose proof (descriptions_of_assembled_schema cpython_default_limit
                "https://example.com/" "2024-01-01T00:00:00" rgb_signals _
                plain_typography plain_layout no_components no_images Hl)
    as (Hfilled & _ & _ & Hprompts).
  split; [exact Hfilled|exact Hprompts].
Defined.

(** A quoted first family followed by two fallbacks. *)
Lemma first_font_of_a_font_stack_witness :
  let quote := String double_quote "" in
  let st := {| body_fontFamily :=
                 Some (quote +:+ "Open Sans" +:+ quote +:+ ", Arial, sans-serif");
               body_fontSize := Some "16px"; body_fontWeight := Some "400";
               body_lineHeight := Some "24px" |} in
  plain_font_name "Open Sans" /\
  first_font (font_family (extract_body (Some st))) = "Open Sans".
Proof.
  intros quote st.
  assert (Hname : plain_font_name "Open Sans").
  { split; [discriminate|]. repeat split; vm_compute; reflexivity. }
  split; [exact Hname|].
  apply (first_font_of_a_font_stack "Open Sans" quote quote ", Arial, sans-serif" st Hname).
  - reflexivity.
  - reflexivity.
  - right. exists " Arial, sans-serif". reflexivity.
  - reflexivity.
Defined.

(** A page whose only heading is an h4: the body font stands in. *)
Lemma only_major_headings_are_consulted_witness :
  let t := {| headings := {[ "h4" := {| heading_font_family := "Georgia";
                                        heading_font_size := "18px";
                                        heading_font_weight := "700" |} ]};
              body := default_body |} in
  heading_font t = "sans-serif" /\ heading_font_raw t = "sans-serif".
Proof.
  intros t.
  assert (Hnone : forall tag, tag ∈ ["h1"; "h2"; "h3"] -> headings t !! tag = None).
  { intros tag Htag.
    repeat (apply elem_of_cons in Htag as [->|Htag]; [reflexivity|]).
    apply elem_of_nil in Htag. contradiction. }
  destruct (only_major_headings_are_consulted t Hnone) as (Hfont & Hraw & _).
  split; [exact Hfont|exact Hraw].
Defined.
